(** * AM215 section 1: Gamma MLE, likelihood contour and synthetic reviews

    A shallow embedding of the three scripts of the repository

      - [50_gamma_mle.py]                        (module [GammaMle])
      - [60_plot_gamma.py]                       (module [PlotGamma])
      - [peek_behind_the_curtain/generate_data.py] (module [GenerateData])

    and the properties of them that the specification states.

    Numbers.  The scripts compute with NumPy [float64].  Finite values are
    carried as real numbers with exact arithmetic (rounding and overflow are
    not represented); the three non-finite values that the scripts test for
    ([nan], [inf], [-inf]) are constructors of [Py.float64].  The
    likelihood grid of [plot_ll_contour] is embedded a second time, in
    module [PlotGammaIeee] over the arithmetic of module [Ieee], where an
    operation can overflow to an infinity and produce [nan] (rounding
    inside the range is still not represented): the properties of the grid
    that depend on the scale of the data are stated there.  Library
    routines whose code is not part of the repository (SciPy's [gammaln],
    [gamma.fit], [gamma.pdf], NumPy's [percentile] and random generator,
    Python's [random.Random], [datetime], [csv] and float formatting) are
    operations of type classes; the repository code is written against
    them.  [gamma.fit] may raise; creating a directory, writing a file and
    drawing a figure are taken to succeed. *)

From Stdlib Require Import Reals List String Ascii Bool Arith ZArith.
From Stdlib Require Import Lia Lra Permutation DecimalString.
Import ListNotations.

Set Warnings "-register-all".

Open Scope string_scope.
Open Scope R_scope.

(* ================================================================== *)
(** * The Python run time the scripts rely on *)
(* ================================================================== *)

Module Py.

(** ** float64 values *)

Inductive float64 : Type :=
| Fin (r : R)
| PInf
| NInf
| NaN.

Definition Rltb (a b : R) : bool := if Rlt_dec a b then true else false.

(** [np.isfinite(v)] *)
Definition isfinite (v : float64) : bool :=
  match v with Fin _ => true | _ => false end.

(** [v > 0] on a float64: false on [nan]. *)
Definition gt_zero (v : float64) : bool :=
  match v with
  | Fin r => Rltb 0 r
  | PInf => true
  | NInf | NaN => false
  end.

(** The finite entries of an array, as reals.  On an array that was
    filtered by [np.isfinite] nothing is dropped. *)
Definition finite_values (x : list float64) : list R :=
  flat_map (fun v => match v with Fin r => [r] | _ => [] end) x.

(** Python's built-in [max(a, b)]: the first argument unless the second is
    strictly larger. *)
Definition py_max (a b : R) : R := if Rlt_dec a b then b else a.

(** [np.sum], [x.mean()], [x.max()] on a one-dimensional array. *)
Definition np_sum (x : list R) : R := fold_right Rplus 0 x.

Definition np_mean (x : list R) : R := np_sum x / INR (List.length x).

Definition np_max (x : list R) : option R :=
  match x with
  | [] => None
  | v :: vs => Some (fold_left Rmax vs v)
  end.

(** [np.nanmax] of a two-dimensional array: the largest cell (cells are
    reals, none is [nan]); an empty array is a [ValueError]. *)
Definition np_nanmax (m : list (list R)) : option R := np_max (List.concat m).

(** [np.linspace(start, stop, num)] with the default [endpoint=True]:
    [arange(num) * step + start] with [step = (stop - start) / (num - 1)],
    and the last sample overwritten by [stop]. *)
Definition linspace (start stop : R) (num : nat) : list R :=
  match num with
  | O => []
  | S O => [start]
  | S div =>
      let step := (stop - start) / INR div in
      map (fun i => INR i * step + start) (seq 0 div) ++ [stop]
  end.

(** [np.meshgrid(K, T, indexing="xy")]: both results have one row per
    element of [T] and one column per element of [K]. *)
Definition meshgrid (K T : list R) : list (list R) * list (list R) :=
  (map (fun _ => K) T, map (fun t => map (fun _ => t) K) T).

Fixpoint zip_with {A B C : Type} (f : A -> B -> C)
         (a : list A) (b : list B) : list C :=
  match a, b with
  | x :: a', y :: b' => f x y :: zip_with f a' b'
  | _, _ => []
  end.

(** Cell-wise combination of two arrays of the same shape. *)
Definition mat_zip_with (f : R -> R -> R)
           (A B : list (list R)) : list (list R) :=
  zip_with (zip_with f) A B.

Definition mat_map (f : R -> R) (A : list (list R)) : list (list R) :=
  map (map f) A.

(** [A.T] of a rectangular array. *)
Definition transpose (A : list (list R)) : list (list R) :=
  match A with
  | [] => []
  | row :: _ =>
      map (fun i => map (fun r => nth i r 0) A) (seq 0 (List.length row))
  end.

(** ** Exceptions and outcomes *)

Inductive exn : Type :=
| SystemExit (msg : string)
| IndexError
| KeyError
| ValueError
| TypeError
| FileNotFoundError
| URLError
| HTTPError
| TimeoutError
| UnicodeDecodeError
| JSONDecodeError.

Inductive outcome (A : Type) : Type :=
| Return (a : A)
| Raise (e : exn).
Arguments Return {A} a.
Arguments Raise {A} e.

(** ** Figures and files *)

(** A figure is the list of pyplot calls made on it, in order. *)
Inductive plot_cmd : Type :=
| Hist (x : list R) (bins : nat)
| Plot (xs ys : list R)
| Contour (X Y : list R) (Z : list (list R)) (levels : list R)
| CLabel (fmt : string)
| Scatter (xs ys : list R)
| XLabel (s : string)
| YLabel (s : string)
| Title (s : string)
| TightLayout.

Definition figure : Type := list plot_cmd.

Inductive artifact : Type :=
| TextFile (content : string)
| PngFile (fig : figure).

(** ** Tables *)

(** A column of a [pandas.DataFrame] read from a TSV file: its header, whether
    its dtype is numeric, and its cells as [pd.to_numeric(...,
    errors="coerce").to_numpy()] gives them (a cell that is missing or is not
    a number is [nan]). *)
Record column : Type := {
  col_name : string;
  col_numeric : bool;
  col_values : list float64
}.

Definition DataFrame : Type := list column.

Definition columns (df : DataFrame) : list string := map col_name df.

(** [c in df.columns] *)
Definition in_columns (c : string) (df : DataFrame) : bool :=
  existsb (String.eqb c) (columns df).

(** [pd.to_numeric(df[c], errors="coerce").to_numpy()] *)
Definition to_numeric (df : DataFrame) (c : string) : outcome (list float64) :=
  match find (fun col => String.eqb c (col_name col)) df with
  | Some col => Return (col_values col)
  | None => Raise KeyError
  end.

(** ** JSON values and the replies of the text-generation service *)

(** What [json.loads] returns.  A number is carried by the text that
    [str] prints for it; a dict by its items. *)
Inductive json : Type :=
| JNull
| JBool (b : bool)
| JNum (text : string)
| JStr (s : string)
| JList (l : list json)
| JDict (items : list (string * json)).

(** The ways in which [urllib.request.urlopen(req, timeout=60)],
    [resp.read()], [.decode("utf-8")] and [json.loads] fail. *)
Inductive service_error : Type :=
| Timeout
| ConnectionFailed
| HttpStatus (code : nat)
| BadEncoding
| BadJson.

(** The exception that each failure raises. *)
Definition exn_of_service_error (e : service_error) : exn :=
  match e with
  | Timeout => TimeoutError
  | ConnectionFailed => URLError
  | HttpStatus _ => HTTPError
  | BadEncoding => UnicodeDecodeError
  | BadJson => JSONDecodeError
  end.

(** What the four calls give together for one request: the decoded JSON
    document, or the failure of one of them. *)
Inductive http_reply : Type :=
| Fails (e : service_error)
| Json (data : json).

(** ** The world of one script run: the disk, standard output and the
       network *)

Record world : Type := {
  tsv_inputs : list (string * DataFrame);
  files : list (string * artifact);
  dirs : list string;
  stdout : list string;
  (** the replies that the inference service will give, one per request *)
  http : list http_reply
}.

(** Computations over a state [S] that may raise.  What was done to the
    state before an exception stays done. *)
Definition ST (S A : Type) : Type := S -> outcome A * S.

Definition ret {S A : Type} (a : A) : ST S A := fun s => (Return a, s).

Definition raise {S A : Type} (e : exn) : ST S A := fun s => (Raise e, s).

Definition bind {S A B : Type} (c : ST S A) (k : A -> ST S B) : ST S B :=
  fun s =>
    match c s with
    | (Return a, s') => k a s'
    | (Raise e, s') => (Raise e, s')
    end.

Definition lift {S A : Type} (o : outcome A) : ST S A := fun s => (o, s).

(** A script run acts on the world. *)
Definition M (A : Type) : Type := ST world A.

Fixpoint lookup {A : Type} (k : string) (l : list (string * A)) : option A :=
  match l with
  | [] => None
  | (k', a) :: l' => if String.eqb k k' then Some a else lookup k l'
  end.

(** [pd.read_csv(path, sep="\t")] *)
Definition read_csv (path : string) : M DataFrame :=
  fun w =>
    match lookup path (tsv_inputs w) with
    | Some df => (Return df, w)
    | None => (Raise FileNotFoundError, w)
    end.

(** [os.makedirs(d, exist_ok=True)] *)
Definition makedirs (d : string) : M unit :=
  fun w =>
    (Return tt,
     {| tsv_inputs := tsv_inputs w; files := files w;
        dirs := d :: dirs w; stdout := stdout w; http := http w |}).

(** Writing (or overwriting) a file; the write is taken to succeed. *)
Definition write_file (path : string) (a : artifact) : M unit :=
  fun w =>
    (Return tt,
     {| tsv_inputs := tsv_inputs w; files := (path, a) :: files w;
        dirs := dirs w; stdout := stdout w; http := http w |}).

Definition print (line : string) : M unit :=
  fun w =>
    (Return tt,
     {| tsv_inputs := tsv_inputs w; files := files w;
        dirs := dirs w; stdout := stdout w ++ [line]; http := http w |}).

(** One request to the inference service: the next reply is consumed; with
    no reply left the connection fails. *)
Definition next_reply : M json :=
  fun w =>
    match http w with
    | [] => (Raise URLError, w)
    | r :: rest =>
        let w' := {| tsv_inputs := tsv_inputs w; files := files w;
                     dirs := dirs w; stdout := stdout w; http := rest |} in
        match r with
        | Fails e => (Raise (exn_of_service_error e), w')
        | Json data => (Return data, w')
        end
    end.

(** [except Exception] catches every exception but [SystemExit]. *)
Definition is_Exception (e : exn) : bool :=
  match e with SystemExit _ => false | _ => true end.

(** [try: body  except Exception: handler] *)
Definition try_except {S A : Type} (body handler : ST S A) : ST S A :=
  fun s =>
    match body s with
    | (Raise e, s') => if is_Exception e then handler s' else (Raise e, s')
    | r => r
    end.

(** ** Paths: [os.path.dirname] (POSIX) *)

Definition slash : ascii := "/"%char.

(** The prefix of [s] up to and including its last slash. *)
Fixpoint head_with_slash (s : string) : option string :=
  match s with
  | EmptyString => None
  | String c rest =>
      match head_with_slash rest with
      | Some h => Some (String c h)
      | None => if Ascii.eqb c slash then Some (String c EmptyString) else None
      end
  end.

Fixpoint all_slashes (s : string) : bool :=
  match s with
  | EmptyString => true
  | String c rest => Ascii.eqb c slash && all_slashes rest
  end.

(** [s.rstrip("/")] *)
Fixpoint rstrip_slashes (s : string) : string :=
  match s with
  | EmptyString => EmptyString
  | String c rest =>
      match rstrip_slashes rest with
      | EmptyString => if Ascii.eqb c slash then EmptyString
                       else String c EmptyString
      | rest' => String c rest'
      end
  end.

Definition dirname (p : string) : string :=
  match head_with_slash p with
  | None => ""
  | Some h => if all_slashes h then h else rstrip_slashes h
  end.

(** [os.path.dirname(p) or "."] *)
Definition dirname_or_dot (p : string) : string :=
  match dirname p with
  | EmptyString => "."
  | d => d
  end.

(** [str(n)] of a non-negative integer. *)
Definition str_of_nat (n : nat) : string :=
  NilZero.string_of_uint (Nat.to_uint n).

(** ** [str] methods, on the ASCII range *)

(** The characters [str.strip()] removes: tab .. carriage return, the four
    separators 28 .. 31, and the space. *)
Definition is_space (c : ascii) : bool :=
  let n := nat_of_ascii c in
  (Nat.leb 9 n && Nat.leb n 13) || (Nat.leb 28 n && Nat.leb n 32).

Fixpoint lstrip (s : string) : string :=
  match s with
  | EmptyString => EmptyString
  | String c rest => if is_space c then lstrip rest else s
  end.

Fixpoint rstrip (s : string) : string :=
  match s with
  | EmptyString => EmptyString
  | String c rest =>
      match rstrip rest with
      | EmptyString => if is_space c then EmptyString
                       else String c EmptyString
      | rest' => String c rest'
      end
  end.

Definition strip (s : string) : string := lstrip (rstrip s).

Definition upper_char (c : ascii) : ascii :=
  let n := nat_of_ascii c in
  if Nat.leb 97 n && Nat.leb n 122 then ascii_of_nat (n - 32) else c.

Fixpoint upper (s : string) : string :=
  match s with
  | EmptyString => EmptyString
  | String c rest => String (upper_char c) (upper rest)
  end.

(** [s.startswith(p)] *)
Definition startswith (s p : string) : bool := String.prefix p s.

(** [p in s] for two strings. *)
Fixpoint contains (s p : string) : bool :=
  String.prefix p s ||
  match s with
  | EmptyString => false
  | String _ rest => contains rest p
  end.

(** The line boundaries of [str.splitlines()]: line feed, vertical tab, form
    feed, carriage return (alone or before a line feed) and the separators
    28 .. 30. *)
Definition is_linebreak (c : ascii) : bool :=
  let n := nat_of_ascii c in
  (Nat.leb 10 n && Nat.leb n 13) || (Nat.leb 28 n && Nat.leb n 30).

Fixpoint splitlines_from (line s : string) : list string :=
  match s with
  | EmptyString =>
      match line with
      | EmptyString => []
      | _ => [line]
      end
  | String c rest =>
      if Nat.eqb (nat_of_ascii c) 13 then
        match rest with
        | String c2 rest2 =>
            if Nat.eqb (nat_of_ascii c2) 10
            then line :: splitlines_from EmptyString rest2
            else line :: splitlines_from EmptyString rest
        | EmptyString => [line]
        end
      else if is_linebreak c then line :: splitlines_from EmptyString rest
      else splitlines_from (line ++ String c EmptyString) rest
  end.

Definition splitlines (s : string) : list string :=
  splitlines_from EmptyString s.

(** [s.split(":", 1)]: one piece, or the text before and after the first
    colon. *)
Fixpoint split_colon_1 (s : string) : list string :=
  match s with
  | EmptyString => [EmptyString]
  | String c rest =>
      if Ascii.eqb c ":"%char then [EmptyString; rest]
      else match split_colon_1 rest with
           | p :: ps => String c p :: ps
           | [] => []
           end
  end.

(** [l[i]] *)
Definition getitem {A : Type} (l : list A) (i : nat) : outcome A :=
  match nth_error l i with
  | Some a => Return a
  | None => Raise IndexError
  end.

(** [f"{n:03d}"] of a non-negative integer. *)
Definition format_03d (n : nat) : string :=
  let s := str_of_nat n in
  match String.length s with
  | 0%nat => "000" ++ s
  | 1%nat => "00" ++ s
  | 2%nat => "0" ++ s
  | _ => s
  end.

End Py.

Declare Scope py_scope.
Delimit Scope py_scope with py.
Notation "x <- c ;; k" := (Py.bind c (fun x => k))
  (at level 61, c at next level, right associativity) : py_scope.
Notation "c ;;; k" := (Py.bind c (fun _ => k))
  (at level 61, right associativity) : py_scope.

(** ** Library routines *)

(** SciPy and NumPy routines used by the estimator and the renderer. *)
Class SciPy : Type := {
  (** [scipy.special.gammaln] *)
  gammaln : R -> R;
  (** [scipy.stats.gamma.fit(x, floc=0)]: [(k, loc, theta)], or the
      exception the routine raises on a sample it cannot fit *)
  gamma_fit_floc0 : list R -> Py.outcome (R * R * R);
  (** [scipy.stats.gamma.pdf(grid, a=k, loc=0.0, scale=theta)] *)
  gamma_pdf : list R -> R -> R -> list R;
  (** [np.percentile(x, q)] *)
  percentile : list R -> R -> R
}.

(** Python's formatting of floats and of values that are not strings. *)
Class PyFormat : Type := {
  (** [f"{v:.Nf}"] *)
  format_fixed : nat -> R -> string;
  (** [f"{v}"] *)
  format_repr : R -> string;
  (** [repr] of a list or a dict *)
  repr_json : Py.json -> string
}.

(** [random.Random]: a generator state and the methods the generator script
    calls on it.  Each method returns the new state. *)
Class PyRandom : Type := {
  rng : Type;
  (** [random.Random(seed)] *)
  Random : Z -> rng;
  (** [rng.randrange(n)] *)
  randrange : Z -> rng -> Py.outcome Z * rng;
  (** [rng.choice(seq)] *)
  choice : forall A : Type, list A -> rng -> Py.outcome A * rng;
  (** [rng.choices(population, weights=weights, k=k)] *)
  choices : forall A : Type,
      list A -> list R -> nat -> rng -> Py.outcome (list A) * rng;
  (** [rng.random()] *)
  random : rng -> R * rng;
  (** [rng.uniform(a, b)] *)
  uniform : R -> R -> rng -> R * rng;
  (** [rng.shuffle(x)]: the shuffled list *)
  shuffle : forall A : Type, list A -> rng -> list A * rng
}.
Arguments choice {PyRandom A} _ _.
Arguments choices {PyRandom A} _ _ _ _.
Arguments shuffle {PyRandom A} _ _.

(** What the documentation of [random] promises of these methods. *)
Class PyRandomLaws (PR : PyRandom) : Prop := {
  randrange_spec : forall (n : Z) (s : rng),
      (0 < n)%Z ->
      exists v, fst (randrange n s) = Py.Return v /\ (0 <= v < n)%Z;
  randrange_empty : forall (n : Z) (s : rng),
      (n <= 0)%Z -> fst (randrange n s) = Py.Raise Py.ValueError;
  choice_spec : forall (A : Type) (l : list A) (s : rng),
      l <> [] -> exists a, fst (choice l s) = Py.Return a /\ In a l;
  choices_spec : forall (A : Type) (l : list A) (w : list R) (k : nat)
                        (s : rng),
      l <> [] -> List.length w = List.length l ->
      exists r, fst (choices l w k s) = Py.Return r /\
                List.length r = k /\ Forall (fun a => In a l) r;
  shuffle_spec : forall (A : Type) (l : list A) (s : rng),
      Permutation l (fst (shuffle l s))
}.

(** [np.random.default_rng(seed).gamma(shape=k, scale=theta, size=n)] *)
Class NumPyRandom : Type := {
  default_rng_gamma : Z -> R -> R -> nat -> list R
}.

(** [datetime.datetime] and [datetime.timedelta]. *)
Class PyDatetime : Type := {
  datetime : Type;
  (** [datetime.strptime(s, "%Y-%m-%d")] *)
  strptime_ymd : string -> Py.outcome datetime;
  (** [(b - a).days] *)
  days_between : datetime -> datetime -> Z;
  (** [d + timedelta(days=x)] *)
  add_days : datetime -> R -> Py.outcome datetime;
  (** [d.strftime("%Y-%m-%d")] *)
  strftime_ymd : datetime -> string
}.

(** [csv.writer(f, delimiter=TAB)]: the text of one row, line terminator
    included. *)
Class PyCsv : Type := {
  csv_row : list string -> string
}.

(* ================================================================== *)
(** * 50_gamma_mle.py: the estimator *)
(* ================================================================== *)

Module GammaMle.
Import Py.
Section Estimator.
Context {SP : SciPy} {PF : PyFormat}.
Local Open Scope py_scope.

(** [fit_gamma_loc0(x)]: [(k, theta, n, mean)] of the positive finite
    entries of [x]; an exception of [gamma.fit] is not caught. *)
Definition fit_gamma_loc0 (x : list float64) : outcome (R * R * nat * R) :=
  let x := finite_values (filter (fun v => isfinite v && gt_zero v) x) in
  if Nat.eqb (List.length x) 0 then
    Raise (SystemExit "No positive finite values to fit.")
  else
    match gamma_fit_floc0 x with
    | Raise e => Raise e
    | Return (k, loc, theta) => Return (k, theta, List.length x, np_mean x)
    end.

Definition nl : string := String (ascii_of_nat 10) EmptyString.
Definition tab : string := String (ascii_of_nat 9) EmptyString.

Definition report_text (source col : string) (k theta : R) (n : nat)
           (mean_ : R) : string :=
  "Gamma MLE (loc=0)" ++ nl ++
  "source      : " ++ source ++ nl ++
  "column      : " ++ col ++ nl ++
  "n           : " ++ str_of_nat n ++ nl ++
  "k (shape)   : " ++ format_fixed 6 k ++ nl ++
  "theta(scale): " ++ format_fixed 6 theta ++ nl ++
  "E[X]=k*theta: " ++ format_fixed 6 (k * theta) ++ " months" ++ nl ++
  "sample mean : " ++ format_fixed 6 mean_ ++ " months" ++ nl.

(** [write_report(path, source, col, k, theta, n, mean_)] *)
Definition write_report (path source col : string) (k theta : R) (n : nat)
           (mean_ : R) : M unit :=
  makedirs (dirname_or_dot path) ;;;
  write_file path (TextFile (report_text source col k theta n mean_)).

(** Command-line arguments after [argparse]. *)
Record args : Type := {
  arg_tsv : string;
  arg_out : string;
  arg_col : string
}.

Definition default_args : args :=
  {| arg_tsv := "data/lifespans.tsv";
     arg_out := "out/gamma_fit.txt";
     arg_col := "lifespan_months" |}.

(** [df.select_dtypes("number").columns] *)
Definition number_columns (df : DataFrame) : list string :=
  columns (filter col_numeric df).

(** The column that [main] fits: the conditional expression bound to
    [col]. *)
Definition select_column (df : DataFrame) (col : string) : outcome string :=
  if in_columns col df then Return col
  else if in_columns "lifespan_months" df then Return "lifespan_months"
  else match number_columns df with
       | c :: _ => Return c
       | [] => Raise IndexError
       end.

Definition main (a : args) : M unit :=
  df <- read_csv (arg_tsv a) ;;
  col <- lift (select_column df (arg_col a)) ;;
  x <- lift (to_numeric df col) ;;
  r <- lift (fit_gamma_loc0 x) ;;
  let '(k, theta, n, mean_) := r in
  write_report (arg_out a) (arg_tsv a) col k theta n mean_ ;;;
  print (format_repr k ++ tab ++ format_repr theta ++ tab ++
         str_of_nat n ++ tab ++ format_repr mean_).

End Estimator.
End GammaMle.

(* ================================================================== *)
(** * 60_plot_gamma.py: histogram and log-likelihood contour *)
(* ================================================================== *)

Module PlotGamma.
Import Py.
Section Renderer.
Context {SP : SciPy}.
Local Open Scope py_scope.

(** The column that [_load_values] reads. *)
Definition select_column (df : DataFrame) (col : string) : outcome string :=
  if negb (in_columns col df) then
    let num_cols := columns (filter col_numeric df) in
    match num_cols with
    | [] => Raise (SystemExit "No numeric column found and --col not present.")
    | c :: _ => Return c
    end
  else Return col.

(** [_load_values(tsv_path, col)] *)
Definition _load_values (tsv_path col : string) : M (list R) :=
  df <- read_csv tsv_path ;;
  col <- lift (select_column df col) ;;
  x <- lift (to_numeric df col) ;;
  let x := finite_values (filter (fun v => isfinite v && gt_zero v) x) in
  if Nat.eqb (List.length x) 0 then
    raise (SystemExit "No positive finite values to plot.")
  else ret x.

(** [_loglike_gamma_loc0(x, k, theta)] *)
Definition _loglike_gamma_loc0 (x : list R) (k theta : R) : R :=
  let n := INR (List.length x) in
  let s1 := np_sum (map ln x) in
  let s2 := np_sum x in
  (k - 1.0) * s1 - (s2 / theta) - n * k * ln theta - n * gammaln k.

(** [plot_hist_with_pdf(x, k, theta, out_png, title, bins)] *)
Definition plot_hist_with_pdf (x : list R) (k theta : R)
           (out_png title : string) (bins : nat) : M unit :=
  x_max <- lift (match np_max x with
                 | Some m => Return m
                 | None => Raise ValueError
                 end) ;;
  let xs_max := py_max (percentile x 99.5) x_max in
  let grid := linspace 0.0 (xs_max * 1.15) 400 in
  let pdf := gamma_pdf grid k theta in
  let fig := [Hist x bins; Plot grid pdf; XLabel "months"; YLabel "density";
              Title title; TightLayout] in
  makedirs (dirname_or_dot out_png) ;;;
  write_file out_png (PngFile fig).

(** The local variables of [plot_ll_contour] before it draws. *)
Record contour_locals : Type := {
  K : list R;
  T : list R;
  ll : list (list R);
  ll_max : R;
  z : list (list R);
  levels : list R
}.

Definition plot_ll_contour_locals (x : list R) (k_mle th_mle : R)
  : outcome contour_locals :=
  (* Build a grid centered near the MLE *)
  let '(k_lo, k_hi) := (py_max 1e-3 (k_mle * 0.25), k_mle * 4.0) in
  let '(th_lo, th_hi) := (py_max 1e-6 (th_mle * 0.25), th_mle * 4.0) in
  let K := linspace k_lo k_hi 180 in
  let T := linspace th_lo th_hi 180 in
  let '(KK, TT) := meshgrid K T in
  let n := INR (List.length x) in
  let s1 := np_sum (map ln x) in
  let s2 := np_sum x in
  let ll :=
    mat_zip_with
      (fun kk tt =>
         (kk - 1.0) * s1 - (s2 / tt) - n * kk * ln tt - n * gammaln kk)
      KK TT in
  match np_nanmax ll with
  | None => Raise ValueError
  | Some ll_max =>
      let z := mat_map (fun v => v - ll_max) ll in
      let levels := [-9.21; -5.99; -3.00; -2.00; -1.00; -0.50; -0.10] in
      Return {| K := K; T := T; ll := ll; ll_max := ll_max; z := z;
                levels := levels |}
  end.

Definition nl : string := String (ascii_of_nat 10) EmptyString.

(** [plot_ll_contour(x, k_mle, th_mle, out_png, title)] *)
Definition plot_ll_contour (x : list R) (k_mle th_mle : R)
           (out_png title : string) : M unit :=
  l <- lift (plot_ll_contour_locals x k_mle th_mle) ;;
  let fig := [Contour (K l) (T l) (transpose (z l)) (levels l);
              CLabel "dL=%.2f";
              Scatter [k_mle] [th_mle];
              XLabel "k (shape)"; YLabel "theta (scale)";
              Title (title ++ nl ++ "log-likelihood contours (loc=0)");
              TightLayout] in
  makedirs (dirname_or_dot out_png) ;;;
  write_file out_png (PngFile fig).

Record args : Type := {
  arg_tsv : string;
  arg_col : string;
  arg_k : R;
  arg_theta : R;
  arg_title : string;
  arg_outprefix : string
}.

Definition main (a : args) : M unit :=
  x <- _load_values (arg_tsv a) (arg_col a) ;;
  plot_hist_with_pdf x (arg_k a) (arg_theta a)
                     (arg_outprefix a ++ "_hist.png") (arg_title a) 40 ;;;
  plot_ll_contour x (arg_k a) (arg_theta a)
                  (arg_outprefix a ++ "_llcontour.png") (arg_title a) ;;;
  print ("[plot] wrote " ++ arg_outprefix a ++ "_hist.png") ;;;
  print ("[plot] wrote " ++ arg_outprefix a ++ "_llcontour.png").

End Renderer.
End PlotGamma.

(* ================================================================== *)
(** * float64 with overflow and nan *)
(* ================================================================== *)

(** The arithmetic of float64 values as far as infinities and nan go: an
    operation on finite values gives the exact real result unless that
    result is out of range, where it gives an infinity; operations on
    infinities and nan follow IEEE 754.  Rounding inside the range and the
    sign of zero are not represented (a zero divisor counts as [+0.0]). *)
Module Ieee.
Import Py.

(** The least magnitude that rounds to an infinity: halfway between the
    largest float64, [2^1024 - 2^971], and [2^1024]. *)
Definition overflow_threshold : R := 2 ^ 1024 - 2 ^ 970.

Definition fl (r : R) : float64 :=
  if Rle_dec overflow_threshold r then PInf
  else if Rle_dec r (- overflow_threshold) then NInf
  else Fin r.

Definition neg (a : float64) : float64 :=
  match a with
  | Fin u => Fin (- u)
  | PInf => NInf
  | NInf => PInf
  | NaN => NaN
  end.

(** [a + b] *)
Definition add (a b : float64) : float64 :=
  match a, b with
  | NaN, _ | _, NaN => NaN
  | PInf, NInf | NInf, PInf => NaN
  | PInf, _ | _, PInf => PInf
  | NInf, _ | _, NInf => NInf
  | Fin u, Fin v => fl (u + v)
  end.

(** [a - b] *)
Definition sub (a b : float64) : float64 := add a (neg b).

(** An infinity of the sign of [u] times the sign of the infinity [PInf];
    [nan] for zero. *)
Definition signed_inf (u : R) : float64 :=
  if Rlt_dec 0 u then PInf else if Rlt_dec u 0 then NInf else NaN.

(** [a * b] *)
Definition mul (a b : float64) : float64 :=
  match a, b with
  | NaN, _ | _, NaN => NaN
  | Fin u, Fin v => fl (u * v)
  | Fin u, PInf | PInf, Fin u => signed_inf u
  | Fin u, NInf | NInf, Fin u => signed_inf (- u)
  | PInf, PInf | NInf, NInf => PInf
  | PInf, NInf | NInf, PInf => NInf
  end.

(** [a / b] *)
Definition div (a b : float64) : float64 :=
  match a, b with
  | NaN, _ | _, NaN => NaN
  | Fin u, Fin v =>
      if Req_dec_T v 0 then signed_inf u else fl (u / v)
  | Fin _, (PInf | NInf) => Fin 0
  | PInf, Fin v => if Rlt_dec v 0 then NInf else PInf
  | NInf, Fin v => if Rlt_dec v 0 then PInf else NInf
  | (PInf | NInf), (PInf | NInf) => NaN
  end.

(** [np.log(a)] *)
Definition log (a : float64) : float64 :=
  match a with
  | Fin u => if Rlt_dec 0 u then fl (ln u)
             else if Rlt_dec u 0 then NaN else NInf
  | PInf => PInf
  | NInf | NaN => NaN
  end.

(** [a < b]: false when either is [nan]. *)
Definition ltb (a b : float64) : bool :=
  match a, b with
  | NaN, _ | _, NaN => false
  | _, NInf => false
  | NInf, _ => true
  | PInf, _ => false
  | Fin _, PInf => true
  | Fin u, Fin v => Rltb u v
  end.

(** Python's built-in [max(a, b)]: the first argument unless the second is
    strictly larger. *)
Definition py_max (a b : float64) : float64 := if ltb a b then b else a.

(** [np.sum(x)]: the elements added one after the other.  (NumPy regroups
    the additions of a long array; in this arithmetic the grouping can
    change the result only when a partial sum overflows.) *)
Definition np_sum (x : list float64) : float64 := fold_left add x (Fin 0).

(** [np.fmax(a, b)]: the larger, a [nan] giving way to the other. *)
Definition fmax (a b : float64) : float64 :=
  match a, b with
  | NaN, _ => b
  | _, NaN => a
  | _, _ => if ltb a b then b else a
  end.

(** [np.nanmax] of a two-dimensional array: the largest cell that is not
    [nan], [nan] when every cell is ([None] when there is no cell, where
    NumPy raises [ValueError]). *)
Definition np_nanmax (m : list (list float64)) : option float64 :=
  match List.concat m with
  | [] => None
  | v :: vs => Some (fold_left fmax vs v)
  end.

(** [np.linspace(start, stop, num)] with the default [endpoint=True]:
    [arange(num) * step + start] with [step = (stop - start) / (num - 1)],
    and the last sample overwritten by [stop].  (When [step] is zero NumPy
    computes [arange(num) / (num - 1) * (stop - start) + start], which is
    the same value here.) *)
Definition linspace (start stop : float64) (num : nat) : list float64 :=
  match num with
  | O => []
  | S O => [start]
  | S d =>
      let step := div (sub stop start) (Fin (INR d)) in
      (map (fun i => add (mul (Fin (INR i)) step) start) (seq 0 d)
       ++ [stop])%list
  end.

(** [np.meshgrid(K, T, indexing="xy")] *)
Definition meshgrid (K T : list float64)
  : list (list float64) * list (list float64) :=
  (map (fun _ => K) T, map (fun t => map (fun _ => t) K) T).

Definition mat_zip_with (f : float64 -> float64 -> float64)
           (A B : list (list float64)) : list (list float64) :=
  zip_with (zip_with f) A B.

Definition mat_map (f : float64 -> float64) (A : list (list float64))
  : list (list float64) :=
  map (map f) A.

End Ieee.

(** [scipy.special.gammaln] on float64 values. *)
Class SciPySpecial : Type := {
  gammaln_f64 : Py.float64 -> Py.float64
}.

(* ================================================================== *)
(** * 60_plot_gamma.py: the likelihood grid in float64 *)
(* ================================================================== *)

(** The numeric part of [plot_ll_contour] once more, this time in the
    arithmetic of [Ieee], where sums can overflow and cells can be
    infinite or [nan]. *)
Module PlotGammaIeee.
Import Py Ieee.
Section Renderer.
Context {SS : SciPySpecial}.

(** The local variables of [plot_ll_contour] before it draws. *)
Record contour_locals : Type := {
  K : list float64;
  T : list float64;
  ll : list (list float64);
  ll_max : float64;
  z : list (list float64);
  levels : list R
}.

Definition plot_ll_contour_locals (x : list float64)
           (k_mle th_mle : float64) : outcome contour_locals :=
  (* Build a grid centered near the MLE *)
  let '(k_lo, k_hi) :=
    (py_max (Fin 1e-3) (mul k_mle (Fin 0.25)), mul k_mle (Fin 4.0)) in
  let '(th_lo, th_hi) :=
    (py_max (Fin 1e-6) (mul th_mle (Fin 0.25)), mul th_mle (Fin 4.0)) in
  let K := linspace k_lo k_hi 180 in
  let T := linspace th_lo th_hi 180 in
  let '(KK, TT) := meshgrid K T in
  let n := Fin (INR (List.length x)) in
  let s1 := np_sum (map log x) in
  let s2 := np_sum x in
  let ll :=
    mat_zip_with
      (fun kk tt =>
         sub (sub (sub (mul (sub kk (Fin 1.0)) s1) (div s2 tt))
                  (mul (mul n kk) (log tt)))
             (mul n (gammaln_f64 kk)))
      KK TT in
  match np_nanmax ll with
  | None => Raise ValueError
  | Some ll_max =>
      let z := mat_map (fun v => sub v ll_max) ll in
      let levels := [-9.21; -5.99; -3.00; -2.00; -1.00; -0.50; -0.10] in
      Return {| K := K; T := T; ll := ll; ll_max := ll_max; z := z;
                levels := levels |}
  end.

End Renderer.
End PlotGammaIeee.

(* ================================================================== *)
(** * peek_behind_the_curtain/generate_data.py: synthetic reviews *)
(* ================================================================== *)

Module GenerateData.
Import Py.

(** The two variables the script reads from [os.environ]. *)
Record environ : Type := {
  TEXTGEN_MODEL : option string;
  HF_API_TOKEN : option string
}.

(** Truth value of an optional string: [None] and the empty string are
    false. *)
Definition truthy (o : option string) : bool :=
  match o with
  | Some (String _ _) => true
  | _ => false
  end.

(** Truth value of a string. *)
Definition nonempty (s : string) : bool :=
  match s with
  | EmptyString => false
  | String _ _ => true
  end.

Section Generator.
Context {PR : PyRandom} {NR : NumPyRandom} {DT : PyDatetime}
        {PF : PyFormat} {CSV : PyCsv}.
Variable env : environ.
Local Open Scope py_scope.

(** ** Utilities *)

Definition months_to_days (m : R) : R := m * 30.44.

Definition add_months_as_days (start : datetime) (months : R)
  : outcome datetime :=
  add_days start (months_to_days months).

(** Steps of the generator act on the [random.Random] object and on the
    world. *)
Definition G (A : Type) : Type := ST (rng * world) A.

Definition with_rng {A : Type} (f : rng -> outcome A * rng) : G A :=
  fun s => let '(o, r') := f (fst s) in (o, (r', snd s)).

Definition with_rng_total {A : Type} (f : rng -> A * rng) : G A :=
  fun s => let '(a, r') := f (fst s) in (Return a, (r', snd s)).

Definition in_world {A : Type} (c : M A) : G A :=
  fun s => let '(o, w') := c (snd s) in (o, (fst s, w')).

Definition rand_date_ymd (start_ymd end_ymd : string) : G datetime :=
  start <- lift (strptime_ymd start_ymd) ;;
  end_ <- lift (strptime_ymd end_ymd) ;;
  let span_days := days_between start end_ in
  off <- with_rng (randrange (span_days + 1)) ;;
  lift (add_days start (IZR off)).

(** [for _ in range(n)], collecting what the body yields. *)
Fixpoint repeat_G {A : Type} (n : nat) (body : G A) : G (list A) :=
  match n with
  | O => ret []
  | S n' =>
      a <- body ;;
      rest <- repeat_G n' body ;;
      ret (a :: rest)
  end.

Definition order_id_alphabet : list ascii :=
  list_ascii_of_string "0123456789ABCDEFGHIJKLMNOPQRSTUVWXYZ".

Definition make_order_id : G string :=
  cs <- repeat_G 9 (with_rng (choice order_id_alphabet)) ;;
  ret ("O" ++ string_of_list_ascii cs).

Definition pick_stars_failure : G nat :=
  (* Failures skew low *)
  r <- with_rng (choices [1; 2; 3]%nat [0.6; 0.3; 0.1] 1) ;;
  lift (getitem r 0).

Definition pick_stars_other : G nat :=
  (* Non-failures are mixed *)
  r <- with_rng (choices [3; 4; 5; 2]%nat [0.2; 0.4; 0.35; 0.05] 1) ;;
  lift (getitem r 0).

Definition pick_verified : G string :=
  u <- with_rng_total random ;;
  ret (if Rlt_dec u 0.85 then "true" else "false").

(** ** Text generation (LLM optional) *)

Definition HF_MODEL : string :=
  match TEXTGEN_MODEL env with
  | Some m => m
  | None => "google/gemma-2-2b-it"
  end.

Definition HF_URL : string :=
  "https://api-inference.huggingface.co/models/" ++ HF_MODEL.

Definition HF_TOKEN : option string := HF_API_TOKEN env.

Record request : Type := {
  req_url : string;
  req_inputs : string;
  req_max_new_tokens : nat;
  req_authorization : string
}.

(** [urllib.request.urlopen(req, timeout=60)] followed by [resp.read()],
    [.decode("utf-8")] and [json.loads]. *)
Definition urlopen_json (req : request) (timeout : nat) : M json :=
  next_reply.

(** [key in d] for a string [key]. *)
Definition json_contains (d : json) (key : string) : outcome bool :=
  match d with
  | JDict items => Return (existsb (fun kv => String.eqb key (fst kv)) items)
  | JStr s => Return (contains s key)
  | JList l =>
      Return (existsb (fun j => match j with
                                | JStr s => String.eqb key s
                                | _ => false
                                end) l)
  | JNull | JBool _ | JNum _ => Raise TypeError
  end.

(** [d[key]] for a string [key]. *)
Definition json_getitem (d : json) (key : string) : outcome json :=
  match d with
  | JDict items =>
      match find (fun kv => String.eqb key (fst kv)) items with
      | Some kv => Return (snd kv)
      | None => Raise KeyError
      end
  | _ => Raise TypeError
  end.

(** [str(v)] *)
Definition json_str (v : json) : string :=
  match v with
  | JStr s => s
  | JNum text => text
  | JNull => "None"
  | JBool true => "True"
  | JBool false => "False"
  | JList _ | JDict _ => repr_json v
  end.

(** [_hf_generate(prompt, max_new_tokens)] *)
Definition _hf_generate (prompt : string) (max_new_tokens : nat) : M string :=
  if negb (truthy HF_TOKEN) then ret ""
  else
    let req := {| req_url := HF_URL;
                  req_inputs := prompt;
                  req_max_new_tokens := max_new_tokens;
                  req_authorization :=
                    "Bearer " ++ match HF_TOKEN with
                                 | Some t => t
                                 | None => "None"
                                 end |} in
    try_except
      (data <- urlopen_json req 60 ;;
       (* HF can return a list[{"generated_text": "..."}] or dict with
          "error" *)
       hit <- match data with
              | JList (d0 :: _) => lift (json_contains d0 "generated_text")
              | _ => ret false
              end ;;
       if hit then
         match data with
         | JList (d0 :: _) =>
             v <- lift (json_getitem d0 "generated_text") ;;
             ret (strip (json_str v))
         | _ => ret ""
         end
       else
         (* Some text-generation endpoints return plain string *)
         match data with
         | JStr s => ret (strip s)
         | _ => ret ""
         end)
      (ret "").

(** *** Prompts *)

Definition nl : string := String (ascii_of_nat 10) EmptyString.
Definition dq : string := String (ascii_of_nat 34) EmptyString.

(** [FAILURE_PROMPT_TEMPLATE.format(brand=brand, months=months)] *)
Definition FAILURE_PROMPT_TEMPLATE (brand : string) (months : R) : string :=
  "You are writing a short customer review about a laptop battery that stopped working." ++ nl ++
  "Brand: " ++ brand ++ nl ++
  "Time since purchase when it stopped working: about " ++
  format_fixed 1 months ++ " months" ++ nl ++ nl ++
  "Write a concise review title and a concise review body (1-2 sentences). Do not mention exact months every time; vary wording like " ++
  dq ++ "stopped working," ++ dq ++ " " ++ dq ++ "gave out," ++ dq ++ " " ++
  dq ++ "busted," ++ dq ++ " or " ++ dq ++ "died" ++ dq ++
  ". It should clearly imply the battery stopped working. Output as:" ++
  nl ++ nl ++
  "TITLE: <one short line>" ++ nl ++
  "BODY: <one or two short sentences>".

(** [OTHER_PROMPT_TEMPLATE.format(brand=brand)] *)
Definition OTHER_PROMPT_TEMPLATE (brand : string) : string :=
  "You are writing a short customer review about a laptop battery that does NOT mention it stopped working." ++ nl ++
  "Brand: " ++ brand ++ nl ++ nl ++
  "Write a concise review title and a concise review body (1-2 sentences). Mention things like shipping, packaging, price, customer service, or general impressions, but do not imply failure. Output as:" ++
  nl ++ nl ++
  "TITLE: <one short line>" ++ nl ++
  "BODY: <one or two short sentences>".

(** One step of the loop of [parse_title_body]. *)
Definition parse_line (acc : outcome (string * string)) (line : string)
  : outcome (string * string) :=
  match acc with
  | Raise e => Raise e
  | Return (title, body) =>
      let line := strip line in
      if startswith (upper line) "TITLE:" then
        match getitem (split_colon_1 line) 1 with
        | Return rest => Return (strip rest, body)
        | Raise e => Raise e
        end
      else if startswith (upper line) "BODY:" then
        match getitem (split_colon_1 line) 1 with
        | Return rest => Return (title, strip rest)
        | Raise e => Raise e
        end
      else Return (title, body)
  end.

(** [parse_title_body(llm_text)] *)
Definition parse_title_body (llm_text : string) : outcome (string * string) :=
  fold_left parse_line (splitlines llm_text) (Return ("", "")).

(** *** Template fallbacks (if no HF token or blank output) *)

Definition FAILURE_TITLES : list string :=
  ["Battery died early"; "Stopped holding charge";
   "Busted after a few months"; "Gave out too soon"; "Power issues returned"].

(** Each body is a template in [m]; [.format(m=months)] instantiates it. *)
Definition FAILURE_BODIES : list (R -> string) :=
  [fun m => "Worked fine at first but stopped working after about " ++
            format_fixed 1 m ++ " months.";
   fun m => "Battery died roughly " ++ format_fixed 1 m ++
            " months in, now it barely powers on.";
   fun m => "After around " ++ format_fixed 1 m ++
            " months, it gave out and will not hold charge.";
   fun m => "About " ++ format_fixed 1 m ++
            " months after buying, it just quit."].

Definition OTHER_TITLES : list string :=
  ["Arrived fast"; "Decent value"; "Solid packaging"; "As described";
   "Good service"].

Definition OTHER_BODIES : list string :=
  ["Shipping was quick and packaging was fine.";
   "Price was fair and it fits as expected.";
   "Customer support answered my questions promptly.";
   "Using it daily so far; no complaints.";
   "Seems fine out of the box; will update later."].

(** [gen_failure_text(brand, months, rng)] *)
Definition gen_failure_text (brand : string) (months : R)
  : G (string * string) :=
  let prompt := FAILURE_PROMPT_TEMPLATE brand months in
  text <- (if truthy HF_TOKEN then in_world (_hf_generate prompt 80)
           else ret "") ;;
  tb <- lift (parse_title_body text) ;;
  let '(t, b) := tb in
  t <- (if negb (nonempty t) then with_rng (choice FAILURE_TITLES)
        else ret t) ;;
  b <- (if negb (nonempty b) then
          tmpl <- with_rng (choice FAILURE_BODIES) ;;
          ret (tmpl months)
        else ret b) ;;
  ret (t, b).

(** [gen_other_text(brand, rng)] *)
Definition gen_other_text (brand : string) : G (string * string) :=
  let prompt := OTHER_PROMPT_TEMPLATE brand in
  text <- (if truthy HF_TOKEN then in_world (_hf_generate prompt 80)
           else ret "") ;;
  tb <- lift (parse_title_body text) ;;
  let '(t, b) := tb in
  t <- (if negb (nonempty t) then with_rng (choice OTHER_TITLES)
        else ret t) ;;
  b <- (if negb (nonempty b) then with_rng (choice OTHER_BODIES)
        else ret b) ;;
  ret (t, b).

(** ** Main generator *)

(** [np.finfo(float).eps] *)
Definition eps : R := / 2 ^ 52.

(** [sample_gamma_lifespans(k, theta, n, seed)] *)
Definition sample_gamma_lifespans (k theta : R) (n : nat) (seed : Z)
  : list R :=
  (* numpy uses shape=k, scale=theta for Gamma *)
  let x := default_rng_gamma seed k theta n in
  (* ensure strictly positive *)
  let x := map (fun v => Rmax v eps) x in
  x.

Definition row : Type := list string.

(** The keyword arguments of [make_dataset] after [out_tsv] and before
    [seed]. *)
Record params : Type := {
  n_fail_alpha : nat;
  n_fail_beta : nat;
  n_other_alpha : nat;
  n_other_beta : nat;
  k_alpha : R;
  th_alpha : R;
  k_beta : R;
  th_beta : R;
  purchase_start : string;
  purchase_end : string
}.

Definition default_params : params :=
  {| n_fail_alpha := 20; n_fail_beta := 20;
     n_other_alpha := 10; n_other_beta := 10;
     k_alpha := 2.0; th_alpha := 4.0; k_beta := 3.0; th_beta := 3.0;
     purchase_start := "2023-01-01"; purchase_end := "2024-12-31" |}.

(** [for item in items], collecting the row that each pass appends. *)
Fixpoint for_rows {A : Type} (items : list A) (body : A -> G row)
  : G (list row) :=
  match items with
  | [] => ret []
  | item :: items' =>
      r <- body item ;;
      rest <- for_rows items' body ;;
      ret (r :: rest)
  end.

(** [enumerate(l, 1)] *)
Definition enumerate1 {A : Type} (l : list A) : list (nat * A) :=
  combine (seq 1 (List.length l)) l.

(** The body of the two loops over failure lifespans; [tag] is ["rA"] or
    ["rB"]. *)
Definition failure_row (p : params) (tag brand : string) (im : nat * R)
  : G row :=
  let '(i, m) := im in
  let rid := tag ++ format_03d i in
  dp <- rand_date_ymd (purchase_start p) (purchase_end p) ;;
  dpost <- lift (add_months_as_days dp m) ;;
  tb <- gen_failure_text brand m ;;
  let '(title, body) := tb in
  stars <- pick_stars_failure ;;
  verified <- pick_verified ;;
  order_id <- make_order_id ;;
  ret [rid; brand; strftime_ymd dp; strftime_ymd dpost;
       title; body; str_of_nat stars; verified; order_id;
       format_fixed 2 m].

(** The body of the two loops over distractor rows; [tag] is ["rAX"] or
    ["rBX"]. *)
Definition other_row (p : params) (tag brand : string) (i : nat) : G row :=
  let rid := tag ++ format_03d (i + 1) in
  dp <- rand_date_ymd (purchase_start p) (purchase_end p) ;;
  (* arbitrary benign elapsed time *)
  m <- with_rng_total (uniform 0.2 18.0) ;;
  dpost <- lift (add_months_as_days dp m) ;;
  tb <- gen_other_text brand ;;
  let '(title, body) := tb in
  stars <- pick_stars_other ;;
  verified <- pick_verified ;;
  order_id <- make_order_id ;;
  ret [rid; brand; strftime_ymd dp; strftime_ymd dpost;
       title; body; str_of_nat stars; verified; order_id; ""].

Definition header : row :=
  ["review_id"; "brand"; "date_purchased"; "date_posted";
   "review_title"; "review_body"; "stars"; "verified"; "order_id";
   "expected_signed_months_token"].

(** The text that [csv.writer] writes for the header and the rows. *)
Definition tsv_text (rows : list row) : string :=
  String.concat "" (map csv_row (header :: rows)).

(** The rows of [make_dataset] before the shuffle. *)
Definition dataset_rows (p : params) (seed : Z) : G (list row) :=
  (* Failures - Alpha *)
  let lifespans_A :=
    sample_gamma_lifespans (k_alpha p) (th_alpha p) (n_fail_alpha p)
                           (seed + 11) in
  rows_A <- for_rows (enumerate1 lifespans_A) (failure_row p "rA" "Alpha") ;;
  (* Failures - Beta *)
  let lifespans_B :=
    sample_gamma_lifespans (k_beta p) (th_beta p) (n_fail_beta p)
                           (seed + 22) in
  rows_B <- for_rows (enumerate1 lifespans_B) (failure_row p "rB" "Beta") ;;
  (* Non-failures (distractors) - Alpha *)
  rows_AX <- for_rows (seq 0 (n_other_alpha p)) (other_row p "rAX" "Alpha") ;;
  (* Non-failures (distractors) - Beta *)
  rows_BX <- for_rows (seq 0 (n_other_beta p)) (other_row p "rBX" "Beta") ;;
  ret (rows_A ++ rows_B ++ rows_AX ++ rows_BX)%list.

(** The body of [make_dataset], run on the generator [rng]. *)
Definition make_dataset_body (out_tsv : string) (p : params) (seed : Z)
  : G unit :=
  rows <- dataset_rows p seed ;;
  (* Shuffle so failures and non-failures are mixed *)
  rows <- with_rng_total (shuffle rows) ;;
  (* Write TSV with header *)
  in_world (makedirs (dirname_or_dot out_tsv)) ;;;
  in_world (write_file out_tsv (TextFile (tsv_text rows))) ;;;
  in_world (print ("[synth] wrote " ++ out_tsv ++ " (" ++
                   str_of_nat (List.length rows) ++ " rows)")).

(** [make_dataset(out_tsv, ..., seed)]: the generator is
    [random.Random(seed)]; [np.random.seed(seed)] seeds NumPy's global
    generator, which nothing draws from. *)
Definition make_dataset (out_tsv : string) (p : params) (seed : Z) : M unit :=
  fun w =>
    let '(o, (_, w')) := make_dataset_body out_tsv p seed (Random seed, w) in
    (o, w').

End Generator.
End GenerateData.

(* ================================================================== *)
(** * Sample implementations of the library interfaces *)
(* ================================================================== *)

(** Small implementations of the interfaces above, to run the scripts on
    concrete inputs. *)
Module Sample.
Import Py.

(** Whether every value of a sample equals [v]. *)
Definition all_equal_to (v : R) (x : list R) : bool :=
  forallb (fun u => if Req_dec_T u v then true else false) x.

(** A fit that, as [scipy.stats.gamma.fit] does, raises [ValueError] on a
    sample without spread (empty, one value, or all values equal), and
    otherwise returns the exponential law: shape 1, scale the sample
    mean. *)
Definition exponential_fit (x : list R) : outcome (R * R * R) :=
  match x with
  | [] => Raise ValueError
  | v :: vs => if all_equal_to v vs then Raise ValueError
               else Return (1, 0, np_mean x)
  end.

(** [gammaln] at the two arguments where the log-gamma function vanishes
    (1 and 2); the fit above. *)
Definition scipy : SciPy :=
  {| gammaln := fun _ => 0;
     gamma_fit_floc0 := exponential_fit;
     gamma_pdf := fun grid k theta =>
                    map (fun v => exp (- v / theta) / theta) grid;
     percentile := fun x q => match np_max x with
                              | Some m => m
                              | None => 0
                              end |}.

Definition format : PyFormat :=
  {| format_fixed := fun d _ =>
                       match d with
                       | 0%nat => "0"
                       | _ => "0." ++ string_of_list_ascii (repeat "0"%char d)
                       end;
     format_repr := fun _ => "0.0";
     repr_json := fun _ => "[]" |}.

(** A counter as generator state: each draw uses the counter and advances
    it. *)
Definition pick {A : Type} (l : list A) (s : nat) : outcome A :=
  getitem l (s mod List.length l).

Definition counter_rng : PyRandom :=
  {| rng := nat;
     Random := fun seed => Z.to_nat (Z.abs seed);
     randrange := fun n s =>
                    if (n <=? 0)%Z then (Raise ValueError, s)
                    else (Return (Z.of_nat s mod n)%Z, S s);
     choice := fun A l s => (pick l s, S s);
     choices := fun A l w k s =>
                  match pick l s with
                  | Return a => (Return (repeat a k), S s)
                  | Raise e => (Raise e, S s)
                  end;
     random := fun s => (0, S s);
     uniform := fun a b s => (a, S s);
     shuffle := fun A l s => (rev l, S s) |}.

Definition numpy_random : NumPyRandom :=
  {| default_rng_gamma := fun seed k theta n => repeat (k * theta) n |}.

(** Dates as day numbers. *)
Definition dates : PyDatetime :=
  {| datetime := Z;
     strptime_ymd := fun s => Return (Z.of_nat (String.length s));
     days_between := fun a b => (b - a)%Z;
     add_days := fun d x => Return (d + Int_part x)%Z;
     strftime_ymd := fun d => "0001-01-01" |}.

(** A table with two numeric columns, the second under the default name. *)
Definition two_numeric_columns : DataFrame :=
  [ {| col_name := "id"; col_numeric := true;
       col_values := [Fin 1; Fin 2] |};
    {| col_name := "lifespan_months"; col_numeric := true;
       col_values := [Fin 3.5; Fin 7.25] |} ].

(** A table whose only column has no positive finite value, on disk. *)
Definition barren_table : DataFrame :=
  [ {| col_name := "lifespan_months"; col_numeric := true;
       col_values := [Fin 0; NaN; Fin (-1); NInf] |} ].

Definition barren_world : world :=
  {| tsv_inputs := [("data/lifespans.tsv", barren_table)];
     files := []; dirs := []; stdout := []; http := [] |}.

(** Environments without and with a credential. *)
Definition offline_env : GenerateData.environ :=
  {| GenerateData.TEXTGEN_MODEL := None;
     GenerateData.HF_API_TOKEN := None |}.

Definition blank_token_env : GenerateData.environ :=
  {| GenerateData.TEXTGEN_MODEL := Some "other/model";
     GenerateData.HF_API_TOKEN := Some "" |}.

Definition online_env : GenerateData.environ :=
  {| GenerateData.TEXTGEN_MODEL := None;
     GenerateData.HF_API_TOKEN := Some "hf_secret" |}.

Definition empty_world : world :=
  {| tsv_inputs := []; files := []; dirs := []; stdout := [];
     http := [] |}.

(** A world with an older file and a service that would answer. *)
Definition busy_world : world :=
  {| tsv_inputs := [];
     files := [("raw/reviews.tsv", TextFile "stale")];
     dirs := ["raw"]; stdout := [];
     http := [Json (JStr "TITLE: hello"); Fails Timeout] |}.

(** A world whose service times out. *)
Definition timeout_world : world :=
  {| tsv_inputs := []; files := []; dirs := []; stdout := [];
     http := [Fails Timeout] |}.

(** One row per loop. *)
Definition small_params : GenerateData.params :=
  {| GenerateData.n_fail_alpha := 1; GenerateData.n_fail_beta := 1;
     GenerateData.n_other_alpha := 1; GenerateData.n_other_beta := 1;
     GenerateData.k_alpha := 2.0; GenerateData.th_alpha := 4.0;
     GenerateData.k_beta := 3.0; GenerateData.th_beta := 3.0;
     GenerateData.purchase_start := "2023-01-01";
     GenerateData.purchase_end := "2024-12-31" |}.

Definition csv : PyCsv :=
  {| csv_row := fun fields =>
                  String.concat (String (ascii_of_nat 9) EmptyString) fields
                  ++ String (ascii_of_nat 13)
                       (String (ascii_of_nat 10) EmptyString) |}.

End Sample.

(** The same for the float64 grid. *)
Module SampleIeee.
Import Py.
(** [gammaln] at the two arguments where the log-gamma function vanishes
    (1 and 2). *)
Definition special : SciPySpecial :=
  {| gammaln_f64 := fun _ => Fin 0 |}.
End SampleIeee.

(* ================================================================== *)
(** * What the specification talks about *)
(* ================================================================== *)

Module Spec.
Import Py.

(** The density of Gamma(k, theta) with loc = 0, as the glossary of the
    specification gives it: [x^(k-1) e^(-x/theta) / (theta^k Gamma(k))],
    where [Gamma(k)] is [exp (gammaln k)]. *)
Definition gamma_density {SP : SciPy} (k theta x : R) : R :=
  Rpower x (k - 1) * exp (- x / theta) / (Rpower theta k * exp (gammaln k)).

(** The cell of the log-likelihood surface of [plot_ll_contour] at the grid
    point [(kk, tt)]. *)
Definition ll_cell {SP : SciPy} (x : list R) (kk tt : R) : R :=
  (kk - 1.0) * np_sum (map ln x) - (np_sum x / tt)
  - INR (List.length x) * kk * ln tt - INR (List.length x) * gammaln kk.

(** The finite, strictly positive values of an input array, in order. *)
Fixpoint positive_finite_values (x : list float64) : list R :=
  match x with
  | [] => []
  | Fin r :: x' =>
      if Rlt_dec 0 r then r :: positive_finite_values x'
      else positive_finite_values x'
  | _ :: x' => positive_finite_values x'
  end.

(** How many values of an input array are finite and strictly positive. *)
Fixpoint count_positive_finite (x : list float64) : nat :=
  match x with
  | [] => 0
  | Fin r :: x' =>
      if Rlt_dec 0 r then S (count_positive_finite x')
      else count_positive_finite x'
  | _ :: x' => count_positive_finite x'
  end.

(** No value of [x] is finite and strictly positive: none passes the mask
    [np.isfinite(x) & (x > 0)]. *)
Definition no_positive_finite (x : list float64) : Prop :=
  Forall (fun v => isfinite v && gt_zero v = false) x.

(** Whether a string has a colon. *)
Fixpoint has_colon (s : string) : bool :=
  match s with
  | EmptyString => false
  | String c rest => Ascii.eqb c ":"%char || has_colon rest
  end.

(** A reply that [_hf_generate] reads text from: a list whose first element
    is a dict with the key [generated_text], or a plain string. *)
Definition carries_text (data : json) : Prop :=
  (exists items rest kv,
      data = JList (JDict items :: rest) /\
      find (fun kv => String.eqb "generated_text" (fst kv)) items = Some kv)
  \/ (exists s, data = JStr s).

(** The failure conditions of the external text-generation call, in a world
    [w] under the environment [env]: no credential; no connection; a failed
    request (timeout, network or HTTP error, undecodable or malformed body);
    a reply of an unexpected shape. *)
Inductive generation_failed (env : GenerateData.environ) (w : world)
  : Prop :=
| no_credential :
    GenerateData.truthy (GenerateData.HF_API_TOKEN env) = false ->
    generation_failed env w
| no_connection :
    http w = [] -> generation_failed env w
| request_failed (e : service_error) (rest : list http_reply) :
    http w = Fails e :: rest -> generation_failed env w
| unexpected_payload (data : json) (rest : list http_reply) :
    http w = Json data :: rest -> ~ carries_text data ->
    generation_failed env w.

(** ** Rows of the generated dataset *)

(** The first and the last of the ten columns. *)
Definition review_id (r : GenerateData.row) : string := nth 0 r "".

Definition token (r : GenerateData.row) : string := nth 9 r "".

(** Failure rows are the rows numbered [rA001], [rA002], ... and [rB001],
    ...; distractor rows are numbered [rAX001], ... and [rBX001], ... *)
Definition is_failure_row (r : GenerateData.row) : Prop :=
  exists i : nat,
    review_id r = "rA" ++ format_03d i \/ review_id r = "rB" ++ format_03d i.

Definition is_other_row (r : GenerateData.row) : Prop :=
  exists i : nat,
    review_id r = "rAX" ++ format_03d i \/
    review_id r = "rBX" ++ format_03d i.

(** A row made by one of the two failure loops from the [j]-th lifespan [m]
    of its brand: numbered [j+1], with [m] (at least machine epsilon)
    formatted to two decimals as token. *)
Definition made_from_lifespan {NR : NumPyRandom} {PF : PyFormat}
           (p : GenerateData.params) (seed : Z) (r : GenerateData.row)
  : Prop :=
  exists (j : nat) (m : R),
    (nth_error (GenerateData.sample_gamma_lifespans
                  (GenerateData.k_alpha p) (GenerateData.th_alpha p)
                  (GenerateData.n_fail_alpha p) (seed + 11)) j = Some m /\
     review_id r = "rA" ++ format_03d (S j)
     \/
     nth_error (GenerateData.sample_gamma_lifespans
                  (GenerateData.k_beta p) (GenerateData.th_beta p)
                  (GenerateData.n_fail_beta p) (seed + 22)) j = Some m /\
     review_id r = "rB" ++ format_03d (S j))
    /\ GenerateData.eps <= m /\ 0 < m /\ token r = format_fixed 2 m.

(** Two steps of the generator that make the same draws from the random
    generator, return the same result, and leave the world as it is. *)
Definition same_draws {PR : PyRandom} {A : Type}
           (c1 c2 : GenerateData.G A) : Prop :=
  forall (r : rng) (w1 w2 : world),
  exists o r', c1 (r, w1) = (o, (r', w1)) /\ c2 (r, w2) = (o, (r', w2)).

(** Every normal return of a step satisfies [P]. *)
Definition ensures {S A : Type} (c : ST S A) (P : A -> Prop) : Prop :=
  forall s a s', c s = (Return a, s') -> P a.

(** A step of the generator that writes no file. *)
Definition keeps_files {PR : PyRandom} {A : Type} (c : GenerateData.G A)
  : Prop :=
  forall s, files (snd (snd (c s))) = files (snd s).

(** Python never formats a float to the empty string. *)
Class FormatNonEmpty (PF : PyFormat) : Prop := {
  format_fixed_nonempty : forall (d : nat) (v : R), format_fixed d v <> ""
}.

End Spec.

(** Predicates on the float64 grid. *)
Module SpecIeee.
Import Py Ieee.
Section Likelihood.
Context {SS : SciPySpecial}.

(** One cell of the log-likelihood grid, at shape [kk] and scale [tt]. *)
Definition ll_cell (x : list float64) (kk tt : float64) : float64 :=
  sub (sub (sub (mul (sub kk (Fin 1)) (np_sum (map log x)))
                (div (np_sum x) tt))
           (mul (mul (Fin (INR (List.length x))) kk) (log tt)))
      (mul (Fin (INR (List.length x))) (gammaln_f64 kk)).

End Likelihood.

(** [c] is [nan] or at most the real [m]. *)
Definition below (m : R) (c : float64) : Prop :=
  match c with
  | Fin u => u <= m
  | PInf => False
  | NInf | NaN => True
  end.

(** A float64 that is a real of magnitude at most [b]. *)
Definition fin_abs (b : R) (v : float64) : Prop :=
  exists r, v = Fin r /\ Rabs r <= b.

(** A float64 that is a real between [a] and [b]. *)
Definition fin_between (a b : R) (v : float64) : Prop :=
  exists r, v = Fin r /\ a <= r <= b.

End SpecIeee.

(** Vocabulary of the further properties of the scripts. *)
Module Props.
Import Py.

(** No character of [s] is a line boundary of [str.splitlines]. *)
Fixpoint no_linebreak (s : string) : bool :=
  match s with
  | EmptyString => true
  | String c rest => negb (is_linebreak c) && no_linebreak rest
  end.

(** The world after one request to the inference service: the first
    pending reply, if any, is gone; nothing else has changed. *)
Definition after_request (w : world) : world :=
  {| tsv_inputs := tsv_inputs w; files := files w; dirs := dirs w;
     stdout := stdout w; http := tl (http w) |}.

(** Two worlds with the same files, directories and standard output. *)
Definition same_disk (w w' : world) : Prop :=
  files w' = files w /\ dirs w' = dirs w /\ stdout w' = stdout w.

(** A step of the generator that always returns, touches nothing but the
    random generator, and returns a value satisfying [P]. *)
Definition draws {PR : PyRandom} {A : Type} (c : GenerateData.G A)
           (P : A -> Prop) : Prop :=
  forall (r : rng) (w : world),
  exists a r', c (r, w) = (Return a, (r', w)) /\ P a.

(** A step of the generator that leaves files, directories and standard
    output as they are, whether it returns or raises. *)
Definition frames {PR : PyRandom} {A : Type} (c : GenerateData.G A)
  : Prop :=
  forall (r : rng) (w : world), same_disk w (snd (snd (c (r, w)))).

(** A row as the header announces it: ten columns, a brand of the two, a
    title and a body that are not empty, one to five stars, a verified
    flag, and an order id of ten characters. *)
Definition well_formed_row (r : GenerateData.row) : Prop :=
  List.length r = List.length GenerateData.header /\
  In (nth 1 r "") ["Alpha"; "Beta"] /\
  nth 4 r "" <> "" /\ nth 5 r "" <> "" /\
  In (nth 6 r "") ["1"; "2"; "3"; "4"; "5"] /\
  In (nth 7 r "") ["true"; "false"] /\
  String.length (nth 8 r "") = 10%nat.

(** The document that the inference service returns for a generated
    [text]. *)
Definition generated (text : string) : json :=
  JList [JDict [("generated_text", JStr text)]].

End Props.

(** Further inputs to run the scripts on. *)
Module MoreSamples.
Import Py.

(** A disk that holds the table with the columns [id] and
    [lifespan_months]. *)
Definition lifespans_world : world :=
  {| tsv_inputs := [("data/lifespans.tsv", Sample.two_numeric_columns)];
     files := []; dirs := []; stdout := []; http := [] |}.

(** A world whose service answers in the format of the prompts. *)
Definition answering_world : world :=
  {| tsv_inputs := []; files := []; dirs := []; stdout := [];
     http := [Json (Props.generated
                      ("TITLE: " ++ "Died early" ++ GenerateData.nl ++
                       "BODY: " ++ "It quit."))] |}.

(** Parameters whose purchase window ends before it starts, for the dates
    of [Sample.dates]. *)
Definition reversed_params : GenerateData.params :=
  {| GenerateData.n_fail_alpha := 1; GenerateData.n_fail_beta := 1;
     GenerateData.n_other_alpha := 1; GenerateData.n_other_beta := 1;
     GenerateData.k_alpha := 2.0; GenerateData.th_alpha := 4.0;
     GenerateData.k_beta := 3.0; GenerateData.th_beta := 3.0;
     GenerateData.purchase_start := "2024-12-31";
     GenerateData.purchase_end := "2023" |}.

End MoreSamples.

(* ================================================================== *)
(** * Arrays: sums, maxima, grids *)
(* ================================================================== *)

Section Arrays.
Import Py.

Lemma py_max_Rmax (a b : R) : py_max a b = Rmax a b.
Proof.
  unfold py_max, Rmax.
  destruct (Rlt_dec a b), (Rle_dec a b); lra.
Qed.

Lemma np_sum_app (x y : list R) : np_sum (x ++ y) = np_sum x + np_sum y.
Proof.
  induction x as [|v x IH]; simpl; [lra | rewrite IH; lra].
Qed.

Lemma fold_left_Rmax_ge (l : list R) (a : R) : a <= fold_left Rmax l a.
Proof.
  revert a; induction l as [|v l IH]; intros a; simpl; [lra |].
  eapply Rle_trans; [apply (Rmax_l a v) | apply IH].
Qed.

Lemma fold_left_Rmax_upper (l : list R) (a : R) :
  Forall (fun v => v <= fold_left Rmax l a) l.
Proof.
  revert a; induction l as [|v l IH]; intros a; simpl; constructor.
  - eapply Rle_trans; [apply (Rmax_r a v) | apply fold_left_Rmax_ge].
  - apply IH.
Qed.

Lemma fold_left_Rmax_in (l : list R) (a : R) :
  fold_left Rmax l a = a \/ In (fold_left Rmax l a) l.
Proof.
  revert a; induction l as [|v l IH]; intros a; simpl; [now left |].
  destruct (IH (Rmax a v)) as [H | H].
  - rewrite H. unfold Rmax. destruct (Rle_dec a v); auto.
  - right; now right.
Qed.

(** The maximum of a non-empty array is one of its cells and bounds every
    cell. *)
Lemma np_max_spec (l : list R) (m : R) :
  np_max l = Some m <-> In m l /\ Forall (fun v => v <= m) l.
Proof.
  destruct l as [|a l]; simpl.
  - split; [discriminate | intros [[] _]].
  - split.
    + intros H; injection H as <-. split.
      * destruct (fold_left_Rmax_in l a) as [-> | H]; auto.
      * constructor; [apply fold_left_Rmax_ge | apply fold_left_Rmax_upper].
    + intros [Hin Hall]. f_equal. apply Rle_antisym.
      * assert (Hm : In (fold_left Rmax l a) (a :: l)).
        { destruct (fold_left_Rmax_in l a) as [-> | H]; simpl; auto. }
        rewrite Forall_forall in Hall. now apply Hall.
      * destruct Hin as [<- | Hin]; [apply fold_left_Rmax_ge |].
        pose proof (fold_left_Rmax_upper l a) as Hu.
        rewrite Forall_forall in Hu. now apply Hu.
Qed.

(** Subtracting the maximum from every cell leaves a maximum of 0. *)
Lemma np_max_shift (l : list R) (m : R) :
  np_max l = Some m -> np_max (map (fun v => v - m) l) = Some 0.
Proof.
  rewrite !np_max_spec. intros [Hin Hall]. split.
  - apply in_map_iff. exists m. split; [lra | exact Hin].
  - rewrite Forall_forall in *. intros v Hv.
    apply in_map_iff in Hv as (u & <- & Hu). specialize (Hall u Hu). lra.
Qed.

Lemma concat_mat_map (f : R -> R) (A : list (list R)) :
  List.concat (mat_map f A) = map f (List.concat A).
Proof.
  unfold mat_map. now rewrite concat_map.
Qed.

Lemma length_linspace (a b : R) (n : nat) : List.length (linspace a b n) = n.
Proof.
  destruct n as [|[|n]]; simpl; auto.
  rewrite length_app, length_map, length_seq. simpl. lia.
Qed.

Lemma nth_map_seq {A : Type} (f : nat -> A) (n i : nat) (d : A) :
  (i < n)%nat -> nth i (map f (seq 0 n)) d = f i.
Proof.
  intros Hi.
  rewrite (nth_indep _ d (f 0%nat)) by (rewrite length_map, length_seq; lia).
  rewrite (map_nth f (seq 0 n) 0%nat i), seq_nth by lia. reflexivity.
Qed.

(** The samples of [linspace] are equally spaced from [start] to [stop]. *)
Lemma nth_linspace (a b : R) (n i : nat) :
  (2 <= n)%nat -> (i < n)%nat ->
  nth i (linspace a b n) 0 = a + INR i * ((b - a) / INR (n - 1)).
Proof.
  intros Hn Hi. destruct n as [|[|n]]; try lia.
  unfold linspace. replace (S (S n) - 1)%nat with (S n) by lia.
  assert (Hd : INR (S n) <> 0) by (apply not_0_INR; lia).
  destruct (Nat.eq_dec i (S n)) as [-> | Hne].
  - rewrite app_nth2; rewrite length_map, length_seq; [| lia].
    rewrite Nat.sub_diag. simpl nth. field. exact Hd.
  - rewrite app_nth1 by (rewrite length_map, length_seq; lia).
    rewrite nth_map_seq by lia. lra.
Qed.

Lemma nth_linspace_180 (a b : R) (i : nat) :
  (i < 180)%nat ->
  nth i (linspace a b 180) 0 = a + INR i * ((b - a) / 179).
Proof.
  intros Hi. rewrite nth_linspace by lia.
  change (180 - 1)%nat with 179%nat.
  replace (INR 179) with 179; [reflexivity |].
  rewrite INR_IZR_INZ. reflexivity.
Qed.

Lemma first_linspace_180 (a b : R) : nth 0 (linspace a b 180) 0 = a.
Proof. rewrite nth_linspace_180 by lia. simpl INR. lra. Qed.

Lemma last_linspace_180 (a b : R) : nth 179 (linspace a b 180) 0 = b.
Proof.
  rewrite nth_linspace_180 by lia.
  rewrite INR_IZR_INZ. change (IZR (Z.of_nat 179)) with 179. field.
Qed.

(** Every sample lies between the two end points. *)
Lemma linspace_between (a b : R) (n : nat) :
  (2 <= n)%nat ->
  Forall (fun v => Rmin a b <= v <= Rmax a b) (linspace a b n).
Proof.
  intros Hn. apply Forall_forall. intros v Hv.
  apply (In_nth _ _ 0) in Hv as (i & Hi & <-).
  rewrite length_linspace in Hi. rewrite nth_linspace by assumption.
  assert (Hd : 0 < INR (n - 1)) by (apply lt_0_INR; lia).
  assert (Hi' : 0 <= INR i <= INR (n - 1)).
  { split; [apply pos_INR | apply le_INR; lia]. }
  set (d := INR (n - 1)) in *. set (t := INR i) in *.
  assert (Ht : 0 <= t / d <= 1).
  { split.
    - apply Rmult_le_pos; [lra | left; now apply Rinv_0_lt_compat].
    - apply (Rmult_le_reg_r d); [lra |]. unfold Rdiv.
      rewrite Rmult_assoc, Rinv_l by lra. lra. }
  replace (a + t * ((b - a) / d)) with (a + (t / d) * (b - a))
    by (field; lra).
  unfold Rmin, Rmax. destruct (Rle_dec a b); split; nra.
Qed.

End Arrays.

(* ================================================================== *)
(** * The log-likelihood and its contour grid *)
(* ================================================================== *)

Section Likelihood.
Import Py PlotGamma Spec.
Context {SP : SciPy}.

Lemma zip_with_const_r (f : R -> R -> R) (K : list R) (t : R) :
  zip_with f K (map (fun _ => t) K) = map (fun k => f k t) K.
Proof.
  induction K as [|k K IH]; simpl; [reflexivity | now rewrite IH].
Qed.

(** The cell-wise evaluation over the mesh, row by row. *)
Lemma mat_zip_with_meshgrid (f : R -> R -> R) (K T : list R) :
  mat_zip_with f (fst (meshgrid K T)) (snd (meshgrid K T)) =
  map (fun t => map (fun k => f k t) K) T.
Proof.
  unfold mat_zip_with, meshgrid; simpl.
  induction T as [|t T IH]; simpl; [reflexivity |].
  now rewrite zip_with_const_r, IH.
Qed.

(** What [plot_ll_contour] computes before it draws, written out. *)
Lemma plot_ll_contour_locals_inv (x : list R) (k_mle th_mle : R)
      (l : contour_locals) :
  plot_ll_contour_locals x k_mle th_mle = Return l ->
  K l = linspace (py_max 1e-3 (k_mle * 0.25)) (k_mle * 4.0) 180 /\
  T l = linspace (py_max 1e-6 (th_mle * 0.25)) (th_mle * 4.0) 180 /\
  ll l = map (fun t => map (fun k => ll_cell x k t) (K l)) (T l) /\
  np_nanmax (ll l) = Some (ll_max l) /\
  z l = mat_map (fun v => v - ll_max l) (ll l) /\
  levels l = [-9.21; -5.99; -3.00; -2.00; -1.00; -0.50; -0.10].
Proof.
  unfold plot_ll_contour_locals.
  remember (linspace (py_max 1e-3 (k_mle * 0.25)) (k_mle * 4.0) 180)
    as Kg eqn:HKg.
  remember (linspace (py_max 1e-6 (th_mle * 0.25)) (th_mle * 4.0) 180)
    as Tg eqn:HTg.
  pose proof (mat_zip_with_meshgrid (ll_cell x) Kg Tg) as Hll.
  unfold ll_cell in Hll at 1.
  destruct (meshgrid Kg Tg) as [KK TT] eqn:Hmesh.
  cbn [fst snd] in Hll. rewrite Hll.
  destruct (np_nanmax _) as [m|] eqn:Hmax; [| discriminate].
  intros H; injection H as <-. cbn [K T ll ll_max z levels].
  repeat split; auto.
Qed.

Lemma plot_ll_contour_locals_returns (x : list R) (k_mle th_mle : R) :
  exists l, plot_ll_contour_locals x k_mle th_mle = Return l.
Proof.
  unfold plot_ll_contour_locals.
  remember (linspace (py_max 1e-3 (k_mle * 0.25)) (k_mle * 4.0) 180)
    as Kg eqn:HKg.
  remember (linspace (py_max 1e-6 (th_mle * 0.25)) (th_mle * 4.0) 180)
    as Tg eqn:HTg.
  pose proof (mat_zip_with_meshgrid (ll_cell x) Kg Tg) as Hll.
  unfold ll_cell in Hll at 1.
  destruct (meshgrid Kg Tg) as [KK TT] eqn:Hmesh.
  cbn [fst snd] in Hll. rewrite Hll.
  assert (HK : List.length Kg = 180%nat)
    by (rewrite HKg; apply length_linspace).
  assert (HT : List.length Tg = 180%nat)
    by (rewrite HTg; apply length_linspace).
  clear HKg HTg Hll Hmesh.
  destruct Kg as [|k0 Kg']; [simpl in HK; lia |].
  destruct Tg as [|t0 Tg']; [simpl in HT; lia |].
  unfold np_nanmax. cbn [map List.concat app np_max]. eexists. reflexivity.
Qed.

(** The log of the density of one observation. *)
Lemma ln_gamma_density (k theta v : R) :
  0 < v -> 0 < theta ->
  ln (Spec.gamma_density k theta v) =
  (k - 1) * ln v - v / theta - k * ln theta - gammaln k.
Proof.
  intros Hv Hth. unfold Spec.gamma_density, Rdiv.
  assert (H1 : 0 < Rpower v (k - 1)) by apply exp_pos.
  assert (H2 : 0 < exp (- v * / theta)) by apply exp_pos.
  assert (H3 : 0 < Rpower theta k) by apply exp_pos.
  assert (H4 : 0 < exp (gammaln k)) by apply exp_pos.
  rewrite ln_mult, ln_mult, ln_Rinv, ln_mult; auto.
  - rewrite !ln_Rpower, !ln_exp. lra.
  - now apply Rmult_lt_0_compat.
  - now apply Rmult_lt_0_compat.
  - apply Rinv_0_lt_compat. now apply Rmult_lt_0_compat.
Qed.

Lemma loglike_is_sum_of_log_densities (x : list R) (k theta : R) :
  Forall (fun v => 0 < v) x -> 0 < theta ->
  _loglike_gamma_loc0 x k theta =
  np_sum (map (fun v => ln (Spec.gamma_density k theta v)) x).
Proof.
  intros Hx Hth. unfold _loglike_gamma_loc0.
  induction Hx as [|v x Hv Hx IH].
  - simpl. lra.
  - cbn [map np_sum fold_right List.length].
    change (fold_right Rplus 0) with np_sum in *.
    rewrite ln_gamma_density by assumption. rewrite <- IH.
    rewrite S_INR. unfold Rdiv. lra.
Qed.

(** C1.  For a non-empty sample [x] of positive reals and [k > 0],
    [theta > 0], [_loglike_gamma_loc0 x k theta] is
    [(k-1) S1 - S2/theta - n k ln(theta) - n lnGamma(k)] with [n = |x|],
    [S1 = sum of ln x_i], [S2 = sum of x_i]; this is the sum over the
    sample of the log of the Gamma(k, theta, loc=0) density; and every
    cell of the grid [ll] that [plot_ll_contour] evaluates is this same
    value at its grid point [(K_i, T_j)], from the one pair [S1], [S2]. *)
Theorem loglike_gamma_closed_form
        (x : list R) (k theta k_mle th_mle : R) :
  x <> [] -> Forall (fun v => 0 < v) x -> 0 < k -> 0 < theta ->
  let n := INR (List.length x) in
  let S1 := np_sum (map ln x) in
  let S2 := np_sum x in
  _loglike_gamma_loc0 x k theta =
    (k - 1) * S1 - S2 / theta - n * k * ln theta - n * gammaln k
  /\ _loglike_gamma_loc0 x k theta =
       np_sum (map (fun v => ln (Spec.gamma_density k theta v)) x)
  /\ exists l,
       plot_ll_contour_locals x k_mle th_mle = Return l /\
       forall i j, (i < 180)%nat -> (j < 180)%nat ->
         nth i (nth j (ll l) []) 0 =
           (nth i (K l) 0 - 1) * S1 - S2 / nth j (T l) 0
           - n * nth i (K l) 0 * ln (nth j (T l) 0)
           - n * gammaln (nth i (K l) 0)
         /\ nth i (nth j (ll l) []) 0 =
              _loglike_gamma_loc0 x (nth i (K l) 0) (nth j (T l) 0).
Proof.
  intros Hne Hpos Hk Hth n S1 S2. split; [| split].
  - unfold _loglike_gamma_loc0. subst n S1 S2. lra.
  - now apply loglike_is_sum_of_log_densities.
  - destruct (plot_ll_contour_locals_returns x k_mle th_mle) as [l Hl].
    exists l. split; [exact Hl |].
    destruct (plot_ll_contour_locals_inv _ _ _ _ Hl)
      as (HK & HT & Hll & _).
    intros i j Hi Hj.
    assert (HlK : List.length (K l) = 180%nat)
      by (rewrite HK; apply length_linspace).
    assert (HlT : List.length (T l) = 180%nat)
      by (rewrite HT; apply length_linspace).
    assert (Hcell : nth i (nth j (ll l) []) 0 =
                    ll_cell x (nth i (K l) 0) (nth j (T l) 0)).
    { rewrite Hll.
      rewrite (nth_indep _ []
                 ((fun t => map (fun k => ll_cell x k t) (K l)) 0))
        by (rewrite length_map; lia).
      rewrite (map_nth (fun t => map (fun k => ll_cell x k t) (K l))).
      rewrite (nth_indep _ 0 ((fun k => ll_cell x k (nth j (T l) 0)) 0))
        by (rewrite length_map; lia).
      now rewrite (map_nth (fun k => ll_cell x k (nth j (T l) 0))). }
    rewrite Hcell. unfold ll_cell, _loglike_gamma_loc0. subst n S1 S2.
    split; lra.
Qed.

(** C6, as the code has it.  For [k0 > 0] and [theta0 > 0] the grid has
    180 equally spaced values of k running from [max(1e-3, 0.25 k0)] to
    [4 k0] and 180 equally spaced values of theta running from
    [max(1e-6, 0.25 theta0)] to [4 theta0]; every grid point is strictly
    positive; every k is at least 1e-3 when [4 k0 >= 1e-3], and every theta
    at least 1e-6 when [4 theta0 >= 1e-6]. *)
Theorem contour_grid_ranges (x : list R) (k0 theta0 : R) :
  0 < k0 -> 0 < theta0 ->
  exists l,
    plot_ll_contour_locals x k0 theta0 = Return l /\
    let k_lo := Rmax 1e-3 (0.25 * k0) in
    let k_hi := 4 * k0 in
    let th_lo := Rmax 1e-6 (0.25 * theta0) in
    let th_hi := 4 * theta0 in
    List.length (K l) = 180%nat /\ List.length (T l) = 180%nat /\
    (forall i, (i < 180)%nat ->
       nth i (K l) 0 = k_lo + INR i * ((k_hi - k_lo) / 179)) /\
    (forall j, (j < 180)%nat ->
       nth j (T l) 0 = th_lo + INR j * ((th_hi - th_lo) / 179)) /\
    nth 0 (K l) 0 = k_lo /\ nth 179 (K l) 0 = k_hi /\
    nth 0 (T l) 0 = th_lo /\ nth 179 (T l) 0 = th_hi /\
    Forall (fun k => 0 < k) (K l) /\ Forall (fun t => 0 < t) (T l) /\
    (1e-3 <= 4 * k0 -> Forall (fun k => 1e-3 <= k) (K l)) /\
    (1e-6 <= 4 * theta0 -> Forall (fun t => 1e-6 <= t) (T l)).
Proof.
  intros Hk Hth.
  destruct (plot_ll_contour_locals_returns x k0 theta0) as [l Hl].
  exists l. split; [exact Hl |].
  destruct (plot_ll_contour_locals_inv _ _ _ _ Hl) as (HK & HT & _).
  rewrite !py_max_Rmax in HK, HT.
  replace (k0 * 0.25) with (0.25 * k0) in HK by lra.
  replace (k0 * 4.0) with (4 * k0) in HK by lra.
  replace (theta0 * 0.25) with (0.25 * theta0) in HT by lra.
  replace (theta0 * 4.0) with (4 * theta0) in HT by lra.
  cbv zeta. rewrite HK, HT.
  assert (Hbetween : forall a b lo,
            lo <= a -> lo <= b ->
            Forall (fun v => lo <= v) (linspace a b 180)).
  { intros a b lo Ha Hb.
    pose proof (linspace_between a b 180 ltac:(lia)) as H.
    rewrite Forall_forall in *. intros v Hv. specialize (H v Hv).
    unfold Rmin in H. destruct (Rle_dec a b); lra. }
  assert (Hpos : forall a b,
            0 < a -> 0 < b -> Forall (fun v => 0 < v) (linspace a b 180)).
  { intros a b Ha Hb.
    pose proof (linspace_between a b 180 ltac:(lia)) as H.
    rewrite Forall_forall in *. intros v Hv. specialize (H v Hv).
    unfold Rmin in H. destruct (Rle_dec a b); lra. }
  assert (Hklo : 1e-3 <= Rmax 1e-3 (0.25 * k0)) by apply Rmax_l.
  assert (Hthlo : 1e-6 <= Rmax 1e-6 (0.25 * theta0)) by apply Rmax_l.
  split; [apply length_linspace |].
  split; [apply length_linspace |].
  split; [intros i Hi; apply nth_linspace_180; exact Hi |].
  split; [intros j Hj; apply nth_linspace_180; exact Hj |].
  split; [apply first_linspace_180 |]. split; [apply last_linspace_180 |].
  split; [apply first_linspace_180 |]. split; [apply last_linspace_180 |].
  split; [apply Hpos; lra |]. split; [apply Hpos; lra |].
  split; intros H; apply Hbetween; assumption.
Qed.

(** C8.  The contour levels of [plot_ll_contour] are the fixed list
    -9.21, -5.99, -3.00, -2.00, -1.00, -0.50, -0.10, whatever the sample
    and the reference point; they are the levels the figure is drawn with. *)
Theorem contour_levels_fixed (x : list R) (k_mle th_mle : R)
        (out_png title : string) (w : world) :
  let fixed := [-9.21; -5.99; -3.00; -2.00; -1.00; -0.50; -0.10] in
  exists l,
    plot_ll_contour_locals x k_mle th_mle = Return l /\
    levels l = fixed /\
    exists w' rest,
      plot_ll_contour x k_mle th_mle out_png title w = (Return tt, w') /\
      lookup out_png (files w') =
        Some (PngFile (Contour (K l) (T l) (transpose (z l)) fixed :: rest)).
Proof.
  intros fixed.
  destruct (plot_ll_contour_locals_returns x k_mle th_mle) as [l Hl].
  exists l. split; [exact Hl |].
  destruct (plot_ll_contour_locals_inv _ _ _ _ Hl)
    as (_ & _ & _ & _ & _ & Hlev).
  split; [exact Hlev |].
  unfold plot_ll_contour, bind, lift. rewrite Hl.
  cbn [makedirs write_file]. do 2 eexists. split; [reflexivity |].
  cbn [files lookup]. rewrite String.eqb_refl, Hlev. reflexivity.
Qed.

End Likelihood.

(* ================================================================== *)
(** * Concrete runs of the renderer *)
(* ================================================================== *)

Section LikelihoodRuns.
Import Py PlotGamma Spec.

(** Witness of C1: the sample [1; 2] at [(2, 3)]. *)
Lemma loglike_gamma_closed_form_witness :
  _loglike_gamma_loc0 (SP := Sample.scipy) [1; 2] 2 3 =
    (2 - 1) * np_sum (map ln [1; 2]) - np_sum [1; 2] / 3
    - INR 2 * 2 * ln 3 - INR 2 * gammaln (SciPy := Sample.scipy) 2.
Proof.
  apply (loglike_gamma_closed_form [1; 2] 2 3 2 3).
  - discriminate.
  - repeat constructor; lra.
  - lra.
  - lra.
Defined.

(** Witness of C6: the grid around [(2, 3)]. *)
Lemma contour_grid_ranges_witness :
  exists l,
    plot_ll_contour_locals (SP := Sample.scipy) [1; 2] 2 3 = Return l /\
    nth 0 (K l) 0 = Rmax 1e-3 (0.25 * 2) /\ nth 179 (K l) 0 = 4 * 2.
Proof.
  destruct (contour_grid_ranges (SP := Sample.scipy) [1; 2] 2 3)
    as (l & Hl & H); [lra | lra |].
  exists l. split; [exact Hl |].
  destruct H as (_ & _ & _ & _ & H0 & H179 & _). split; assumption.
Defined.

(** C6 as the specification states it fails: around [k0 = 1e-4] the grid
    runs from 1e-3 down to 4e-4, so its last point is below 1e-3. *)
Lemma contour_grid_below_clamp :
  ~ (forall l,
        plot_ll_contour_locals (SP := Sample.scipy) [1] 1e-4 1 = Return l ->
        Forall (fun k => 1e-3 <= k) (K l) /\
        Forall (fun t => 1e-6 <= t) (T l)).
Proof.
  intros H.
  destruct (plot_ll_contour_locals_returns (SP := Sample.scipy) [1] 1e-4 1)
    as [l Hl].
  destruct (H l Hl) as [HK _].
  destruct (plot_ll_contour_locals_inv _ _ _ _ Hl) as (EK & _).
  clear H Hl. rewrite EK in HK. rewrite Forall_forall in HK.
  assert (Hin : In (nth 179 (linspace (py_max 1e-3 (1e-4 * 0.25))
                                      (1e-4 * 4.0) 180) 0)
                   (linspace (py_max 1e-3 (1e-4 * 0.25)) (1e-4 * 4.0) 180)).
  { apply nth_In. rewrite length_linspace. lia. }
  specialize (HK _ Hin). rewrite last_linspace_180 in HK. lra.
Qed.

End LikelihoodRuns.

(* ================================================================== *)
(** * The estimator and the loading of a sample *)
(* ================================================================== *)

Section Samples.
Import Py Spec.

(** The boolean mask of both scripts keeps the finite, strictly positive
    values. *)
Lemma masked_values (x : list float64) :
  finite_values (filter (fun v => isfinite v && gt_zero v) x) =
  positive_finite_values x.
Proof.
  induction x as [|v x IH]; [reflexivity |].
  destruct v as [r | | |]; cbn [filter isfinite gt_zero andb]; auto.
  unfold Rltb. cbn [positive_finite_values].
  destruct (Rlt_dec 0 r); [| exact IH].
  unfold finite_values in *. cbn [flat_map app]. now rewrite IH.
Qed.

Lemma length_positive_finite_values (x : list float64) :
  List.length (positive_finite_values x) = count_positive_finite x.
Proof.
  induction x as [|v x IH]; [reflexivity |].
  destruct v as [r | | |]; cbn; auto.
  destruct (Rlt_dec 0 r); cbn; auto.
Qed.

Lemma in_positive_finite_values (x : list float64) (r : R) :
  In r (positive_finite_values x) <-> In (Fin r) x /\ 0 < r.
Proof.
  induction x as [|v x IH]; cbn; [tauto |].
  destruct v as [u | | |].
  - destruct (Rlt_dec 0 u) as [Hu | Hu]; cbn; rewrite IH; split.
    + intros [-> | [H1 H2]]; auto.
    + intros [[H | H] Hr]; [injection H; auto | auto].
    + intros [H1 H2]; auto.
    + intros [[H | H] Hr]; [injection H as ->; contradiction | auto].
  - rewrite IH. split; [intros []; auto | intros [[H | H] ?]; [discriminate | auto]].
  - rewrite IH. split; [intros []; auto | intros [[H | H] ?]; [discriminate | auto]].
  - rewrite IH. split; [intros []; auto | intros [[H | H] ?]; [discriminate | auto]].
Qed.

Lemma positive_finite_values_pos (x : list float64) :
  Forall (fun v => 0 < v) (positive_finite_values x).
Proof.
  apply Forall_forall. intros r Hr.
  now apply in_positive_finite_values in Hr.
Qed.

Lemma no_positive_finite_values (x : list float64) :
  no_positive_finite x -> positive_finite_values x = [].
Proof.
  induction 1 as [|v x Hv _ IH]; [reflexivity |].
  destruct v as [r | | |]; cbn in *; auto.
  unfold Rltb in Hv. destruct (Rlt_dec 0 r); [discriminate | exact IH].
Qed.

End Samples.

Section Estimator.
Import Py Spec GammaMle.
Context {SP : SciPy} {PF : PyFormat}.

(** C2, amended.  On an input with at least one finite, strictly positive
    value, [fit_gamma_loc0] hands exactly the finite strictly positive
    values to [gamma.fit] and follows it: an exception of [gamma.fit]
    propagates, and when [gamma.fit] returns [(k, loc, theta)] the result
    is [(k, theta, n, mean)] with [n] the number of those values (at least
    one) and [mean] their arithmetic mean. *)
Theorem fit_gamma_loc0_follows_fit (x : list float64) :
  (exists r, In (Fin r) x /\ 0 < r) ->
  (0 < count_positive_finite x)%nat /\
  (forall r, In r (positive_finite_values x) <-> In (Fin r) x /\ 0 < r) /\
  fit_gamma_loc0 x =
    match gamma_fit_floc0 (positive_finite_values x) with
    | Raise e => Raise e
    | Return (k, loc, theta) =>
        Return (k, theta, count_positive_finite x,
                np_sum (positive_finite_values x)
                / INR (count_positive_finite x))
    end.
Proof.
  intros (r & Hin & Hr).
  assert (Hin' : In r (positive_finite_values x))
    by (apply in_positive_finite_values; auto).
  assert (Hn : (0 < count_positive_finite x)%nat).
  { rewrite <- length_positive_finite_values.
    destruct (positive_finite_values x); [destruct Hin' | simpl; lia]. }
  split; [exact Hn |].
  split; [intros r0; apply in_positive_finite_values |].
  unfold fit_gamma_loc0. rewrite masked_values.
  rewrite length_positive_finite_values.
  destruct (Nat.eqb_spec (count_positive_finite x) 0) as [E | _]; [lia |].
  destruct (gamma_fit_floc0 (positive_finite_values x)) as [[[k loc] theta] | e];
    [| reflexivity].
  unfold np_mean. rewrite length_positive_finite_values. reflexivity.
Qed.

(** C3.  When the column that a script selects has no finite, strictly
    positive value, the estimator and the renderer both stop with
    [SystemExit] and leave the world as it was: no directory is created, no
    report or image is written, nothing is printed. *)
Theorem empty_sample_fails_before_any_write
        (w : world) (a : GammaMle.args) (pa : PlotGamma.args)
        (df dfp : DataFrame) (col colp : string) (x xp : list float64) :
  lookup (GammaMle.arg_tsv a) (tsv_inputs w) = Some df ->
  GammaMle.select_column df (GammaMle.arg_col a) = Return col ->
  to_numeric df col = Return x ->
  no_positive_finite x ->
  lookup (PlotGamma.arg_tsv pa) (tsv_inputs w) = Some dfp ->
  PlotGamma.select_column dfp (PlotGamma.arg_col pa) = Return colp ->
  to_numeric dfp colp = Return xp ->
  no_positive_finite xp ->
  fit_gamma_loc0 x = Raise (SystemExit "No positive finite values to fit.")
  /\ GammaMle.main a w =
       (Raise (SystemExit "No positive finite values to fit."), w)
  /\ PlotGamma._load_values (PlotGamma.arg_tsv pa) (PlotGamma.arg_col pa) w =
       (Raise (SystemExit "No positive finite values to plot."), w)
  /\ PlotGamma.main pa w =
       (Raise (SystemExit "No positive finite values to plot."), w).
Proof.
  intros Hdf Hcol Hx Hempty Hdfp Hcolp Hxp Hemptyp.
  assert (Hfit : fit_gamma_loc0 x =
                 Raise (SystemExit "No positive finite values to fit.")).
  { unfold fit_gamma_loc0.
    rewrite masked_values, (no_positive_finite_values x Hempty).
    reflexivity. }
  assert (Hload :
            PlotGamma._load_values (PlotGamma.arg_tsv pa)
                                   (PlotGamma.arg_col pa) w =
            (Raise (SystemExit "No positive finite values to plot."), w)).
  { unfold PlotGamma._load_values, bind, read_csv, lift.
    rewrite Hdfp, Hcolp, Hxp.
    rewrite masked_values, (no_positive_finite_values xp Hemptyp).
    reflexivity. }
  split; [exact Hfit |]. split; [| split; [exact Hload |]].
  - unfold GammaMle.main, bind, read_csv, lift.
    rewrite Hdf, Hcol, Hx, Hfit. reflexivity.
  - unfold PlotGamma.main. unfold bind at 1. rewrite Hload. reflexivity.
Qed.

End Estimator.

(* ================================================================== *)
(** * Concrete runs of the estimator and of the column selection *)
(* ================================================================== *)

Section EstimatorRuns.
Import Py Spec.

Lemma np_sum_pos (x : list R) :
  x <> [] -> Forall (fun v => 0 < v) x -> 0 < np_sum x.
Proof.
  intros Hne Hx. induction Hx as [|v x Hv Hx IH]; [congruence |].
  simpl. destruct x as [|u x]; [simpl; lra |].
  assert (0 < np_sum (u :: x)) by (apply IH; discriminate). lra.
Qed.

(** Witness of C2: an array with two positive finite values among
    non-finite, zero and negative ones. *)
Lemma fit_gamma_loc0_follows_fit_witness :
  let x := [Fin 1; NaN; Fin 3; Fin (-2); PInf; Fin 0] in
  (0 < count_positive_finite x)%nat /\
  (forall r, In r (positive_finite_values x) <-> In (Fin r) x /\ 0 < r) /\
  GammaMle.fit_gamma_loc0 (SP := Sample.scipy) x =
    match gamma_fit_floc0 (SciPy := Sample.scipy)
            (positive_finite_values x) with
    | Raise e => Raise e
    | Return (k, loc, theta) =>
        Return (k, theta, count_positive_finite x,
                np_sum (positive_finite_values x)
                / INR (count_positive_finite x))
    end.
Proof.
  intros x.
  apply (fit_gamma_loc0_follows_fit (SP := Sample.scipy) x).
  exists 1. split; [left; reflexivity | lra].
Defined.

(** C2, counterexample.  The array [[1.0]] has a finite strictly positive
    value, and [gamma.fit] raises [ValueError] on its one-value sample:
    [fit_gamma_loc0] raises too and returns no [(k, theta, n, mean)]. *)
Lemma fit_gamma_loc0_one_value_raises :
  (exists r, In (Fin r) [Fin 1] /\ 0 < r) /\
  GammaMle.fit_gamma_loc0 (SP := Sample.scipy) [Fin 1] = Raise ValueError /\
  ~ (exists k theta n mean_,
        GammaMle.fit_gamma_loc0 (SP := Sample.scipy) [Fin 1] =
        Return (k, theta, n, mean_) /\ 0 < k /\ 0 < theta).
Proof.
  assert (E : GammaMle.fit_gamma_loc0 (SP := Sample.scipy) [Fin 1] =
              Raise ValueError).
  { unfold GammaMle.fit_gamma_loc0. cbn. unfold Rltb.
    destruct (Rlt_dec 0 1) as [_ | H]; [reflexivity | exfalso; lra]. }
  split; [exists 1; split; [left; reflexivity | lra] |].
  split; [exact E |].
  intros (k & theta & n & m & H & _). rewrite E in H. discriminate H.
Qed.

Lemma barren_table_has_no_positive_finite :
  no_positive_finite [Fin 0; NaN; Fin (-1); NInf].
Proof.
  unfold no_positive_finite.
  repeat constructor; cbn; unfold Rltb;
    match goal with
    | |- context [Rlt_dec ?a ?b] => destruct (Rlt_dec a b); [lra | reflexivity]
    end.
Qed.

(** Witness of C3: both scripts on a table whose column holds 0, nan, -1
    and -inf. *)
Lemma empty_sample_fails_before_any_write_witness :
  let a := GammaMle.default_args in
  let pa := {| PlotGamma.arg_tsv := "data/lifespans.tsv";
               PlotGamma.arg_col := "lifespan_months";
               PlotGamma.arg_k := 2; PlotGamma.arg_theta := 3;
               PlotGamma.arg_title := "Alpha";
               PlotGamma.arg_outprefix := "out/alpha" |} in
  GammaMle.main (SP := Sample.scipy) (PF := Sample.format) a
                Sample.barren_world =
    (Raise (SystemExit "No positive finite values to fit."),
     Sample.barren_world)
  /\ PlotGamma.main (SP := Sample.scipy) pa Sample.barren_world =
       (Raise (SystemExit "No positive finite values to plot."),
        Sample.barren_world).
Proof.
  intros a pa.
  destruct (empty_sample_fails_before_any_write
              (SP := Sample.scipy) (PF := Sample.format)
              Sample.barren_world a pa
              Sample.barren_table Sample.barren_table
              "lifespan_months" "lifespan_months"
              [Fin 0; NaN; Fin (-1); NInf] [Fin 0; NaN; Fin (-1); NInf])
    as (_ & Hmle & _ & Hplot);
    try reflexivity; try apply barren_table_has_no_positive_finite.
  split; assumption.
Defined.

(** C9, where the two scripts part.  On a table with the numeric columns
    [id] and [lifespan_months] and a requested column that is absent, the
    estimator falls back to [lifespan_months] and the renderer to [id]. *)
Theorem column_fallback_diverges :
  GammaMle.select_column Sample.two_numeric_columns "months" =
    Return "lifespan_months"
  /\ PlotGamma.select_column Sample.two_numeric_columns "months" =
       Return "id".
Proof.
  split; reflexivity.
Qed.

(** The two selections agree when the requested column is present, and
    when neither it nor [lifespan_months] is and some column is numeric. *)
Lemma column_selection_agreement (df : DataFrame) (col : string) :
  (in_columns col df = true ->
   GammaMle.select_column df col = Return col /\
   PlotGamma.select_column df col = Return col)
  /\ (forall c rest,
        in_columns col df = false ->
        in_columns "lifespan_months" df = false ->
        GammaMle.number_columns df = c :: rest ->
        GammaMle.select_column df col = Return c /\
        PlotGamma.select_column df col = Return c).
Proof.
  unfold GammaMle.select_column, PlotGamma.select_column,
    GammaMle.number_columns.
  split.
  - intros ->. split; reflexivity.
  - intros c rest -> -> ->. split; reflexivity.
Qed.

(** With no column to select (the requested name and [lifespan_months]
    absent, no numeric column) both selections raise. *)
Lemma no_column_is_fatal (df : DataFrame) (col : string) :
  in_columns col df = false ->
  in_columns "lifespan_months" df = false ->
  GammaMle.number_columns df = [] ->
  GammaMle.select_column df col = Raise IndexError /\
  PlotGamma.select_column df col =
    Raise (SystemExit "No numeric column found and --col not present.").
Proof.
  unfold GammaMle.select_column, PlotGamma.select_column,
    GammaMle.number_columns.
  intros -> -> ->. split; reflexivity.
Qed.

End EstimatorRuns.

(* ================================================================== *)
(** * Text generation and its fallback *)
(* ================================================================== *)

Section Strings.
Import Py Spec.

Lemma upper_char_colon (c : ascii) :
  upper_char c = ":"%char -> c = ":"%char.
Proof.
  destruct c as [[] [] [] [] [] [] [] []]; vm_compute; intros H;
    first [reflexivity | discriminate H].
Qed.

(** A line whose upper-case form starts with a prefix that has a colon has
    a colon itself. *)
Lemma prefix_upper_has_colon (p s : string) :
  has_colon p = true -> String.prefix p (upper s) = true ->
  has_colon s = true.
Proof.
  revert s. induction p as [|a p IH]; intros s Hp Hpre; [discriminate |].
  destruct s as [|c s]; [discriminate |].
  cbn [upper String.prefix] in Hpre. cbn [has_colon] in *.
  destruct (ascii_dec a (upper_char c)) as [E | E]; [| discriminate].
  apply orb_true_iff in Hp as [Ha | Hp].
  - apply Ascii.eqb_eq in Ha. rewrite Ha in E. symmetry in E.
    apply upper_char_colon in E. subst c. reflexivity.
  - rewrite (IH s Hp Hpre). apply orb_true_r.
Qed.

Lemma split_colon_1_has_colon (s : string) :
  has_colon s = true -> exists a b, split_colon_1 s = [a; b].
Proof.
  induction s as [|c s IH]; [discriminate |].
  cbn [has_colon split_colon_1].
  destruct (Ascii.eqb c ":"%char); [intros _; eauto |].
  cbn [orb]. intros H. destruct (IH H) as (a & b & ->). eauto.
Qed.

End Strings.

Section TextGeneration.
Import Py Spec GenerateData.
Context {PR : PyRandom} {PF : PyFormat}.
Variable env : environ.

Lemma parse_line_returns (t b line : string) :
  exists t' b', parse_line (Return (t, b)) line = Return (t', b').
Proof.
  unfold parse_line, startswith.
  destruct (String.prefix "TITLE:" (upper (strip line))) eqn:Ht.
  - apply prefix_upper_has_colon in Ht; [| reflexivity].
    destruct (split_colon_1_has_colon _ Ht) as (u & v & ->).
    cbn. eauto.
  - destruct (String.prefix "BODY:" (upper (strip line))) eqn:Hb; [| eauto].
    apply prefix_upper_has_colon in Hb; [| reflexivity].
    destruct (split_colon_1_has_colon _ Hb) as (u & v & ->).
    cbn. eauto.
Qed.

(** [parse_title_body] never raises. *)
Lemma parse_title_body_returns (text : string) :
  exists t b, parse_title_body text = Return (t, b).
Proof.
  unfold parse_title_body.
  generalize (splitlines text) as lines.
  generalize EmptyString at 2 as b. generalize EmptyString as t.
  intros t b lines. revert t b.
  induction lines as [|line lines IH]; intros t b; cbn [fold_left]; eauto.
  destruct (parse_line_returns t b line) as (t' & b' & ->). apply IH.
Qed.

Lemma exn_of_service_error_caught (e : service_error) :
  is_Exception (exn_of_service_error e) = true.
Proof. destruct e; reflexivity. Qed.

Lemma existsb_find {A : Type} (f : A -> bool) (l : list A) :
  existsb f l = true -> exists a, find f l = Some a.
Proof.
  induction l as [|a l IH]; cbn; [discriminate |].
  destruct (f a); eauto.
Qed.

(** [_hf_generate] always returns; it writes nothing; and it returns the
    empty string in every failure condition. *)
Lemma hf_generate_returns (prompt : string) (n : nat) (w : world) :
  exists s w',
    _hf_generate env prompt n w = (Return s, w') /\
    files w' = files w /\ dirs w' = dirs w /\ stdout w' = stdout w /\
    (generation_failed env w -> s = "").
Proof.
  unfold _hf_generate.
  destruct (truthy (HF_TOKEN env)) eqn:Htok; cbn [negb].
  2:{ exists "", w. repeat split; reflexivity. }
  unfold try_except, bind, urlopen_json, next_reply.
  destruct (http w) as [|[e | data] rest] eqn:Hhttp.
  - cbn. exists "", w. repeat split; reflexivity.
  - rewrite exn_of_service_error_caught. cbn.
    eexists "", _. repeat split; reflexivity.
  - assert (Hfail : forall s : string,
               (~ carries_text data -> s = "") ->
               generation_failed env w -> s = "").
    { intros s Hs [Hno | Hno | e' rest' Hno | data' rest' Hno Hbad].
      - unfold HF_TOKEN in Htok. congruence.
      - congruence.
      - congruence.
      - apply Hs. congruence. }
    destruct data as [| b | t | s | [|d0 l] | items];
      try (cbn; eexists "", _; repeat split; reflexivity).
    + cbn. eexists (strip s), _. repeat split; try reflexivity.
      apply Hfail. intros Hbad. exfalso. apply Hbad. right. eauto.
    + destruct d0 as [| b | t | s | l0 | items];
        try (cbn; eexists "", _; repeat split; reflexivity).
      * cbn [lift json_contains].
        destruct (contains s "generated_text");
          cbn; eexists "", _; repeat split; reflexivity.
      * cbn [lift json_contains].
        destruct (existsb _ l0);
          cbn; eexists "", _; repeat split; reflexivity.
      * cbn [lift json_contains].
        destruct (existsb _ items) eqn:Hex.
        -- destruct (existsb_find _ _ Hex) as [kv Hkv].
           cbn [json_getitem]. rewrite Hkv. cbn.
           eexists _, _. repeat split; try reflexivity.
           apply Hfail. intros Hbad. exfalso. apply Hbad. left. eauto.
        -- cbn. eexists "", _. repeat split; reflexivity.
Qed.

Context {PRL : PyRandomLaws PR}.

Lemma bind_returns {S A B : Type} (c : ST S A) (k : A -> ST S B)
      (s s' : S) (a : A) :
  c s = (Return a, s') -> bind c k s = k a s'.
Proof. intros H. unfold bind. now rewrite H. Qed.

Lemma bind_raises {S A B : Type} (c : ST S A) (k : A -> ST S B)
      (s s' : S) (e : exn) :
  c s = (Raise e, s') -> bind c k s = (Raise e, s').
Proof. intros H. unfold bind. now rewrite H. Qed.

Lemma nonempty_false (s : string) : nonempty s = false <-> s = "".
Proof. destruct s; cbn; split; congruence. Qed.

(** The text step of both generators. *)
Lemma text_step_returns (prompt : string) (r : rng) (w : world) :
  exists s w',
    (if truthy (HF_TOKEN env) then in_world (_hf_generate env prompt 80)
     else ret "") (r, w) = (Return s, (r, w')) /\
    files w' = files w /\
    (generation_failed env w -> s = "").
Proof.
  destruct (truthy (HF_TOKEN env)) eqn:Htok.
  - destruct (hf_generate_returns prompt 80 w)
      as (s & w' & Hrun & Hfiles & _ & _ & Hfail).
    exists s, w'. unfold in_world. cbn [fst snd]. rewrite Hrun.
    repeat split; assumption.
  - exists "", w. repeat split; reflexivity.
Qed.

(** Drawing from a pool of strings leaves the world alone and gives a
    member of the pool. *)
Lemma choice_from_pool {A : Type} (pool : list A) (r : rng) (w : world) :
  pool <> [] ->
  exists a r',
    with_rng (choice pool) (r, w) = (Return a, (r', w)) /\ In a pool.
Proof.
  intros Hne. destruct (choice_spec A pool r Hne) as (a & Ha & Hin).
  unfold with_rng. cbn [fst snd].
  destruct (choice pool r) as [o r'] eqn:Hc. cbn [fst] in Ha. subst o.
  exists a, r'. split; [reflexivity | exact Hin].
Qed.

Lemma failure_titles_nonempty (t : string) : In t FAILURE_TITLES -> t <> "".
Proof.
  cbn. intros H. repeat (destruct H as [<- | H]; [discriminate |]).
  destruct H.
Qed.

Lemma other_titles_nonempty (t : string) : In t OTHER_TITLES -> t <> "".
Proof.
  cbn. intros H. repeat (destruct H as [<- | H]; [discriminate |]).
  destruct H.
Qed.

Lemma other_bodies_nonempty (b : string) : In b OTHER_BODIES -> b <> "".
Proof.
  cbn. intros H. repeat (destruct H as [<- | H]; [discriminate |]).
  destruct H.
Qed.

Lemma failure_bodies_nonempty (tmpl : R -> string) (m : R) :
  In tmpl FAILURE_BODIES -> tmpl m <> "".
Proof.
  cbn. intros H. repeat (destruct H as [<- | H]; [discriminate |]).
  destruct H.
Qed.

(** [gen_failure_text] always yields a title and a body, neither empty;
    after a failed generation both come from the template pools, the body
    instantiated with the elapsed months. *)
Lemma gen_failure_text_returns (brand : string) (months : R)
      (r : rng) (w : world) :
  exists t b r' w',
    gen_failure_text env brand months (r, w) = (Return (t, b), (r', w')) /\
    files w' = files w /\ t <> "" /\ b <> "" /\
    (generation_failed env w ->
     In t FAILURE_TITLES /\
     exists tmpl, In tmpl FAILURE_BODIES /\ b = tmpl months).
Proof.
  unfold gen_failure_text. cbv zeta.
  destruct (text_step_returns (FAILURE_PROMPT_TEMPLATE brand months) r w)
    as (text & w' & Htext & Hfiles & Hfail).
  erewrite bind_returns by exact Htext.
  destruct (parse_title_body_returns text) as (t0 & b0 & Hparse).
  assert (Hempty : generation_failed env w -> t0 = "" /\ b0 = "").
  { intros Hf. rewrite (Hfail Hf) in Hparse. cbv in Hparse.
    injection Hparse as <- <-. split; reflexivity. }
  erewrite bind_returns by (unfold lift; rewrite Hparse; reflexivity).
  cbv iota beta.
  assert (Ht : exists t r1,
             (if negb (nonempty t0) then with_rng (choice FAILURE_TITLES)
              else ret t0) (r, w') = (Return t, (r1, w')) /\
             t <> "" /\ (t0 = "" -> In t FAILURE_TITLES)).
  { destruct (nonempty t0) eqn:Hn; cbn [negb].
    - exists t0, r. split; [reflexivity |].
      split; intros E; subst t0; discriminate.
    - destruct (choice_from_pool FAILURE_TITLES r w') as (t & r1 & Hc & Hin);
        [discriminate |].
      exists t, r1. split; [exact Hc |].
      split; [now apply failure_titles_nonempty | auto]. }
  destruct Ht as (t & r1 & Htrun & Htne & Htpool).
  erewrite bind_returns by exact Htrun.
  destruct (nonempty b0) eqn:Hn; cbn [negb].
  - exists t, b0, r1, w'. cbn. split; [reflexivity |].
    split; [exact Hfiles |]. split; [exact Htne |].
    split; [intros E; subst b0; discriminate |].
    intros Hf. destruct (Hempty Hf) as [_ ->]. discriminate.
  - destruct (choice_from_pool FAILURE_BODIES r1 w') as (tmpl & r2 & Hc & Hin);
      [discriminate |].
    exists t, (tmpl months), r2, w'.
    split; [unfold bind; rewrite Hc; reflexivity |]. split; [exact Hfiles |]. split; [exact Htne |].
    split; [now apply failure_bodies_nonempty |].
    intros Hf. destruct (Hempty Hf) as [-> _].
    split; [now apply Htpool | eauto].
Qed.

(** [gen_other_text] likewise. *)
Lemma gen_other_text_returns (brand : string) (r : rng) (w : world) :
  exists t b r' w',
    gen_other_text env brand (r, w) = (Return (t, b), (r', w')) /\
    files w' = files w /\ t <> "" /\ b <> "" /\
    (generation_failed env w -> In t OTHER_TITLES /\ In b OTHER_BODIES).
Proof.
  unfold gen_other_text. cbv zeta.
  destruct (text_step_returns (OTHER_PROMPT_TEMPLATE brand) r w)
    as (text & w' & Htext & Hfiles & Hfail).
  erewrite bind_returns by exact Htext.
  destruct (parse_title_body_returns text) as (t0 & b0 & Hparse).
  assert (Hempty : generation_failed env w -> t0 = "" /\ b0 = "").
  { intros Hf. rewrite (Hfail Hf) in Hparse. cbv in Hparse.
    injection Hparse as <- <-. split; reflexivity. }
  erewrite bind_returns by (unfold lift; rewrite Hparse; reflexivity).
  cbv iota beta.
  assert (Ht : exists t r1,
             (if negb (nonempty t0) then with_rng (choice OTHER_TITLES)
              else ret t0) (r, w') = (Return t, (r1, w')) /\
             t <> "" /\ (t0 = "" -> In t OTHER_TITLES)).
  { destruct (nonempty t0) eqn:Hn; cbn [negb].
    - exists t0, r. split; [reflexivity |].
      split; intros E; subst t0; discriminate.
    - destruct (choice_from_pool OTHER_TITLES r w') as (t & r1 & Hc & Hin);
        [discriminate |].
      exists t, r1. split; [exact Hc |].
      split; [now apply other_titles_nonempty | auto]. }
  destruct Ht as (t & r1 & Htrun & Htne & Htpool).
  erewrite bind_returns by exact Htrun.
  destruct (nonempty b0) eqn:Hn; cbn [negb].
  - exists t, b0, r1, w'. cbn. split; [reflexivity |].
    split; [exact Hfiles |]. split; [exact Htne |].
    split; [intros E; subst b0; discriminate |].
    intros Hf. destruct (Hempty Hf) as [_ ->]. discriminate.
  - destruct (choice_from_pool OTHER_BODIES r1 w') as (b & r2 & Hc & Hin);
      [discriminate |].
    exists t, b, r2, w'.
    split; [unfold bind; rewrite Hc; reflexivity |]. split; [exact Hfiles |]. split; [exact Htne |].
    split; [now apply other_bodies_nonempty |].
    intros Hf. destruct (Hempty Hf) as [-> _].
    split; [now apply Htpool | exact Hin].
Qed.

(** C7.  In every failure condition of the external call (no credential,
    no connection, timeout, network or HTTP error, undecodable or
    malformed body, a reply of an unexpected shape) [_hf_generate] returns
    the empty string and raises nothing; [gen_failure_text] and
    [gen_other_text] then take title and body from the fixed template
    pools, failure bodies instantiated with the elapsed months.  Whatever
    the service does, both return a title and a body, neither empty, and
    no exception escapes. *)
Theorem text_generation_always_falls_back
        (brand prompt : string) (months : R) (n : nat)
        (r : rng) (w : world) :
  (exists s w',
      _hf_generate env prompt n w = (Return s, w') /\
      (generation_failed env w -> s = ""))
  /\ (exists t b r' w',
        gen_failure_text env brand months (r, w) =
          (Return (t, b), (r', w')) /\
        t <> "" /\ b <> "" /\
        (generation_failed env w ->
         In t FAILURE_TITLES /\
         exists tmpl, In tmpl FAILURE_BODIES /\ b = tmpl months))
  /\ (exists t b r' w',
        gen_other_text env brand (r, w) = (Return (t, b), (r', w')) /\
        t <> "" /\ b <> "" /\
        (generation_failed env w ->
         In t OTHER_TITLES /\ In b OTHER_BODIES)).
Proof.
  split; [| split].
  - destruct (hf_generate_returns prompt n w)
      as (s & w' & Hrun & _ & _ & _ & Hfail).
    exists s, w'. split; assumption.
  - destruct (gen_failure_text_returns brand months r w)
      as (t & b & r' & w' & Hrun & _ & Ht & Hb & Hfail).
    exists t, b, r', w'. repeat split; try assumption; now apply Hfail.
  - destruct (gen_other_text_returns brand r w)
      as (t & b & r' & w' & Hrun & _ & Ht & Hb & Hfail).
    exists t, b, r', w'. repeat split; try assumption; now apply Hfail.
Qed.

End TextGeneration.

(* ================================================================== *)
(** * Reproducibility of the generator *)
(* ================================================================== *)

Section Reproducibility.
Import Py Spec GenerateData.
Context {PR : PyRandom} {NR : NumPyRandom} {DT : PyDatetime}
        {PF : PyFormat} {CSV : PyCsv}.

Lemma same_draws_ret {A : Type} (a : A) : same_draws (ret a) (ret a).
Proof. intros r w1 w2. exists (Return a), r. split; reflexivity. Qed.

Lemma same_draws_lift {A : Type} (o : outcome A) :
  same_draws (lift o) (lift o).
Proof. intros r w1 w2. exists o, r. split; reflexivity. Qed.

Lemma same_draws_with_rng {A : Type} (f : rng -> outcome A * rng) :
  same_draws (with_rng f) (with_rng f).
Proof.
  intros r w1 w2. unfold with_rng. cbn [fst snd].
  destruct (f r) as [o r']. exists o, r'. split; reflexivity.
Qed.

Lemma same_draws_with_rng_total {A : Type} (f : rng -> A * rng) :
  same_draws (with_rng_total f) (with_rng_total f).
Proof.
  intros r w1 w2. unfold with_rng_total. cbn [fst snd].
  destruct (f r) as [a r']. exists (Return a), r'. split; reflexivity.
Qed.

Lemma same_draws_bind {A B : Type} (c1 c2 : G A) (k1 k2 : A -> G B) :
  same_draws c1 c2 -> (forall a, same_draws (k1 a) (k2 a)) ->
  same_draws (bind c1 k1) (bind c2 k2).
Proof.
  intros Hc Hk r w1 w2. unfold bind.
  destruct (Hc r w1 w2) as (o & r' & -> & ->).
  destruct o as [a | e].
  - apply Hk.
  - exists (Raise e), r'. split; reflexivity.
Qed.

Lemma same_draws_repeat_G {A : Type} (n : nat) (body1 body2 : G A) :
  same_draws body1 body2 ->
  same_draws (repeat_G n body1) (repeat_G n body2).
Proof.
  intros Hb. induction n as [|n IH]; cbn [repeat_G].
  - apply same_draws_ret.
  - apply same_draws_bind; [exact Hb | intros a].
    apply same_draws_bind; [exact IH | intros rest].
    apply same_draws_ret.
Qed.

Lemma same_draws_for_rows {A : Type} (items : list A)
      (body1 body2 : A -> G row) :
  (forall item, same_draws (body1 item) (body2 item)) ->
  same_draws (for_rows items body1) (for_rows items body2).
Proof.
  intros Hb. induction items as [|item items IH]; cbn [for_rows].
  - apply same_draws_ret.
  - apply same_draws_bind; [apply Hb | intros a].
    apply same_draws_bind; [exact IH | intros rest].
    apply same_draws_ret.
Qed.

Ltac same_draws_step :=
  first [ apply same_draws_ret
        | apply same_draws_lift
        | apply same_draws_with_rng
        | apply same_draws_with_rng_total
        | apply same_draws_repeat_G
        | apply same_draws_for_rows; intros ?
        | apply same_draws_bind; [| intros ?] ].

Lemma same_draws_rand_date_ymd (a b : string) :
  same_draws (rand_date_ymd a b) (rand_date_ymd a b).
Proof. unfold rand_date_ymd. repeat same_draws_step. Qed.

Lemma same_draws_make_order_id : same_draws make_order_id make_order_id.
Proof. unfold make_order_id. repeat same_draws_step. Qed.

Lemma same_draws_pick_stars_failure :
  same_draws pick_stars_failure pick_stars_failure.
Proof. unfold pick_stars_failure. repeat same_draws_step. Qed.

Lemma same_draws_pick_stars_other :
  same_draws pick_stars_other pick_stars_other.
Proof. unfold pick_stars_other. repeat same_draws_step. Qed.

Lemma same_draws_pick_verified : same_draws pick_verified pick_verified.
Proof. unfold pick_verified. repeat same_draws_step. Qed.

(** A run of [make_dataset], from the rows that its four loops build. *)
Lemma make_dataset_run (env : environ) (out_tsv : string) (p : params)
      (seed : Z) (w : world) :
  make_dataset env out_tsv p seed w =
  match dataset_rows env p seed (Random seed, w) with
  | (Return rows, (r, w')) =>
      let rows' := fst (shuffle rows r) in
      (Return tt,
       {| tsv_inputs := tsv_inputs w';
          files := (out_tsv, TextFile (tsv_text rows')) :: files w';
          dirs := dirname_or_dot out_tsv :: dirs w';
          stdout := stdout w' ++
                    ["[synth] wrote " ++ out_tsv ++ " (" ++
                     str_of_nat (List.length rows') ++ " rows)"];
          http := http w' |})
  | (Raise e, (r, w')) => (Raise e, w')
  end.
Proof.
  unfold make_dataset, make_dataset_body. unfold bind at 1.
  destruct (dataset_rows env p seed (Random seed, w)) as [[rows | e] [r w']];
    [| reflexivity].
  unfold bind, with_rng_total, in_world, makedirs, write_file, print.
  cbn [fst snd]. destruct (shuffle rows r) as [rows' r']. reflexivity.
Qed.

Variables env1 env2 : environ.
Hypothesis no_token1 : truthy (HF_API_TOKEN env1) = false.
Hypothesis no_token2 : truthy (HF_API_TOKEN env2) = false.

(** Without a credential the text comes from the templates alone, whatever
    else the environment and the network hold. *)
Lemma same_draws_gen_failure_text (brand : string) (months : R) :
  same_draws (gen_failure_text env1 brand months)
             (gen_failure_text env2 brand months).
Proof.
  unfold gen_failure_text, HF_TOKEN. rewrite no_token1, no_token2.
  cbv zeta. apply same_draws_bind; [apply same_draws_ret | intros text].
  apply same_draws_bind; [apply same_draws_lift | intros [t b]].
  apply same_draws_bind.
  { destruct (negb (nonempty t)); same_draws_step. }
  intros t'. apply same_draws_bind; [| intros b'; apply same_draws_ret].
  destruct (negb (nonempty b)); repeat same_draws_step.
Qed.

Lemma same_draws_gen_other_text (brand : string) :
  same_draws (gen_other_text env1 brand) (gen_other_text env2 brand).
Proof.
  unfold gen_other_text, HF_TOKEN. rewrite no_token1, no_token2.
  cbv zeta. apply same_draws_bind; [apply same_draws_ret | intros text].
  apply same_draws_bind; [apply same_draws_lift | intros [t b]].
  apply same_draws_bind.
  { destruct (negb (nonempty t)); same_draws_step. }
  intros t'. apply same_draws_bind; [| intros b'; apply same_draws_ret].
  destruct (negb (nonempty b)); repeat same_draws_step.
Qed.

Lemma same_draws_failure_row (p : params) (tag brand : string)
      (im : nat * R) :
  same_draws (failure_row env1 p tag brand im)
             (failure_row env2 p tag brand im).
Proof.
  unfold failure_row. destruct im as [i m]. cbv zeta.
  apply same_draws_bind; [apply same_draws_rand_date_ymd | intros dp].
  apply same_draws_bind; [apply same_draws_lift | intros dpost].
  apply same_draws_bind; [apply same_draws_gen_failure_text | intros [t b]].
  apply same_draws_bind; [apply same_draws_pick_stars_failure | intros st].
  apply same_draws_bind; [apply same_draws_pick_verified | intros v].
  apply same_draws_bind; [apply same_draws_make_order_id | intros oid].
  apply same_draws_ret.
Qed.

Lemma same_draws_other_row (p : params) (tag brand : string) (i : nat) :
  same_draws (other_row env1 p tag brand i) (other_row env2 p tag brand i).
Proof.
  unfold other_row. cbv zeta.
  apply same_draws_bind; [apply same_draws_rand_date_ymd | intros dp].
  apply same_draws_bind; [apply same_draws_with_rng_total | intros m].
  apply same_draws_bind; [apply same_draws_lift | intros dpost].
  apply same_draws_bind; [apply same_draws_gen_other_text | intros [t b]].
  apply same_draws_bind; [apply same_draws_pick_stars_other | intros st].
  apply same_draws_bind; [apply same_draws_pick_verified | intros v].
  apply same_draws_bind; [apply same_draws_make_order_id | intros oid].
  apply same_draws_ret.
Qed.

Lemma same_draws_dataset_rows (p : params) (seed : Z) :
  same_draws (dataset_rows env1 p seed) (dataset_rows env2 p seed).
Proof.
  unfold dataset_rows. cbv zeta.
  apply same_draws_bind;
    [apply same_draws_for_rows; intros; apply same_draws_failure_row
    | intros rows_A].
  apply same_draws_bind;
    [apply same_draws_for_rows; intros; apply same_draws_failure_row
    | intros rows_B].
  apply same_draws_bind;
    [apply same_draws_for_rows; intros; apply same_draws_other_row
    | intros rows_AX].
  apply same_draws_bind;
    [apply same_draws_for_rows; intros; apply same_draws_other_row
    | intros rows_BX].
  apply same_draws_ret.
Qed.

(** C5.  Two runs of [make_dataset] with the same seed and parameters and
    no credential in the environment end the same way, and when they return
    they have written the same TSV text, whatever the two environments and
    worlds (files present, replies the network would give) otherwise are.
    No request is made to the service. *)
Theorem make_dataset_reproducible
        (out_tsv : string) (p : params) (seed : Z) (w1 w2 : world) :
  let run1 := make_dataset env1 out_tsv p seed w1 in
  let run2 := make_dataset env2 out_tsv p seed w2 in
  fst run1 = fst run2 /\
  http (snd run1) = http w1 /\ http (snd run2) = http w2 /\
  match fst run1 with
  | Return _ =>
      exists rows,
        files (snd run1) = (out_tsv, TextFile (tsv_text rows)) :: files w1 /\
        files (snd run2) = (out_tsv, TextFile (tsv_text rows)) :: files w2 /\
        lookup out_tsv (files (snd run1)) = Some (TextFile (tsv_text rows)) /\
        lookup out_tsv (files (snd run2)) = Some (TextFile (tsv_text rows))
  | Raise _ => snd run1 = w1 /\ snd run2 = w2
  end.
Proof.
  intros run1 run2. subst run1 run2. rewrite !make_dataset_run.
  destruct (same_draws_dataset_rows p seed (Random seed) w1 w2)
    as (o & r' & -> & ->).
  destruct o as [rows | e]; cbn [fst snd http files]; [| auto].
  split; [reflexivity |]. split; [reflexivity |]. split; [reflexivity |].
  exists (fst (shuffle rows r')). cbn [lookup]. rewrite String.eqb_refl.
  auto.
Qed.

End Reproducibility.

(* ================================================================== *)
(** * The rows of a generated dataset *)
(* ================================================================== *)

Section Rows.
Import Py Spec GenerateData.

Lemma string_of_uint_head (d : Decimal.uint) :
  exists c rest,
    NilZero.string_of_uint d = String c rest /\ c <> "X"%char.
Proof.
  destruct d; cbn; do 2 eexists; (split; [reflexivity | discriminate]).
Qed.

(** A number printed with [:03d] starts with a digit. *)
Lemma format_03d_head (n : nat) :
  exists c rest, format_03d n = String c rest /\ c <> "X"%char.
Proof.
  unfold format_03d, str_of_nat.
  destruct (string_of_uint_head (Nat.to_uint n)) as (c & rest & E & Hc).
  destruct (String.length _) as [|[|[|k]]].
  - exists "0"%char. eexists. split; [reflexivity | discriminate].
  - exists "0"%char. eexists. split; [reflexivity | discriminate].
  - exists "0"%char. eexists. split; [reflexivity | discriminate].
  - exists c, rest. split; assumption.
Qed.

(** No row is numbered both as a failure and as a distractor. *)
Lemma failure_row_not_other (r : row) :
  is_failure_row r -> is_other_row r -> False.
Proof.
  intros [i Hi] [j Hj].
  destruct (format_03d_head i) as (c & rest & Ei & Hc).
  rewrite Ei in Hi.
  destruct Hi as [Hi | Hi], Hj as [Hj | Hj]; rewrite Hi in Hj; cbn in Hj;
    try discriminate; injection Hj as Hx _; congruence.
Qed.

Lemma eps_pos : 0 < eps.
Proof.
  unfold eps. apply Rinv_0_lt_compat. apply pow_lt. lra.
Qed.

Context {PR : PyRandom} {NR : NumPyRandom} {DT : PyDatetime}
        {PF : PyFormat} {CSV : PyCsv}.

(** Every sampled lifespan is at least machine epsilon, hence positive. *)
Lemma sample_gamma_lifespans_clamped (k theta : R) (n : nat) (seed : Z) :
  Forall (fun m => eps <= m /\ 0 < m)
         (sample_gamma_lifespans k theta n seed).
Proof.
  unfold sample_gamma_lifespans. apply Forall_forall. intros m Hm.
  apply in_map_iff in Hm as (v & <- & _).
  pose proof (Rmax_r v eps). pose proof eps_pos. split; lra.
Qed.

Lemma ensures_ret {S A : Type} (a : A) (P : A -> Prop) :
  P a -> ensures (ret (S := S) a) P.
Proof.
  intros H s a' s' E. unfold ret in E. injection E as <- _. exact H.
Qed.

Lemma ensures_bind {S A B : Type} (c : ST S A) (k : A -> ST S B)
      (P : A -> Prop) (Q : B -> Prop) :
  ensures c P -> (forall a, P a -> ensures (k a) Q) ->
  ensures (bind c k) Q.
Proof.
  intros Hc Hk s b s' E. unfold bind in E.
  destruct (c s) as [[a | e] s1] eqn:Ec; [| discriminate].
  exact (Hk a (Hc _ _ _ Ec) _ _ _ E).
Qed.

Lemma ensures_bind_any {S A B : Type} (c : ST S A) (k : A -> ST S B)
      (Q : B -> Prop) :
  (forall a, ensures (k a) Q) -> ensures (bind c k) Q.
Proof.
  intros Hk. apply (ensures_bind c k (fun _ => True)); [| auto].
  intros s a s' _. exact I.
Qed.

Lemma ensures_for_rows {A : Type} (items : list A) (body : A -> G row)
      (P : A -> row -> Prop) :
  (forall item, In item items -> ensures (body item) (P item)) ->
  ensures (for_rows items body) (Forall2 P items).
Proof.
  induction items as [|item items IH]; intros Hb; cbn [for_rows].
  - apply ensures_ret. constructor.
  - apply (ensures_bind _ _ (P item)); [apply Hb; now left | intros r Hr].
    apply (ensures_bind _ _ (Forall2 P items)).
    + apply IH. intros it Hit. apply Hb. now right.
    + intros rest Hrest. apply ensures_ret. now constructor.
Qed.

Variable env : environ.

(** A failure row carries its number and its lifespan to two decimals. *)
Lemma failure_row_ensures (p : params) (tag brand : string) (i : nat)
      (m : R) :
  ensures (failure_row env p tag brand (i, m))
          (fun r => review_id r = tag ++ format_03d i /\
                    token r = format_fixed 2 m).
Proof.
  unfold failure_row. cbv zeta.
  apply ensures_bind_any; intros dp.
  apply ensures_bind_any; intros dpost.
  apply ensures_bind_any; intros [title body].
  apply ensures_bind_any; intros stars.
  apply ensures_bind_any; intros verified.
  apply ensures_bind_any; intros order_id.
  apply ensures_ret. split; reflexivity.
Qed.

(** A distractor row carries its number and an empty token. *)
Lemma other_row_ensures (p : params) (tag brand : string) (i : nat) :
  ensures (other_row env p tag brand i)
          (fun r => review_id r = tag ++ format_03d (i + 1) /\
                    token r = "").
Proof.
  unfold other_row. cbv zeta.
  apply ensures_bind_any; intros dp.
  apply ensures_bind_any; intros m.
  apply ensures_bind_any; intros dpost.
  apply ensures_bind_any; intros [title body].
  apply ensures_bind_any; intros stars.
  apply ensures_bind_any; intros verified.
  apply ensures_bind_any; intros order_id.
  apply ensures_ret. split; reflexivity.
Qed.

Lemma in_combine_seq {A : Type} (l : list A) (start i : nat) (a : A) :
  In (i, a) (combine (seq start (List.length l)) l) ->
  exists j, i = (start + j)%nat /\ nth_error l j = Some a.
Proof.
  revert start. induction l as [|b l IH]; intros start; cbn; [intros [] |].
  intros [E | H].
  - injection E as <- <-. exists 0%nat. split; [lia | reflexivity].
  - destruct (IH _ H) as (j & -> & Hj). exists (S j). split; [lia | exact Hj].
Qed.

Lemma Forall2_in_r {A B : Type} (P : A -> B -> Prop) (l : list A)
      (l' : list B) (b : B) :
  Forall2 P l l' -> In b l' -> exists a, In a l /\ P a b.
Proof.
  induction 1 as [|a b' l l' Hab _ IH]; cbn; [intros [] |].
  intros [<- | Hin]; [eauto |].
  destruct (IH Hin) as (a' & Ha' & HP). eauto.
Qed.

(** The rows that the four loops build. *)
Lemma dataset_rows_ensures (p : params) (seed : Z) :
  ensures (dataset_rows env p seed)
          (fun rows =>
             forall r, In r rows ->
               made_from_lifespan p seed r \/
               (is_other_row r /\ token r = "")).
Proof.
  unfold dataset_rows. cbv zeta.
  set (lifespans_A := sample_gamma_lifespans _ _ _ (seed + 11)).
  set (lifespans_B := sample_gamma_lifespans _ _ _ (seed + 22)).
  pose (PF_row := fun tag (l : list R) (im : nat * R) (r : row) =>
          exists j, nth_error l j = Some (snd im) /\
                    review_id r = tag ++ format_03d (S j) /\
                    token r = format_fixed 2 (snd im)).
  pose (PO_row := fun tag (i : nat) (r : row) =>
          review_id r = tag ++ format_03d (i + 1) /\ token r = "").
  apply (ensures_bind _ _ (Forall2 (PF_row "rA" lifespans_A)
                                   (enumerate1 lifespans_A))).
  { apply ensures_for_rows. intros [i m] Him.
    destruct (in_combine_seq _ _ _ _ Him) as (j & -> & Hj).
    intros s r s' E. apply failure_row_ensures in E as [E1 E2].
    exists j. cbn [snd]. auto. }
  intros rows_A HA.
  apply (ensures_bind _ _ (Forall2 (PF_row "rB" lifespans_B)
                                   (enumerate1 lifespans_B))).
  { apply ensures_for_rows. intros [i m] Him.
    destruct (in_combine_seq _ _ _ _ Him) as (j & -> & Hj).
    intros s r s' E. apply failure_row_ensures in E as [E1 E2].
    exists j. cbn [snd]. auto. }
  intros rows_B HB.
  apply (ensures_bind _ _ (Forall2 (PO_row "rAX")
                                   (seq 0 (n_other_alpha p)))).
  { apply ensures_for_rows. intros i _. apply other_row_ensures. }
  intros rows_AX HAX.
  apply (ensures_bind _ _ (Forall2 (PO_row "rBX")
                                   (seq 0 (n_other_beta p)))).
  { apply ensures_for_rows. intros i _. apply other_row_ensures. }
  intros rows_BX HBX.
  apply ensures_ret. intros r Hr.
  assert (Hclamp : forall l m j,
             (l = lifespans_A \/ l = lifespans_B) ->
             nth_error l j = Some m -> eps <= m /\ 0 < m).
  { intros l m j Hl Hj. apply nth_error_In in Hj.
    assert (Hall : Forall (fun m => eps <= m /\ 0 < m) l)
      by (destruct Hl as [-> | ->]; apply sample_gamma_lifespans_clamped).
    rewrite Forall_forall in Hall. now apply Hall. }
  apply in_app_or in Hr as [Hr | Hr];
    [| apply in_app_or in Hr as [Hr | Hr];
       [| apply in_app_or in Hr as [Hr | Hr]]].
  - destruct (Forall2_in_r _ _ _ _ HA Hr) as ([i m] & _ & j & Hj & Hid & Htok).
    cbn [snd] in *. left. exists j, m.
    destruct (Hclamp _ _ _ (or_introl eq_refl) Hj). auto 6.
  - destruct (Forall2_in_r _ _ _ _ HB Hr) as ([i m] & _ & j & Hj & Hid & Htok).
    cbn [snd] in *. left. exists j, m.
    destruct (Hclamp _ _ _ (or_intror eq_refl) Hj). auto 6.
  - destruct (Forall2_in_r _ _ _ _ HAX Hr) as (i & _ & Hid & Htok).
    right. split; [exists (i + 1)%nat; auto | exact Htok].
  - destruct (Forall2_in_r _ _ _ _ HBX Hr) as (i & _ & Hid & Htok).
    right. split; [exists (i + 1)%nat; auto | exact Htok].
Qed.

Lemma made_from_lifespan_failure (p : params) (seed : Z) (r : row) :
  made_from_lifespan p seed r -> is_failure_row r.
Proof.
  intros (j & m & [[_ Hid] | [_ Hid]] & _). 
  - exists (S j). now left.
  - exists (S j). now right.
Qed.

(** C10.  Every lifespan from [sample_gamma_lifespans] is at least machine
    epsilon and so strictly positive.  In every dataset that [make_dataset]
    writes, a failure row (numbered [rA...] or [rB...]) carries as token
    its lifespan formatted to two decimals, which is not empty; a distractor
    row (numbered [rAX...] or [rBX...]) carries the empty token; every row is
    one or the other, so the token is non-empty exactly on the failure
    rows. *)
Theorem token_nonempty_iff_failure_row
        {PRL : PyRandomLaws PR} {FNE : FormatNonEmpty PF}
        (out_tsv : string) (p : params) (seed : Z) (w : world) :
  fst (make_dataset env out_tsv p seed w) = Return tt ->
  (forall k theta n s,
      Forall (fun m => eps <= m /\ 0 < m)
             (sample_gamma_lifespans k theta n s))
  /\ exists rows,
       lookup out_tsv (files (snd (make_dataset env out_tsv p seed w))) =
         Some (TextFile (tsv_text rows)) /\
       forall r, In r rows ->
         (is_failure_row r \/ is_other_row r) /\
         (token r <> "" <-> is_failure_row r) /\
         (is_failure_row r -> made_from_lifespan p seed r) /\
         (is_other_row r -> token r = "").
Proof.
  intros Hrun. split; [intros; apply sample_gamma_lifespans_clamped |].
  rewrite make_dataset_run in *.
  destruct (dataset_rows env p seed (Random seed, w))
    as [[rows0 | e] [r0 w0]] eqn:Hrows; [| discriminate].
  pose proof (dataset_rows_ensures p seed _ _ _ Hrows) as Hall.
  cbv zeta. cbn [fst snd files lookup]. rewrite String.eqb_refl.
  exists (fst (shuffle rows0 r0)). split; [reflexivity |].
  intros r Hr.
  assert (Hr0 : In r rows0).
  { eapply Permutation_in; [| exact Hr].
    apply Permutation_sym. apply shuffle_spec. }
  destruct (Hall r Hr0) as [Hmade | [Hother Htok]].
  - pose proof (made_from_lifespan_failure _ _ _ Hmade) as Hfail.
    assert (Hne : token r <> "").
    { destruct Hmade as (j & m & _ & _ & _ & ->).
      apply format_fixed_nonempty. }
    repeat split; auto.
    intros Ho. destruct (failure_row_not_other r Hfail Ho).
  - repeat split; auto.
    + intros Hne. contradiction.
    + intros Hfail. destruct (failure_row_not_other r Hfail Hother).
    + intros Hfail. destruct (failure_row_not_other r Hfail Hother).
Qed.

End Rows.

(* ================================================================== *)
(** * Concrete runs of the generator *)
(* ================================================================== *)

Section GeneratorRuns.
Import Py Spec GenerateData.

Lemma pick_in {A : Type} (l : list A) (s : nat) :
  l <> [] -> exists a, Sample.pick l s = Return a /\ In a l.
Proof.
  intros Hne. unfold Sample.pick, getitem.
  assert (Hlt : (s mod List.length l < List.length l)%nat).
  { apply Nat.mod_upper_bound. destruct l; [congruence | discriminate]. }
  destruct (nth_error l (s mod List.length l)) as [a |] eqn:E.
  - exists a. split; [reflexivity |]. eapply nth_error_In; exact E.
  - apply nth_error_None in E. lia.
Qed.

(** The counter generator keeps the promises of [random]. *)
Lemma counter_rng_laws : PyRandomLaws Sample.counter_rng.
Proof.
  constructor.
  - intros n s Hn. cbn. destruct (Z.leb_spec n 0) as [H | H]; [lia |].
    eexists. split; [reflexivity |]. apply Z.mod_pos_bound. lia.
  - intros n s Hn. cbn. destruct (Z.leb_spec n 0) as [H | H]; [| lia].
    reflexivity.
  - intros A l s Hne. cbn. apply pick_in. exact Hne.
  - intros A l w k s Hne _. cbn.
    destruct (pick_in l s Hne) as (a & -> & Hin). cbn.
    eexists. split; [reflexivity |]. split; [apply repeat_length |].
    apply Forall_forall. intros b Hb. apply repeat_spec in Hb. now subst.
  - intros A l s. cbn. apply Permutation_rev.
Qed.

Lemma sample_format_nonempty : FormatNonEmpty Sample.format.
Proof.
  constructor. intros d v. cbn. destruct d; discriminate.
Qed.

(** Witness of C5: an environment without the variable and one with an
    empty credential and another model name, on two different worlds. *)
Lemma make_dataset_reproducible_witness :
  fst (make_dataset (PR := Sample.counter_rng) (NR := Sample.numpy_random)
                    (DT := Sample.dates) (PF := Sample.format)
                    (CSV := Sample.csv)
                    Sample.offline_env "raw/reviews.tsv"
                    Sample.small_params 1234 Sample.empty_world) =
  fst (make_dataset (PR := Sample.counter_rng) (NR := Sample.numpy_random)
                    (DT := Sample.dates) (PF := Sample.format)
                    (CSV := Sample.csv)
                    Sample.blank_token_env "raw/reviews.tsv"
                    Sample.small_params 1234 Sample.busy_world).
Proof.
  exact (proj1 (make_dataset_reproducible
                  (PR := Sample.counter_rng) (NR := Sample.numpy_random)
                  (DT := Sample.dates) (PF := Sample.format)
                  (CSV := Sample.csv)
                  Sample.offline_env Sample.blank_token_env
                  eq_refl eq_refl
                  "raw/reviews.tsv" Sample.small_params 1234
                  Sample.empty_world Sample.busy_world)).
Defined.

(** Witness of C7: a credential is present and the service times out. *)
Lemma text_generation_always_falls_back_witness :
  exists t b r' w',
    gen_failure_text (PR := Sample.counter_rng) (PF := Sample.format)
                     Sample.online_env "Alpha" 2.5
                     (0%nat, Sample.timeout_world) =
      (Return (t, b), (r', w')) /\
    t <> "" /\ b <> "" /\
    (generation_failed Sample.online_env Sample.timeout_world ->
     In t FAILURE_TITLES /\
     exists tmpl, In tmpl (FAILURE_BODIES (PF := Sample.format)) /\
                  b = tmpl 2.5).
Proof.
  exact (proj1 (proj2 (text_generation_always_falls_back
                         (PR := Sample.counter_rng) (PF := Sample.format)
                         Sample.online_env (PRL := counter_rng_laws)
                         "Alpha" "prompt" 2.5 80 0%nat
                         Sample.timeout_world))).
Defined.

(** Witness of C10: a run with one row per loop. *)
Lemma token_nonempty_iff_failure_row_witness :
  exists rows,
    lookup "raw/reviews.tsv"
           (files (snd (make_dataset
                          (PR := Sample.counter_rng)
                          (NR := Sample.numpy_random)
                          (DT := Sample.dates) (PF := Sample.format)
                          (CSV := Sample.csv)
                          Sample.offline_env "raw/reviews.tsv"
                          Sample.small_params 1234 Sample.empty_world))) =
      Some (TextFile (tsv_text (CSV := Sample.csv) rows)) /\
    forall r, In r rows ->
      (is_failure_row r \/ is_other_row r) /\
      (token r <> "" <-> is_failure_row r) /\
      (is_failure_row r ->
       made_from_lifespan (NR := Sample.numpy_random) (PF := Sample.format)
                          Sample.small_params 1234 r) /\
      (is_other_row r -> token r = "").
Proof.
  exact (proj2 (token_nonempty_iff_failure_row
                  (PR := Sample.counter_rng) (NR := Sample.numpy_random)
                  (DT := Sample.dates) (PF := Sample.format)
                  (CSV := Sample.csv)
                  Sample.offline_env
                  (PRL := counter_rng_laws) (FNE := sample_format_nonempty)
                  "raw/reviews.tsv" Sample.small_params 1234
                  Sample.empty_world eq_refl)).
Defined.

End GeneratorRuns.

(* ================================================================== *)
(** * Further properties of the log-likelihood *)
(* ================================================================== *)

Section LikelihoodAlgebra.
Import Py PlotGamma Spec.
Context {SP : SciPy}.

Lemma np_sum_permutation (x y : list R) :
  Permutation x y -> np_sum x = np_sum y.
Proof.
  induction 1 as [| v x y _ IH | u v x | x y z _ IH1 _ IH2]; simpl.
  - reflexivity.
  - rewrite IH. reflexivity.
  - lra.
  - congruence.
Qed.

Lemma np_sum_scale (c : R) (x : list R) :
  np_sum (map (Rmult c) x) = c * np_sum x.
Proof.
  induction x as [|v x IH]; simpl; [lra | rewrite IH; lra].
Qed.

Lemma np_sum_ln_scale (c : R) (x : list R) :
  0 < c -> Forall (fun v => 0 < v) x ->
  np_sum (map ln (map (Rmult c) x)) =
  np_sum (map ln x) + INR (List.length x) * ln c.
Proof.
  intros Hc Hx. induction Hx as [|v x Hv _ IH].
  - simpl. lra.
  - cbn [map np_sum fold_right List.length].
    change (fold_right Rplus 0) with np_sum. rewrite IH, S_INR.
    rewrite ln_mult by assumption. lra.
Qed.

(** X1.  The log-likelihood of two samples put together is the sum of
    their log-likelihoods. *)
Theorem loglike_concat (x y : list R) (k theta : R) :
  _loglike_gamma_loc0 (x ++ y) k theta =
  _loglike_gamma_loc0 x k theta + _loglike_gamma_loc0 y k theta.
Proof.
  unfold _loglike_gamma_loc0.
  rewrite map_app, !np_sum_app, length_app, plus_INR. unfold Rdiv. ring.
Qed.

(** X2.  The log-likelihood does not depend on the order of the sample. *)
Theorem loglike_permutation (x y : list R) (k theta : R) :
  Permutation x y ->
  _loglike_gamma_loc0 x k theta = _loglike_gamma_loc0 y k theta.
Proof.
  intros H. unfold _loglike_gamma_loc0.
  rewrite (np_sum_permutation x y H).
  rewrite (np_sum_permutation (map ln x) (map ln y))
    by (apply Permutation_map; exact H).
  rewrite (Permutation_length H). reflexivity.
Qed.

(** X3.  Changing the unit of a positive sample by a factor [c > 0] is the
    same as dividing the scale by [c], up to the constant [n ln c]. *)
Theorem loglike_rescale (x : list R) (c k theta : R) :
  0 < c -> 0 < theta -> Forall (fun v => 0 < v) x ->
  _loglike_gamma_loc0 (map (Rmult c) x) k theta =
  _loglike_gamma_loc0 x k (theta / c) - INR (List.length x) * ln c.
Proof.
  intros Hc Hth Hx. unfold _loglike_gamma_loc0.
  rewrite np_sum_scale, np_sum_ln_scale, length_map by assumption.
  assert (E : ln (theta / c) = ln theta - ln c).
  { unfold Rdiv. rewrite ln_mult, ln_Rinv; try assumption; [lra |].
    now apply Rinv_0_lt_compat. }
  rewrite E. replace (k - 1.0) with (k - 1) by lra. field. split; lra.
Qed.

Lemma ln_le_minus_1 (y : R) : 0 < y -> ln y <= y - 1.
Proof.
  intros Hy. pose proof (exp_ineq1_le (y - 1)) as H.
  replace (1 + (y - 1)) with y in H by lra.
  destruct H as [H | H].
  - left. rewrite <- (ln_exp (y - 1)). now apply ln_increasing.
  - right. rewrite H at 1. apply ln_exp.
Qed.

(** X4.  For a fixed shape [k > 0] the log-likelihood of a non-empty
    positive sample is largest at the scale [mean(x) / k]. *)
Theorem loglike_profile_max (x : list R) (k theta : R) :
  x <> [] -> Forall (fun v => 0 < v) x -> 0 < k -> 0 < theta ->
  _loglike_gamma_loc0 x k theta <=
  _loglike_gamma_loc0 x k (np_mean x / k).
Proof.
  intros Hne Hx Hk Hth. unfold _loglike_gamma_loc0, np_mean.
  assert (Hs : 0 < np_sum x) by now apply np_sum_pos.
  assert (Hn : 0 < INR (List.length x)).
  { apply lt_0_INR. destruct x; [congruence | simpl; lia]. }
  set (s := np_sum x) in *. set (n := INR (List.length x)) in *.
  set (y := s / (n * k * theta)).
  assert (Hy : 0 < y).
  { unfold y. apply Rdiv_lt_0_compat; [lra |].
    repeat apply Rmult_lt_0_compat; lra. }
  assert (Hopt : 0 < s / n / k).
  { repeat apply Rdiv_lt_0_compat; lra. }
  assert (E1 : s / theta = n * k * y) by (unfold y; field; lra).
  assert (E2 : s / (s / n / k) = n * k) by (field; lra).
  assert (E3 : ln (s / n / k) = ln y + ln theta).
  { rewrite <- ln_mult by assumption. f_equal. unfold y. field. lra. }
  rewrite E1, E2, E3.
  pose proof (ln_le_minus_1 y Hy) as Hln.
  assert (Hnk : 0 < n * k) by (apply Rmult_lt_0_compat; lra).
  nra.
Qed.

End LikelihoodAlgebra.

(* ================================================================== *)
(** * Further properties of the estimator and of the renderer *)
(* ================================================================== *)

Section Scripts.
Import Py Spec.
Context {SP : SciPy} {PF : PyFormat}.
Local Open Scope py_scope.

Lemma positive_finite_values_app (x y : list float64) :
  positive_finite_values (x ++ y) =
  (positive_finite_values x ++ positive_finite_values y)%list.
Proof.
  induction x as [|v x IH]; [reflexivity |].
  destruct v as [r | | |]; cbn; auto.
  destruct (Rlt_dec 0 r); cbn; now rewrite IH.
Qed.

Lemma fit_gamma_loc0_by_values (x y : list float64) :
  positive_finite_values x = positive_finite_values y ->
  GammaMle.fit_gamma_loc0 x = GammaMle.fit_gamma_loc0 y.
Proof.
  intros E. unfold GammaMle.fit_gamma_loc0. rewrite !masked_values, E.
  reflexivity.
Qed.

(** X5.  Entries that are not finite and strictly positive do not count:
    appending or prepending any number of them leaves the result of
    [fit_gamma_loc0], value or error, as it is. *)
Theorem fit_gamma_loc0_ignores_dropped (x junk : list float64) :
  no_positive_finite junk ->
  GammaMle.fit_gamma_loc0 (x ++ junk) = GammaMle.fit_gamma_loc0 x /\
  GammaMle.fit_gamma_loc0 (junk ++ x) = GammaMle.fit_gamma_loc0 x.
Proof.
  intros Hj. apply no_positive_finite_values in Hj.
  split; apply fit_gamma_loc0_by_values;
    rewrite positive_finite_values_app, Hj; [apply app_nil_r | reflexivity].
Qed.

Lemma in_columns_to_numeric (df : DataFrame) (c : string) :
  in_columns c df = true -> exists x, to_numeric df c = Return x.
Proof.
  unfold in_columns, columns, to_numeric. rewrite existsb_exists.
  intros (n & Hn & Heq). apply in_map_iff in Hn as (col & <- & Hcol).
  destruct (find (fun col0 => String.eqb c (col_name col0)) df) eqn:E;
    [eauto |].
  apply (find_none _ _ E) in Hcol. congruence.
Qed.

Lemma numeric_column_in_columns (df : DataFrame) (c : string)
      (rest : list string) :
  columns (filter col_numeric df) = c :: rest -> in_columns c df = true.
Proof.
  intros E. unfold in_columns. apply existsb_exists. exists c.
  split; [| apply String.eqb_refl].
  assert (Hin : In c (columns (filter col_numeric df)))
    by (rewrite E; now left).
  unfold columns in *. apply in_map_iff in Hin as (col & <- & Hcol).
  apply filter_In in Hcol as [Hcol _]. now apply in_map.
Qed.

(** X6.  The column that either script selects is a column of the table:
    reading it never fails with [KeyError]. *)
Theorem selected_column_exists (df : DataFrame) (col c : string) :
  GammaMle.select_column df col = Return c \/
  PlotGamma.select_column df col = Return c ->
  in_columns c df = true /\ exists x, to_numeric df c = Return x.
Proof.
  intros H.
  assert (Hc : in_columns c df = true).
  { destruct H as [H | H].
    - unfold GammaMle.select_column, GammaMle.number_columns in H.
      destruct (in_columns col df) eqn:E1; [congruence |].
      destruct (in_columns "lifespan_months" df) eqn:E2; [congruence |].
      destruct (columns (filter col_numeric df)) as [|c' rest] eqn:E3;
        [discriminate |].
      injection H as <-. eapply numeric_column_in_columns; exact E3.
    - unfold PlotGamma.select_column in H.
      destruct (in_columns col df) eqn:E1; cbn [negb] in H; [congruence |].
      destruct (columns (filter col_numeric df)) as [|c' rest] eqn:E3;
        [discriminate |].
      injection H as <-. eapply numeric_column_in_columns; exact E3. }
  split; [exact Hc | now apply in_columns_to_numeric].
Qed.

(** X7.  When the estimator's [main] raises, it has written nothing: the
    world is as it was. *)
Theorem estimator_main_raises_clean (a : GammaMle.args) (w : world)
        (e : exn) :
  fst (GammaMle.main a w) = Raise e -> snd (GammaMle.main a w) = w.
Proof.
  unfold GammaMle.main, bind, read_csv, lift.
  destruct (lookup (GammaMle.arg_tsv a) (tsv_inputs w)) as [df |];
    [| reflexivity].
  destruct (GammaMle.select_column df (GammaMle.arg_col a)) as [col |];
    [| reflexivity].
  destruct (to_numeric df col) as [x |]; [| reflexivity].
  destruct (GammaMle.fit_gamma_loc0 x) as [[[[k theta] n] mean_] |];
    [| reflexivity].
  cbn. discriminate.
Qed.

(** X8.  On a table whose selected column has a finite positive value the
    estimator's [main] follows [gamma.fit] on the finite positive values:
    when [gamma.fit] raises, [main] raises the same exception and the world
    is as it was; when it returns [(k, loc, theta)], [main] returns, having
    created the directory of the report, written exactly the report (which
    names the column selected, not the one asked for) and printed the four
    numbers, tab-separated. *)
Theorem estimator_main_writes_report
        (a : GammaMle.args) (w : world) (df : DataFrame) (col : string)
        (x : list float64) :
  lookup (GammaMle.arg_tsv a) (tsv_inputs w) = Some df ->
  GammaMle.select_column df (GammaMle.arg_col a) = Return col ->
  to_numeric df col = Return x ->
  (exists r, In (Fin r) x /\ 0 < r) ->
  match gamma_fit_floc0 (positive_finite_values x) with
  | Raise e => GammaMle.main a w = (Raise e, w)
  | Return (k, loc, theta) =>
    let n := count_positive_finite x in
    let mean_ := np_sum (positive_finite_values x) / INR n in
    GammaMle.main a w =
      (Return tt,
       {| tsv_inputs := tsv_inputs w;
          files := (GammaMle.arg_out a,
                    TextFile (GammaMle.report_text (GammaMle.arg_tsv a) col
                                                   k theta n mean_))
                   :: files w;
          dirs := dirname_or_dot (GammaMle.arg_out a) :: dirs w;
          stdout := stdout w ++
                    [format_repr k ++ GammaMle.tab ++ format_repr theta ++
                     GammaMle.tab ++ str_of_nat n ++ GammaMle.tab ++
                     format_repr mean_];
          http := http w |})
  end.
Proof.
  intros Hdf Hcol Hx (r & Hin & Hr).
  assert (Hn : count_positive_finite x <> 0%nat).
  { rewrite <- length_positive_finite_values. intros E.
    assert (H : In r (positive_finite_values x))
      by (apply in_positive_finite_values; auto).
    destruct (positive_finite_values x); [exact H | discriminate E]. }
  assert (Hfit : GammaMle.fit_gamma_loc0 x =
             match gamma_fit_floc0 (positive_finite_values x) with
             | Raise e => Raise e
             | Return (k, loc, theta) =>
                 Return (k, theta, count_positive_finite x,
                         np_sum (positive_finite_values x)
                         / INR (count_positive_finite x))
             end).
  { unfold GammaMle.fit_gamma_loc0. rewrite masked_values.
    rewrite length_positive_finite_values.
    destruct (Nat.eqb_spec (count_positive_finite x) 0) as [E | _];
      [contradiction |].
    unfold np_mean. rewrite length_positive_finite_values. reflexivity. }
  destruct (gamma_fit_floc0 (positive_finite_values x))
    as [[[k loc] theta] | e]; cbv zeta;
    unfold GammaMle.main, bind, read_csv, lift;
    rewrite Hdf, Hcol, Hx, Hfit; reflexivity.
Qed.

(** [_load_values] leaves the world alone and never returns an empty
    sample. *)
Lemma load_values_run (tsv_path col : string) (w : world) :
  snd (PlotGamma._load_values tsv_path col w) = w /\
  forall x, fst (PlotGamma._load_values tsv_path col w) = Return x ->
            x <> [].
Proof.
  unfold PlotGamma._load_values, bind, read_csv, lift.
  destruct (lookup tsv_path (tsv_inputs w)) as [df |];
    [| split; [reflexivity | discriminate]].
  destruct (PlotGamma.select_column df col) as [c |];
    [| split; [reflexivity | discriminate]].
  destruct (to_numeric df c) as [x |];
    [| split; [reflexivity | discriminate]].
  destruct (finite_values _) as [|v vs];
    cbn; (split; [reflexivity |]); intros y H; [discriminate |].
  injection H as <-. discriminate.
Qed.

(** What writing a figure does to the world. *)
Lemma plot_hist_with_pdf_run (x : list R) (k theta : R)
      (out_png title : string) (bins : nat) (w : world) :
  x <> [] ->
  exists grid,
    PlotGamma.plot_hist_with_pdf x k theta out_png title bins w =
    (Return tt,
     {| tsv_inputs := tsv_inputs w;
        files := (out_png,
                  PngFile [Hist x bins; Plot grid (gamma_pdf grid k theta);
                           XLabel "months"; YLabel "density";
                           Title title; TightLayout]) :: files w;
        dirs := dirname_or_dot out_png :: dirs w;
        stdout := stdout w; http := http w |}) /\
    exists x_max,
      np_max x = Some x_max /\
      grid = linspace 0.0 (py_max (percentile x 99.5) x_max * 1.15) 400.
Proof.
  intros Hne. destruct (np_max x) as [m |] eqn:Hm.
  - exists (linspace 0.0 (py_max (percentile x 99.5) m * 1.15) 400).
    split; [| exists m; split; reflexivity].
    unfold PlotGamma.plot_hist_with_pdf.
    erewrite bind_returns by (unfold lift; rewrite Hm; reflexivity).
    reflexivity.
  - destruct x; [congruence | discriminate].
Qed.

Lemma plot_ll_contour_run (x : list R) (k_mle th_mle : R)
      (out_png title : string) (w : world) :
  exists fig,
    PlotGamma.plot_ll_contour x k_mle th_mle out_png title w =
    (Return tt,
     {| tsv_inputs := tsv_inputs w;
        files := (out_png, PngFile fig) :: files w;
        dirs := dirname_or_dot out_png :: dirs w;
        stdout := stdout w; http := http w |}).
Proof.
  destruct (plot_ll_contour_locals_returns x k_mle th_mle) as [l Hl].
  eexists. unfold PlotGamma.plot_ll_contour.
  erewrite bind_returns by (unfold lift; rewrite Hl; reflexivity).
  reflexivity.
Qed.

(** X9.  The renderer writes nothing before [_load_values] has returned,
    and the histogram before the contour.  When [_load_values] raises,
    [main] raises the same exception and the world is as it was; when
    [main] returns, the histogram and then the contour have been written
    under the two fixed suffixes, their directories created and two lines
    printed. *)
Theorem renderer_writes_both_when_it_returns
        (pa : PlotGamma.args) (w : world) :
  match fst (PlotGamma._load_values (PlotGamma.arg_tsv pa)
                                    (PlotGamma.arg_col pa) w) with
  | Raise e => PlotGamma.main pa w = (Raise e, w)
  | Return _ =>
      forall u, fst (PlotGamma.main pa w) = Return u ->
      let hist := PlotGamma.arg_outprefix pa ++ "_hist.png" in
      let cont := PlotGamma.arg_outprefix pa ++ "_llcontour.png" in
      let line1 := "[plot] wrote " ++ hist in
      let line2 := "[plot] wrote " ++ cont in
      exists fig1 fig2,
        files (snd (PlotGamma.main pa w)) =
          (cont, PngFile fig2) :: (hist, PngFile fig1) :: files w /\
        dirs (snd (PlotGamma.main pa w)) =
          dirname_or_dot cont :: dirname_or_dot hist :: dirs w /\
        stdout (snd (PlotGamma.main pa w)) =
          ((stdout w ++ [line1]) ++ [line2])%list
  end.
Proof.
  destruct (load_values_run (PlotGamma.arg_tsv pa) (PlotGamma.arg_col pa) w)
    as [Hw Hne].
  unfold PlotGamma.main.
  destruct (PlotGamma._load_values _ _ w) as [[x | e] w0] eqn:Hload;
    cbn [fst snd] in Hw, Hne; subst w0.
  2:{ cbn [fst]. rewrite (bind_raises _ _ _ _ _ Hload). reflexivity. }
  specialize (Hne x eq_refl). cbn [fst]. intros u _.
  rewrite (bind_returns _ _ _ _ _ Hload).
  destruct (plot_hist_with_pdf_run x (PlotGamma.arg_k pa)
              (PlotGamma.arg_theta pa)
              (PlotGamma.arg_outprefix pa ++ "_hist.png")
              (PlotGamma.arg_title pa) 40 w Hne) as (grid & Hhist & _).
  rewrite (bind_returns _ _ _ _ _ Hhist).
  match goal with
  | |- context [bind (PlotGamma.plot_ll_contour ?a ?b ?c ?d ?t) _ ?w1] =>
      destruct (plot_ll_contour_run a b c d t w1) as [fig Hcont]
  end.
  rewrite (bind_returns _ _ _ _ _ Hcont).
  unfold bind, print. cbn [fst snd files dirs stdout].
  do 2 eexists. split; [reflexivity |]. split; reflexivity.
Qed.

End Scripts.

Section Figures.
Import Py Spec PlotGamma.
Context {SP : SciPy}.

Lemma nth_map_lt {A B : Type} (f : A -> B) (l : list A) (i : nat)
      (d : A) (d' : B) :
  (i < List.length l)%nat -> nth i (map f l) d' = f (nth i l d).
Proof.
  intros Hi. rewrite (nth_indep _ d' (f d)) by (rewrite length_map; lia).
  apply map_nth.
Qed.


Lemma nth_transpose (A : list (list R)) (n r c : nat) :
  Forall (fun row => List.length row = n) A ->
  (r < n)%nat -> (c < List.length A)%nat ->
  nth c (nth r (transpose A) []) 0 = nth r (nth c A []) 0.
Proof.
  intros Hrect Hr Hc. unfold transpose.
  destruct A as [|row A']; [simpl in Hc; lia |].
  assert (Hrow : List.length row = n) by (inversion Hrect; assumption).
  rewrite Hrow. set (A := row :: A') in *.
  rewrite nth_map_seq by exact Hr.
  rewrite (nth_map_lt _ _ _ [] 0) by exact Hc. reflexivity.
Qed.

(** X11.  The array that [plot_ll_contour] hands to [plt.contour(K, T, .)]
    is [z.T]: its row [r] and column [c] hold the log-likelihood at
    [(K_r, T_c)] minus the grid maximum, so rows follow [K] and columns
    follow [T]. *)
Theorem contour_array_layout
        (x : list R) (k_mle th_mle : R) (out_png title : string)
        (w : world) :
  exists l w' Z rest,
    plot_ll_contour_locals x k_mle th_mle = Return l /\
    plot_ll_contour x k_mle th_mle out_png title w = (Return tt, w') /\
    lookup out_png (files w') =
      Some (PngFile (Contour (K l) (T l) Z (levels l) :: rest)) /\
    List.length Z = 180%nat /\
    forall r c, (r < 180)%nat -> (c < 180)%nat ->
      nth c (nth r Z []) 0 =
      ll_cell x (nth r (K l) 0) (nth c (T l) 0) - ll_max l.
Proof.
  destruct (plot_ll_contour_locals_returns x k_mle th_mle) as [l Hl].
  destruct (plot_ll_contour_locals_inv _ _ _ _ Hl)
    as (HK & HT & Hll & _ & Hz & _).
  assert (HlK : List.length (K l) = 180%nat)
    by (rewrite HK; apply length_linspace).
  assert (HlT : List.length (T l) = 180%nat)
    by (rewrite HT; apply length_linspace).
  assert (Hzlen : List.length (z l) = 180%nat).
  { rewrite Hz, Hll. unfold mat_map. now rewrite !length_map. }
  assert (Hrect : Forall (fun row => List.length row = 180%nat) (z l)).
  { rewrite Hz, Hll. unfold mat_map. rewrite map_map.
    apply Forall_forall. intros row Hrow.
    apply in_map_iff in Hrow as (t & <- & _). now rewrite !length_map. }
  exists l. eexists. exists (transpose (z l)). eexists.
  split; [exact Hl |]. split.
  { unfold plot_ll_contour.
    erewrite bind_returns by (unfold lift; rewrite Hl; reflexivity).
    reflexivity. }
  split; [cbn [files lookup]; rewrite String.eqb_refl; reflexivity |].
  split.
  { unfold transpose. destruct (z l) as [|row rows] eqn:E;
      [discriminate |].
    rewrite length_map, length_seq. now inversion Hrect. }
  intros r c Hr Hc.
  rewrite (nth_transpose (z l) 180 r c Hrect Hr) by lia.
  rewrite Hz, Hll. unfold mat_map. rewrite map_map.
  rewrite (nth_map_lt _ _ _ 0 []) by lia.
  rewrite (nth_map_lt _ _ _ 0 0) by (rewrite length_map; lia).
  rewrite (nth_map_lt _ _ _ 0 0) by lia. reflexivity.
Qed.

End Figures.

(* ================================================================== *)
(** * Further properties of the text path *)
(* ================================================================== *)

Section Parsing.
Import Py Spec Props GenerateData.

Lemma append_assoc (a b c : string) : (a ++ b) ++ c = a ++ (b ++ c).
Proof. induction a as [|x a IH]; cbn; [reflexivity | now rewrite IH]. Qed.

Lemma append_empty_r (a : string) : a ++ "" = a.
Proof. induction a as [|x a IH]; cbn; [reflexivity | now rewrite IH]. Qed.

Lemma not_linebreak_not_cr (c : ascii) :
  is_linebreak c = false -> Nat.eqb (nat_of_ascii c) 13 = false.
Proof.
  unfold is_linebreak. intros H. apply Nat.eqb_neq. intros E.
  rewrite E in H. discriminate H.
Qed.

Lemma splitlines_from_app (line s rest : string) :
  no_linebreak s = true ->
  splitlines_from line (s ++ rest) = splitlines_from (line ++ s) rest.
Proof.
  revert line. induction s as [|c s IH]; intros line H.
  - cbn. now rewrite append_empty_r.
  - cbn [no_linebreak] in H. apply andb_true_iff in H as [Hc Hs].
    apply negb_true_iff in Hc.
    cbn [append splitlines_from].
    rewrite (not_linebreak_not_cr c Hc), Hc, (IH _ Hs), append_assoc.
    reflexivity.
Qed.

(** Two lines without line boundaries, joined by a line feed, split back
    into the two lines. *)
Lemma splitlines_two (l1 l2 : string) :
  no_linebreak l1 = true -> no_linebreak l2 = true -> l2 <> "" ->
  splitlines (l1 ++ GenerateData.nl ++ l2) = [l1; l2].
Proof.
  intros H1 H2 Hne. unfold splitlines.
  rewrite (splitlines_from_app "" l1 _ H1). cbn [append].
  unfold GenerateData.nl. cbn [append splitlines_from].
  change (Nat.eqb (nat_of_ascii (ascii_of_nat 10)) 13) with false.
  change (is_linebreak (ascii_of_nat 10)) with true. cbv iota.
  rewrite <- (append_empty_r l2) at 1.
  rewrite (splitlines_from_app "" l2 "" H2). cbn [append splitlines_from].
  destruct l2; [congruence | reflexivity].
Qed.

Lemma rstrip_cons_nonspace (c : ascii) (s : string) :
  is_space c = false -> rstrip (String c s) = String c (rstrip s).
Proof.
  intros H. cbn [rstrip]. rewrite H. destruct (rstrip s); reflexivity.
Qed.

Lemma rstrip_idempotent (s : string) : rstrip (rstrip s) = rstrip s.
Proof.
  induction s as [|c s IH]; [reflexivity |].
  cbn [rstrip]. destruct (rstrip s) as [|d q] eqn:E.
  - destruct (is_space c) eqn:Hc; [reflexivity |].
    cbn [rstrip]. now rewrite Hc.
  - cbn [rstrip]. cbn [rstrip] in IH. rewrite IH. reflexivity.
Qed.

Lemma lstrip_idempotent (s : string) : lstrip (lstrip s) = lstrip s.
Proof.
  induction s as [|c s IH]; [reflexivity |].
  cbn [lstrip]. destruct (is_space c) eqn:Hc; [exact IH |].
  cbn [lstrip]. now rewrite Hc.
Qed.

Lemma rstrip_lstrip_fixed (u : string) :
  rstrip u = u -> rstrip (lstrip u) = lstrip u.
Proof.
  induction u as [|c r IH]; [reflexivity |].
  intros H. cbn [lstrip]. destruct (is_space c) eqn:Hc; [| exact H].
  apply IH. cbn [rstrip] in H. rewrite Hc in H.
  destruct (rstrip r) as [|d q]; [discriminate |].
  now injection H.
Qed.

(** Stripping twice is stripping once. *)
Lemma strip_idempotent (s : string) : strip (strip s) = strip s.
Proof.
  unfold strip.
  rewrite (rstrip_lstrip_fixed (rstrip s) (rstrip_idempotent s)).
  apply lstrip_idempotent.
Qed.

Lemma strip_cons_space (c : ascii) (s : string) :
  is_space c = true -> strip (String c s) = strip s.
Proof.
  intros H. unfold strip. cbn [rstrip]. rewrite H.
  destruct (rstrip s) as [|d q]; [reflexivity |].
  cbn [lstrip]. now rewrite H.
Qed.

Lemma strip_rstrip (s : string) : strip (rstrip s) = strip s.
Proof. unfold strip. now rewrite rstrip_idempotent. Qed.

Lemma prefix_append (p s : string) : String.prefix p (p ++ s) = true.
Proof.
  induction p as [|a p IH]; cbn; [destruct s; reflexivity |].
  destruct (ascii_dec a a); [exact IH | congruence].
Qed.

Lemma upper_append (a b : string) : upper (a ++ b) = upper a ++ upper b.
Proof. induction a as [|c a IH]; cbn; [reflexivity | now rewrite IH]. Qed.

Lemma parse_line_title (t0 b0 t : string) :
  parse_line (Return (t0, b0)) ("TITLE: " ++ t) = Return (strip t, b0).
Proof.
  assert (E : strip ("TITLE: " ++ t) = "TITLE:" ++ rstrip (String " " t)).
  { unfold strip. cbn [append].
    rewrite !rstrip_cons_nonspace by reflexivity. reflexivity. }
  unfold parse_line. rewrite E. unfold startswith.
  rewrite upper_append. change (upper "TITLE:") with "TITLE:".
  rewrite prefix_append.
  change (split_colon_1 ("TITLE:" ++ rstrip (String " " t)))
    with ["TITLE"; rstrip (String " " t)].
  cbn [getitem nth_error]. rewrite strip_rstrip.
  rewrite strip_cons_space by reflexivity. reflexivity.
Qed.

Lemma parse_line_body (t0 b0 b : string) :
  parse_line (Return (t0, b0)) ("BODY: " ++ b) = Return (t0, strip b).
Proof.
  assert (E : strip ("BODY: " ++ b) = "BODY:" ++ rstrip (String " " b)).
  { unfold strip. cbn [append].
    rewrite !rstrip_cons_nonspace by reflexivity. reflexivity. }
  unfold parse_line. rewrite E. unfold startswith.
  rewrite upper_append. change (upper "BODY:") with "BODY:".
  rewrite prefix_append.
  change (String.prefix "TITLE:" ("BODY:" ++ upper (rstrip (String " " b))))
    with false. cbv iota.
  change (split_colon_1 ("BODY:" ++ rstrip (String " " b)))
    with ["BODY"; rstrip (String " " b)].
  cbn [getitem nth_error]. rewrite strip_rstrip.
  rewrite strip_cons_space by reflexivity. reflexivity.
Qed.

(** The answer format of the prompts parses back. *)
Lemma parse_answer (t b : string) :
  no_linebreak t = true -> no_linebreak b = true ->
  parse_title_body ("TITLE: " ++ t ++ GenerateData.nl ++ "BODY: " ++ b) =
  Return (strip t, strip b).
Proof.
  intros Ht Hb. unfold parse_title_body.
  rewrite <- append_assoc.
  rewrite (splitlines_two ("TITLE: " ++ t) ("BODY: " ++ b));
    [| exact Ht | exact Hb | discriminate].
  cbn [fold_left]. now rewrite parse_line_title, parse_line_body.
Qed.

(** X12.  A text in the format that the prompts ask for, a [TITLE:] line
    then a [BODY:] line, parses back to the title and the body, each
    without its surrounding white space. *)
Theorem parse_title_body_round_trip (t b : string) :
  no_linebreak t = true -> no_linebreak b = true ->
  parse_title_body ("TITLE: " ++ t ++ GenerateData.nl ++ "BODY: " ++ b) =
  Return (strip t, strip b).
Proof. exact (parse_answer t b). Qed.

Lemma parse_line_stripped (t b line : string) :
  strip t = t -> strip b = b ->
  exists t' b',
    parse_line (Return (t, b)) line = Return (t', b') /\
    strip t' = t' /\ strip b' = b'.
Proof.
  intros Ht Hb. unfold parse_line, startswith.
  destruct (String.prefix "TITLE:" (upper (strip line))) eqn:E1.
  - apply prefix_upper_has_colon in E1; [| reflexivity].
    destruct (split_colon_1_has_colon _ E1) as (u & v & ->).
    cbn. do 2 eexists. split; [reflexivity |].
    split; [apply strip_idempotent | exact Hb].
  - destruct (String.prefix "BODY:" (upper (strip line))) eqn:E2.
    + apply prefix_upper_has_colon in E2; [| reflexivity].
      destruct (split_colon_1_has_colon _ E2) as (u & v & ->).
      cbn. do 2 eexists. split; [reflexivity |].
      split; [exact Ht | apply strip_idempotent].
    + eauto.
Qed.

(** X13.  [parse_title_body] never raises, whatever the text: a line that
    starts with [TITLE:] or [BODY:] in any letter case has the colon that
    [split(":", 1)[1]] needs.  The title and the body it returns carry no
    surrounding white space. *)
Theorem parse_title_body_never_raises (text : string) :
  exists t b,
    parse_title_body text = Return (t, b) /\ strip t = t /\ strip b = b.
Proof.
  unfold parse_title_body.
  assert (H : forall lines t b,
             strip t = t -> strip b = b ->
             exists t' b',
               fold_left parse_line lines (Return (t, b)) =
                 Return (t', b') /\
               strip t' = t' /\ strip b' = b').
  { induction lines as [|line lines IH]; intros t b Ht Hb; cbn [fold_left].
    - eauto.
    - destruct (parse_line_stripped t b line Ht Hb)
        as (t' & b' & -> & Ht' & Hb').
      now apply IH. }
  apply H; reflexivity.
Qed.

End Parsing.

Section ServiceCalls.
Import Py Spec Props GenerateData.
Context {PR : PyRandom} {PF : PyFormat}.
Variable env : environ.

(** What one call of [_hf_generate] does to the world and returns. *)
Lemma hf_generate_run (prompt : string) (n : nat) (w : world) :
  if truthy (HF_API_TOKEN env) then
    exists s,
      _hf_generate env prompt n w = (Return s, after_request w) /\
      (forall items rest kv more,
          http w = Json (JList (JDict items :: rest)) :: more ->
          find (fun kv => String.eqb "generated_text" (fst kv)) items
            = Some kv ->
          s = strip (json_str (snd kv))) /\
      (forall s0 more, http w = Json (JStr s0) :: more -> s = strip s0)
  else _hf_generate env prompt n w = (Return "", w).
Proof.
  unfold _hf_generate, HF_TOKEN.
  destruct (truthy (HF_API_TOKEN env)) eqn:Htok; cbn [negb];
    [| reflexivity].
  unfold try_except, bind, urlopen_json, next_reply, after_request.
  destruct w as [tsv fs ds out replies]; cbn [http tsv_inputs files dirs
                                                stdout tl].
  destruct replies as [|[e | data] more].
  - cbn. exists "". repeat split; intros; discriminate.
  - rewrite exn_of_service_error_caught. cbn.
    exists "". repeat split; intros; discriminate.
  - destruct data as [| b | t | s | [|d0 l] | items];
      try (cbn; exists ""; repeat split; intros; discriminate).
    + cbn. exists (strip s). split; [reflexivity |].
      split; intros; [discriminate | congruence].
    + destruct d0 as [| b | t | s | l0 | items];
        try (cbn; exists ""; repeat split; intros; discriminate).
      * cbn [lift json_contains].
        destruct (contains s "generated_text");
          cbn; exists ""; repeat split; intros; discriminate.
      * cbn [lift json_contains].
        destruct (existsb _ l0);
          cbn; exists ""; repeat split; intros; discriminate.
      * cbn [lift json_contains].
        destruct (existsb _ items) eqn:Hex.
        -- destruct (existsb_find _ _ Hex) as [kv Hkv].
           exists (strip (json_str (snd kv))).
           split; [cbn [json_getitem]; rewrite Hkv; reflexivity |].
           split; [| intros; discriminate].
           intros items' rest' kv' more' E Hf. injection E as <- _ _.
           rewrite Hkv in Hf. now injection Hf as <-.
        -- exists "". split; [reflexivity |].
           split; [| intros; discriminate].
           intros items' rest' kv' more' E. injection E as <- _ _.
           intros Hfind.
           apply find_some in Hfind as [Hin Hkey].
           assert (Hc : existsb
                     (fun kv => String.eqb "generated_text" (fst kv))
                     items = true)
             by (apply existsb_exists; eauto).
           congruence.
Qed.

(** X14.  Without a credential [_hf_generate] returns the empty string and
    makes no request.  With one it makes exactly one request and changes
    nothing else; from a list whose first element is a dict with the key
    [generated_text] it returns that value as a string, stripped, and from
    a plain string the string, stripped. *)
Theorem hf_generate_requests (prompt : string) (n : nat) (w : world) :
  if truthy (HF_API_TOKEN env) then
    exists s,
      _hf_generate env prompt n w = (Return s, after_request w) /\
      (forall items rest kv more,
          http w = Json (JList (JDict items :: rest)) :: more ->
          find (fun kv => String.eqb "generated_text" (fst kv)) items
            = Some kv ->
          s = strip (json_str (snd kv))) /\
      (forall s0 more, http w = Json (JStr s0) :: more -> s = strip s0)
  else _hf_generate env prompt n w = (Return "", w).
Proof. exact (hf_generate_run prompt n w). Qed.

Lemma rstrip_fixed_app (a u : string) :
  rstrip u = u -> u <> "" ->
  rstrip (a ++ u) = a ++ u /\ a ++ u <> "".
Proof.
  intros Hu Hne. induction a as [|c a [IH1 IH2]]; [auto |].
  cbn [append rstrip]. rewrite IH1.
  destruct (a ++ u); [congruence | split; [reflexivity | discriminate]].
Qed.

(** A well-formed answer is unchanged by [strip]. *)
Lemma strip_answer (t b : string) :
  rstrip b = b -> b <> "" ->
  strip ("TITLE: " ++ t ++ GenerateData.nl ++ "BODY: " ++ b) =
  "TITLE: " ++ t ++ GenerateData.nl ++ "BODY: " ++ b.
Proof.
  intros Hb Hne. unfold strip.
  destruct (rstrip_fixed_app "BODY: " b Hb Hne) as [H1 N1].
  destruct (rstrip_fixed_app GenerateData.nl _ H1 N1) as [H2 N2].
  destruct (rstrip_fixed_app t _ H2 N2) as [H3 N3].
  destruct (rstrip_fixed_app "TITLE: " _ H3 N3) as [H4 _].
  rewrite H4. reflexivity.
Qed.


End ServiceCalls.

(* ================================================================== *)
(** * Further properties of the generator *)
(* ================================================================== *)

Section GeneratorSteps.
Import Py Spec Props GenerateData.
Context {PR : PyRandom} {NR : NumPyRandom} {DT : PyDatetime}
        {PF : PyFormat} {CSV : PyCsv} {PRL : PyRandomLaws PR}.

Lemma draws_ret {A : Type} (a : A) (P : A -> Prop) :
  P a -> draws (ret a) P.
Proof. intros H r w. exists a, r. split; [reflexivity | exact H]. Qed.

Lemma draws_bind {A B : Type} (c : G A) (k : A -> G B)
      (P : A -> Prop) (Q : B -> Prop) :
  draws c P -> (forall a, P a -> draws (k a) Q) -> draws (bind c k) Q.
Proof.
  intros Hc Hk r w. destruct (Hc r w) as (a & r1 & Hrun & Ha).
  destruct (Hk a Ha r1 w) as (b & r2 & Hrun2 & Hb).
  exists b, r2. split; [| exact Hb].
  rewrite (bind_returns _ _ _ _ _ Hrun). exact Hrun2.
Qed.

Lemma draws_choice {A : Type} (pool : list A) :
  pool <> [] -> draws (with_rng (choice pool)) (fun a => In a pool).
Proof. intros Hne r w. now apply choice_from_pool. Qed.

Lemma draws_repeat_G {A : Type} (n : nat) (body : G A) (P : A -> Prop) :
  draws body P ->
  draws (repeat_G n body) (fun l => List.length l = n /\ Forall P l).
Proof.
  intros Hb. induction n as [|n IH]; cbn [repeat_G].
  - apply draws_ret. split; [reflexivity | constructor].
  - apply (draws_bind _ _ P); [exact Hb | intros a Ha].
    apply (draws_bind _ _ _ _ IH). intros l [Hl Hall].
    apply draws_ret. split; [simpl; lia | now constructor].
Qed.

Lemma draws_ensures {A : Type} (c : G A) (P : A -> Prop) :
  draws c P -> ensures c P.
Proof.
  intros Hc [r w] a s' E. destruct (Hc r w) as (a' & r' & E' & Ha').
  rewrite E' in E. now injection E as <- _.
Qed.

Lemma length_string_of_list_ascii (cs : list ascii) :
  String.length (string_of_list_ascii cs) = List.length cs.
Proof. induction cs as [|c cs IH]; simpl; [reflexivity | now rewrite IH]. Qed.

(** The two ways in which [rand_date_ymd] ends on well-formed dates. *)
Lemma rand_date_ymd_run
        (start_ymd end_ymd : string) (ds de : datetime)
        (r : rng) (w : world) :
  strptime_ymd start_ymd = Return ds ->
  strptime_ymd end_ymd = Return de ->
  ((0 <= days_between ds de)%Z ->
   exists off r',
     (0 <= off <= days_between ds de)%Z /\
     rand_date_ymd start_ymd end_ymd (r, w) =
       (add_days ds (IZR off), (r', w)))
  /\ ((days_between ds de < 0)%Z ->
      exists r',
        rand_date_ymd start_ymd end_ymd (r, w) =
          (Raise ValueError, (r', w))).
Proof.
  intros Hs He. unfold rand_date_ymd.
  erewrite bind_returns by (unfold lift; rewrite Hs; reflexivity).
  erewrite bind_returns by (unfold lift; rewrite He; reflexivity).
  cbv zeta. split; intros Hspan.
  - destruct (randrange_spec (days_between ds de + 1) r ltac:(lia))
      as (off & Hoff & Hrange).
    destruct (randrange (days_between ds de + 1) r) as [o r'] eqn:E.
    cbn [fst] in Hoff. subst o. exists off, r'. split; [lia |].
    erewrite bind_returns
      by (unfold with_rng; cbn [fst snd]; rewrite E; reflexivity).
    reflexivity.
  - pose proof (randrange_empty (days_between ds de + 1) r ltac:(lia))
      as Hraise.
    destruct (randrange (days_between ds de + 1) r) as [o r'] eqn:E.
    cbn [fst] in Hraise. subst o. exists r'.
    erewrite bind_raises
      by (unfold with_rng; cbn [fst snd]; rewrite E; reflexivity).
    reflexivity.
Qed.

(** X16.  [rand_date_ymd] on two well-formed dates: when the window is not
    empty the result is the start plus a whole number of days between 0
    and the length of the window, so it lies in the window; when the end
    is before the start it raises [ValueError]. *)
Theorem rand_date_ymd_in_window
        (start_ymd end_ymd : string) (ds de : datetime)
        (r : rng) (w : world) :
  strptime_ymd start_ymd = Return ds ->
  strptime_ymd end_ymd = Return de ->
  ((0 <= days_between ds de)%Z ->
   exists off r',
     (0 <= off <= days_between ds de)%Z /\
     rand_date_ymd start_ymd end_ymd (r, w) =
       (add_days ds (IZR off), (r', w)))
  /\ ((days_between ds de < 0)%Z ->
      exists r',
        rand_date_ymd start_ymd end_ymd (r, w) =
          (Raise ValueError, (r', w))).
Proof.
  exact (rand_date_ymd_run start_ymd end_ymd ds de r w).
Qed.

Lemma make_order_id_run (r : rng) (w : world) :
  exists cs r',
    make_order_id (r, w) =
      (Return ("O" ++ string_of_list_ascii cs), (r', w)) /\
    List.length cs = 9%nat /\
    Forall (fun c => In c order_id_alphabet) cs /\
    String.length ("O" ++ string_of_list_ascii cs) = 10%nat.
Proof.
  assert (Hrep : draws (repeat_G 9 (with_rng (choice order_id_alphabet)))
                       (fun l => List.length l = 9%nat /\
                                 Forall (fun c => In c order_id_alphabet) l)).
  { apply draws_repeat_G. apply draws_choice. discriminate. }
  destruct (Hrep r w) as (cs & r' & Hrun & Hlen & Hall).
  exists cs, r'. unfold make_order_id.
  rewrite (bind_returns _ _ _ _ _ Hrun).
  split; [reflexivity |]. split; [exact Hlen |]. split; [exact Hall |].
  cbn [append String.length]. now rewrite length_string_of_list_ascii, Hlen.
Qed.

(** X17.  [make_order_id] always returns the letter O followed by nine
    characters of the 36-character alphabet, ten characters in all; it
    touches nothing but the random generator. *)
Theorem make_order_id_format (r : rng) (w : world) :
  exists cs r',
    make_order_id (r, w) =
      (Return ("O" ++ string_of_list_ascii cs), (r', w)) /\
    List.length cs = 9%nat /\
    Forall (fun c => In c order_id_alphabet) cs /\
    String.length ("O" ++ string_of_list_ascii cs) = 10%nat.
Proof. exact (make_order_id_run r w). Qed.

Lemma draws_choices_one (population : list nat) (weights : list R) :
  population <> [] -> List.length weights = List.length population ->
  draws (bind (with_rng (choices population weights 1))
              (fun res => lift (getitem res 0)))
        (fun n => In n population).
Proof.
  intros Hne Hlen r w.
  destruct (choices_spec nat population weights 1 r Hne Hlen)
    as (res & Hres & Hk & Hall).
  destruct (choices population weights 1 r) as [o r'] eqn:E.
  cbn [fst] in Hres. subst o.
  destruct res as [|n [|m res]]; try discriminate Hk.
  exists n, r'. split.
  - erewrite bind_returns
      by (unfold with_rng; cbn [fst snd]; rewrite E; reflexivity).
    reflexivity.
  - now inversion Hall.
Qed.

Lemma draws_pick_stars_failure :
  draws pick_stars_failure (fun n => In n [1; 2; 3]%nat).
Proof. apply draws_choices_one; [discriminate | reflexivity]. Qed.

Lemma draws_pick_stars_other :
  draws pick_stars_other (fun n => In n [3; 4; 5; 2]%nat).
Proof. apply draws_choices_one; [discriminate | reflexivity]. Qed.

Lemma draws_pick_verified :
  draws pick_verified (fun v => In v ["true"; "false"]).
Proof.
  intros r w. unfold pick_verified, bind, with_rng_total. cbn [fst snd].
  destruct (random r) as [u r']. cbn.
  destruct (Rlt_dec u 0.85); do 2 eexists; (split; [reflexivity |]);
    cbn; auto.
Qed.

(** X18.  The three pickers always return and touch nothing but the random
    generator: a failure gets 1, 2 or 3 stars, a distractor 2, 3, 4 or 5,
    and the verified flag is ["true"] or ["false"]. *)
Theorem pickers_in_range (r : rng) (w : world) :
  (exists n r', pick_stars_failure (r, w) = (Return n, (r', w)) /\
                (1 <= n <= 3)%nat)
  /\ (exists n r', pick_stars_other (r, w) = (Return n, (r', w)) /\
                   (2 <= n <= 5)%nat)
  /\ (exists v r', pick_verified (r, w) = (Return v, (r', w)) /\
                   (v = "true" \/ v = "false")).
Proof.
  split; [| split].
  - destruct (draws_pick_stars_failure r w) as (n & r' & Hrun & Hn).
    exists n, r'. split; [exact Hrun |]. cbn in Hn. lia.
  - destruct (draws_pick_stars_other r w) as (n & r' & Hrun & Hn).
    exists n, r'. split; [exact Hrun |]. cbn in Hn. lia.
  - destruct (draws_pick_verified r w) as (v & r' & Hrun & Hv).
    exists v, r'. split; [exact Hrun |]. cbn in Hv.
    destruct Hv as [<- | [<- | []]]; auto.
Qed.

End GeneratorSteps.

Section GeneratorRows.
Import Py Spec Props GenerateData.
Context {PR : PyRandom} {NR : NumPyRandom} {DT : PyDatetime}
        {PF : PyFormat} {CSV : PyCsv} {PRL : PyRandomLaws PR}.
Variable env : environ.

Lemma same_disk_refl (w : world) : same_disk w w.
Proof. repeat split. Qed.

Lemma same_disk_trans (w1 w2 w3 : world) :
  same_disk w1 w2 -> same_disk w2 w3 -> same_disk w1 w3.
Proof.
  intros (A1 & A2 & A3) (B1 & B2 & B3). repeat split; congruence.
Qed.

Lemma frames_ret {A : Type} (a : A) : frames (ret a).
Proof. intros r w. apply same_disk_refl. Qed.

Lemma frames_lift {A : Type} (o : outcome A) : frames (lift o).
Proof. intros r w. apply same_disk_refl. Qed.

Lemma frames_with_rng {A : Type} (f : rng -> outcome A * rng) :
  frames (with_rng f).
Proof.
  intros r w. unfold with_rng. cbn [fst snd]. destruct (f r).
  apply same_disk_refl.
Qed.

Lemma frames_with_rng_total {A : Type} (f : rng -> A * rng) :
  frames (with_rng_total f).
Proof.
  intros r w. unfold with_rng_total. cbn [fst snd]. destruct (f r).
  apply same_disk_refl.
Qed.

Lemma frames_bind {A B : Type} (c : G A) (k : A -> G B) :
  frames c -> (forall a, frames (k a)) -> frames (bind c k).
Proof.
  intros Hc Hk r w. unfold bind. specialize (Hc r w).
  destruct (c (r, w)) as [[a | e] [r1 w1]]; cbn [snd] in *.
  - eapply same_disk_trans; [exact Hc | apply Hk].
  - exact Hc.
Qed.

Lemma frames_repeat_G {A : Type} (n : nat) (body : G A) :
  frames body -> frames (repeat_G n body).
Proof.
  intros Hb. induction n as [|n IH]; cbn [repeat_G].
  - apply frames_ret.
  - apply frames_bind; [exact Hb | intros a].
    apply frames_bind; [exact IH | intros l]. apply frames_ret.
Qed.

Lemma frames_for_rows {A : Type} (items : list A) (body : A -> G row) :
  (forall item, frames (body item)) -> frames (for_rows items body).
Proof.
  intros Hb. induction items as [|item items IH]; cbn [for_rows].
  - apply frames_ret.
  - apply frames_bind; [apply Hb | intros a].
    apply frames_bind; [exact IH | intros l]. apply frames_ret.
Qed.

Lemma frames_text_step (prompt : string) :
  frames (if truthy (HF_TOKEN env)
          then in_world (_hf_generate env prompt 80)
          else ret "").
Proof.
  destruct (truthy (HF_TOKEN env)); [| apply frames_ret].
  intros r w. unfold in_world. cbn [fst snd].
  destruct (hf_generate_returns env prompt 80 w)
    as (s & w' & -> & H1 & H2 & H3 & _).
  cbn [snd]. repeat split; assumption.
Qed.

Ltac frames_step :=
  first [ apply frames_ret
        | apply frames_lift
        | apply frames_with_rng
        | apply frames_with_rng_total
        | apply frames_repeat_G
        | apply frames_text_step
        | apply frames_bind; [| intros ?] ].

Lemma frames_gen_failure_text (brand : string) (months : R) :
  frames (gen_failure_text env brand months).
Proof.
  unfold gen_failure_text. cbv zeta.
  apply frames_bind; [apply frames_text_step | intros text].
  apply frames_bind; [apply frames_lift | intros [t b]].
  apply frames_bind; [destruct (negb (nonempty t)); frames_step | intros t'].
  apply frames_bind; [| intros b'; apply frames_ret].
  destruct (negb (nonempty b)); repeat frames_step.
Qed.

Lemma frames_gen_other_text (brand : string) :
  frames (gen_other_text env brand).
Proof.
  unfold gen_other_text. cbv zeta.
  apply frames_bind; [apply frames_text_step | intros text].
  apply frames_bind; [apply frames_lift | intros [t b]].
  apply frames_bind; [destruct (negb (nonempty t)); frames_step | intros t'].
  apply frames_bind; [| intros b'; apply frames_ret].
  destruct (negb (nonempty b)); repeat frames_step.
Qed.

Lemma frames_rand_date_ymd (a b : string) : frames (rand_date_ymd a b).
Proof. unfold rand_date_ymd. repeat frames_step. Qed.

Lemma frames_failure_row (p : params) (tag brand : string) (im : nat * R) :
  frames (failure_row env p tag brand im).
Proof.
  unfold failure_row. destruct im as [i m]. cbv zeta.
  apply frames_bind; [apply frames_rand_date_ymd | intros dp].
  apply frames_bind; [apply frames_lift | intros dpost].
  apply frames_bind; [apply frames_gen_failure_text | intros [t b]].
  unfold pick_stars_failure, pick_verified, make_order_id.
  repeat frames_step.
Qed.

Lemma frames_other_row (p : params) (tag brand : string) (i : nat) :
  frames (other_row env p tag brand i).
Proof.
  unfold other_row. cbv zeta.
  apply frames_bind; [apply frames_rand_date_ymd | intros dp].
  apply frames_bind; [apply frames_with_rng_total | intros m].
  apply frames_bind; [apply frames_lift | intros dpost].
  apply frames_bind; [apply frames_gen_other_text | intros [t b]].
  unfold pick_stars_other, pick_verified, make_order_id.
  repeat frames_step.
Qed.

(** The four loops write no file, create no directory and print nothing. *)
Lemma frames_dataset_rows (p : params) (seed : Z) :
  frames (dataset_rows env p seed).
Proof.
  unfold dataset_rows. cbv zeta.
  apply frames_bind;
    [apply frames_for_rows; intros; apply frames_failure_row | intros ra].
  apply frames_bind;
    [apply frames_for_rows; intros; apply frames_failure_row | intros rb].
  apply frames_bind;
    [apply frames_for_rows; intros; apply frames_other_row | intros rax].
  apply frames_bind;
    [apply frames_for_rows; intros; apply frames_other_row | intros rbx].
  apply frames_ret.
Qed.

(** X21.  The four loops that build the rows write no file, create no
    directory and print nothing.  An exception raised while the rows are
    built (a malformed date, an empty purchase window, a date out of
    range) is the exception of [make_dataset], which then has left files,
    directories and standard output as they were; only requests to the
    service may have been made. *)
Theorem make_dataset_row_failure_writes_nothing
        (out_tsv : string) (p : params) (seed : Z) (w : world) (e : exn) :
  fst (dataset_rows env p seed (Random seed, w)) = Raise e ->
  fst (make_dataset env out_tsv p seed w) = Raise e /\
  same_disk w (snd (make_dataset env out_tsv p seed w)).
Proof.
  rewrite make_dataset_run.
  pose proof (frames_dataset_rows p seed (Random seed) w) as Hf.
  destruct (dataset_rows env p seed (Random seed, w))
    as [[rows | e'] [r0 w0]]; cbn [fst snd] in *; [discriminate |].
  intros E. injection E as ->. split; [reflexivity | exact Hf].
Qed.

Lemma length_enumerate1 {A : Type} (l : list A) :
  List.length (enumerate1 l) = List.length l.
Proof.
  unfold enumerate1. rewrite length_combine, length_seq. apply Nat.min_id.
Qed.

Lemma ensures_true {S A : Type} (c : ST S A) : ensures c (fun _ => True).
Proof. intros s a s' _. exact I. Qed.

Lemma for_rows_length {A : Type} (items : list A) (body : A -> G row) :
  ensures (for_rows items body)
          (fun rows => List.length rows = List.length items).
Proof.
  intros s rows s' E.
  assert (H : Forall2 (fun _ _ => True) items rows).
  { eapply (ensures_for_rows items body (fun _ _ => True)); [| exact E].
    intros item _. apply ensures_true. }
  symmetry. eapply Forall2_length; exact H.
Qed.

(** The four loops make one row per lifespan and per distractor. *)
Lemma dataset_rows_count (p : params) (seed : Z) :
  ensures (dataset_rows env p seed)
          (fun rows =>
             List.length rows =
             (List.length (sample_gamma_lifespans
                             (k_alpha p) (th_alpha p) (n_fail_alpha p)
                             (seed + 11))
              + List.length (sample_gamma_lifespans
                               (k_beta p) (th_beta p) (n_fail_beta p)
                               (seed + 22))
              + n_other_alpha p + n_other_beta p)%nat).
Proof.
  unfold dataset_rows. cbv zeta.
  eapply ensures_bind; [apply for_rows_length | intros ra Ha].
  eapply ensures_bind; [apply for_rows_length | intros rb Hb].
  eapply ensures_bind; [apply for_rows_length | intros rax Hax].
  eapply ensures_bind; [apply for_rows_length | intros rbx Hbx].
  apply ensures_ret. cbv beta in *.
  rewrite !length_app, Ha, Hb, Hax, Hbx, !length_enumerate1, !length_seq.
  lia.
Qed.

(** X20.  When [make_dataset] returns it has created the directory of the
    output, written one file, the TSV of the header and of one row per
    sampled lifespan and per distractor, and printed one line that reports
    that number of rows. *)
Theorem make_dataset_row_count
        (out_tsv : string) (p : params) (seed : Z) (w : world) :
  fst (make_dataset env out_tsv p seed w) = Return tt ->
  let total :=
    (List.length (sample_gamma_lifespans
                    (k_alpha p) (th_alpha p) (n_fail_alpha p) (seed + 11))
     + List.length (sample_gamma_lifespans
                      (k_beta p) (th_beta p) (n_fail_beta p) (seed + 22))
     + n_other_alpha p + n_other_beta p)%nat in
  let line := "[synth] wrote " ++ out_tsv ++ " (" ++ str_of_nat total ++
              " rows)" in
  exists rows,
    List.length rows = total /\
    files (snd (make_dataset env out_tsv p seed w)) =
      (out_tsv, TextFile (tsv_text rows)) :: files w /\
    dirs (snd (make_dataset env out_tsv p seed w)) =
      dirname_or_dot out_tsv :: dirs w /\
    stdout (snd (make_dataset env out_tsv p seed w)) =
      (stdout w ++ [line])%list.
Proof.
  rewrite make_dataset_run.
  pose proof (frames_dataset_rows p seed (Random seed) w) as Hf.
  destruct (dataset_rows env p seed (Random seed, w))
    as [[rows0 | e'] [r0 w0]] eqn:Hrows; cbn [fst snd] in *;
    [| discriminate].
  intros _. destruct Hf as (Hfiles & Hdirs & Hout).
  pose proof (dataset_rows_count p seed _ _ _ Hrows) as Hcount.
  cbv beta in Hcount. cbv zeta. cbn [files dirs stdout].
  exists (fst (shuffle rows0 r0)).
  assert (Hlen : List.length (fst (shuffle rows0 r0)) = List.length rows0).
  { symmetry. apply Permutation_length. apply shuffle_spec. }
  rewrite Hlen, Hcount, Hfiles, Hdirs, Hout. repeat split.
Qed.

Lemma str_of_star (n : nat) :
  (1 <= n <= 5)%nat -> In (str_of_nat n) ["1"; "2"; "3"; "4"; "5"].
Proof.
  intros H.
  assert (E : (n = 1 \/ n = 2 \/ n = 3 \/ n = 4 \/ n = 5)%nat) by lia.
  destruct E as [-> | [-> | [-> | [-> | ->]]]]; cbn; auto 6.
Qed.

Lemma gen_failure_text_ensures (brand : string) (months : R) :
  ensures (gen_failure_text env brand months)
          (fun tb => fst tb <> "" /\ snd tb <> "").
Proof.
  intros [r w] [t b] s' E.
  destruct (gen_failure_text_returns env brand months r w)
    as (t' & b' & r' & w' & E' & _ & Ht & Hb & _).
  rewrite E' in E. injection E as <- <- _. split; assumption.
Qed.

Lemma gen_other_text_ensures (brand : string) :
  ensures (gen_other_text env brand)
          (fun tb => fst tb <> "" /\ snd tb <> "").
Proof.
  intros [r w] [t b] s' E.
  destruct (gen_other_text_returns env brand r w)
    as (t' & b' & r' & w' & E' & _ & Ht & Hb & _).
  rewrite E' in E. injection E as <- <- _. split; assumption.
Qed.

Lemma make_order_id_ensures :
  ensures make_order_id (fun oid => String.length oid = 10%nat).
Proof.
  intros [r w] oid s' E.
  destruct (make_order_id_run r w) as (cs & r' & E' & _ & _ & Hlen).
  rewrite E' in E. now injection E as <- _.
Qed.

Lemma failure_row_well_formed (p : params) (tag brand : string)
      (im : nat * R) :
  In brand ["Alpha"; "Beta"] ->
  ensures (failure_row env p tag brand im) well_formed_row.
Proof.
  intros Hbrand. unfold failure_row. destruct im as [i m]. cbv zeta.
  apply ensures_bind_any; intros dp.
  apply ensures_bind_any; intros dpost.
  eapply ensures_bind; [apply gen_failure_text_ensures |].
  intros [title body] [Ht Hb]. cbn [fst snd] in Ht, Hb.
  eapply ensures_bind;
    [apply draws_ensures; apply draws_pick_stars_failure | intros stars Hs].
  eapply ensures_bind;
    [apply draws_ensures; apply draws_pick_verified | intros v Hv].
  eapply ensures_bind; [apply make_order_id_ensures | intros oid Ho].
  apply ensures_ret. unfold well_formed_row. cbn [nth List.length header].
  repeat split; auto.
  apply str_of_star. cbn in Hs. lia.
Qed.

Lemma other_row_well_formed (p : params) (tag brand : string) (i : nat) :
  In brand ["Alpha"; "Beta"] ->
  ensures (other_row env p tag brand i) well_formed_row.
Proof.
  intros Hbrand. unfold other_row. cbv zeta.
  apply ensures_bind_any; intros dp.
  apply ensures_bind_any; intros m.
  apply ensures_bind_any; intros dpost.
  eapply ensures_bind; [apply gen_other_text_ensures |].
  intros [title body] [Ht Hb]. cbn [fst snd] in Ht, Hb.
  eapply ensures_bind;
    [apply draws_ensures; apply draws_pick_stars_other | intros stars Hs].
  eapply ensures_bind;
    [apply draws_ensures; apply draws_pick_verified | intros v Hv].
  eapply ensures_bind; [apply make_order_id_ensures | intros oid Ho].
  apply ensures_ret. unfold well_formed_row. cbn [nth List.length header].
  repeat split; auto.
  apply str_of_star. cbn in Hs. lia.
Qed.

Lemma for_rows_forall {A : Type} (items : list A) (body : A -> G row)
      (P : row -> Prop) :
  (forall item, ensures (body item) P) ->
  ensures (for_rows items body) (Forall P).
Proof.
  intros Hb s rows s' E.
  assert (H : Forall2 (fun _ r => P r) items rows).
  { eapply (ensures_for_rows items body (fun _ r => P r)); [| exact E].
    intros item _. apply Hb. }
  clear E. induction H; constructor; auto.
Qed.

Lemma dataset_rows_well_formed (p : params) (seed : Z) :
  ensures (dataset_rows env p seed) (Forall well_formed_row).
Proof.
  unfold dataset_rows. cbv zeta.
  assert (HA : In "Alpha" ["Alpha"; "Beta"]) by (cbn; auto).
  assert (HB : In "Beta" ["Alpha"; "Beta"]) by (cbn; auto).
  eapply ensures_bind;
    [apply for_rows_forall; intros; now apply failure_row_well_formed
    | intros ra Ha].
  eapply ensures_bind;
    [apply for_rows_forall; intros; now apply failure_row_well_formed
    | intros rb Hb].
  eapply ensures_bind;
    [apply for_rows_forall; intros; now apply other_row_well_formed
    | intros rax Hax].
  eapply ensures_bind;
    [apply for_rows_forall; intros; now apply other_row_well_formed
    | intros rbx Hbx].
  apply ensures_ret. repeat (apply Forall_app; split); assumption.
Qed.

(** X19.  Every row of a dataset that [make_dataset] writes has the ten
    columns of the header, the brand Alpha or Beta, a title and a body that
    are not empty, one to five stars, the flag true or false, and an order
    id of ten characters, whether the text came from the service or from
    the templates. *)
Theorem dataset_rows_are_well_formed
        (out_tsv : string) (p : params) (seed : Z) (w : world) :
  fst (make_dataset env out_tsv p seed w) = Return tt ->
  exists rows,
    lookup out_tsv (files (snd (make_dataset env out_tsv p seed w))) =
      Some (TextFile (tsv_text rows)) /\
    Forall well_formed_row rows.
Proof.
  rewrite make_dataset_run.
  destruct (dataset_rows env p seed (Random seed, w))
    as [[rows0 | e'] [r0 w0]] eqn:Hrows; cbn [fst snd]; [| discriminate].
  intros _. pose proof (dataset_rows_well_formed p seed _ _ _ Hrows) as Hwf.
  exists (fst (shuffle rows0 r0)). cbv zeta. cbn [files lookup].
  rewrite String.eqb_refl. split; [reflexivity |].
  eapply Permutation_Forall; [apply shuffle_spec | exact Hwf].
Qed.

Lemma for_rows_raises {A : Type} (items : list A) (body : A -> G row)
      (e : exn) :
  (forall item s, exists s', body item s = (Raise e, s')) ->
  items <> [] ->
  forall s, exists s', for_rows items body s = (Raise e, s').
Proof.
  intros Hb Hne s. destruct items as [|item items]; [congruence |].
  cbn [for_rows]. destruct (Hb item s) as [s' Hs'].
  exists s'. now apply bind_raises.
Qed.

Section EmptyWindow.
Variable p : params.
Variables ds de : datetime.
Hypothesis start_parses : strptime_ymd (purchase_start p) = Return ds.
Hypothesis end_parses : strptime_ymd (purchase_end p) = Return de.
Hypothesis end_before_start : (days_between ds de < 0)%Z.

Lemma failure_row_empty_window (tag brand : string) (im : nat * R)
      (s : rng * world) :
  exists s', failure_row env p tag brand im s = (Raise ValueError, s').
Proof.
  destruct s as [r w]. destruct im as [i m]. unfold failure_row. cbv zeta.
  destruct (rand_date_ymd_run _ _ ds de r w start_parses end_parses)
    as [_ H]. destruct (H end_before_start) as [r' Hr'].
  eexists. apply bind_raises. exact Hr'.
Qed.

Lemma other_row_empty_window (tag brand : string) (i : nat)
      (s : rng * world) :
  exists s', other_row env p tag brand i s = (Raise ValueError, s').
Proof.
  destruct s as [r w]. unfold other_row. cbv zeta.
  destruct (rand_date_ymd_run _ _ ds de r w start_parses end_parses)
    as [_ H]. destruct (H end_before_start) as [r' Hr'].
  eexists. apply bind_raises. exact Hr'.
Qed.

Lemma dataset_rows_empty_window (seed : Z) (s : rng * world) :
  (0 < List.length (sample_gamma_lifespans
                      (k_alpha p) (th_alpha p) (n_fail_alpha p) (seed + 11))
       + List.length (sample_gamma_lifespans
                        (k_beta p) (th_beta p) (n_fail_beta p) (seed + 22))
       + n_other_alpha p + n_other_beta p)%nat ->
  exists s', dataset_rows env p seed s = (Raise ValueError, s').
Proof.
  intros Htotal. unfold dataset_rows. cbv zeta.
  set (la := sample_gamma_lifespans _ _ _ (seed + 11)) in *.
  set (lb := sample_gamma_lifespans _ _ _ (seed + 22)) in *.
  assert (Hnil : forall (A : Type) (l : list A),
             enumerate1 l = [] -> l = []).
  { intros A l E. apply length_zero_iff_nil.
    rewrite <- length_enumerate1, E. reflexivity. }
  destruct (enumerate1 la) as [|ia ra] eqn:Ea.
  2:{ destruct (for_rows_raises (ia :: ra)
                  (failure_row env p "rA" "Alpha") ValueError
                  (failure_row_empty_window "rA" "Alpha")
                  ltac:(discriminate) s) as [s' Hs'].
      exists s'. now apply bind_raises. }
  apply Hnil in Ea. rewrite Ea in Htotal. cbn [List.length] in Htotal.
  cbn [for_rows]. rewrite (bind_returns _ _ s s []) by reflexivity.
  destruct (enumerate1 lb) as [|ib rb] eqn:Eb.
  2:{ destruct (for_rows_raises (ib :: rb)
                  (failure_row env p "rB" "Beta") ValueError
                  (failure_row_empty_window "rB" "Beta")
                  ltac:(discriminate) s) as [s' Hs'].
      exists s'. now apply bind_raises. }
  apply Hnil in Eb. rewrite Eb in Htotal. cbn [List.length] in Htotal.
  cbn [for_rows]. rewrite (bind_returns _ _ s s []) by reflexivity.
  destruct (n_other_alpha p) as [|na] eqn:Ena.
  2:{ destruct (for_rows_raises (seq 0 (S na))
                  (other_row env p "rAX" "Alpha") ValueError
                  (other_row_empty_window "rAX" "Alpha")
                  ltac:(discriminate) s) as [s' Hs'].
      exists s'. now apply bind_raises. }
  cbn [seq for_rows]. rewrite (bind_returns _ _ s s []) by reflexivity.
  destruct (n_other_beta p) as [|nb] eqn:Enb; [cbn in Htotal; lia |].
  destruct (for_rows_raises (seq 0 (S nb))
              (other_row env p "rBX" "Beta") ValueError
              (other_row_empty_window "rBX" "Beta")
              ltac:(discriminate) s) as [s' Hs'].
  exists s'. now apply bind_raises.
Qed.

(** X22.  With two well-formed dates of which the end is before the start,
    [make_dataset] asked for at least one row raises [ValueError] and
    writes no file, creates no directory and prints nothing. *)
Theorem make_dataset_empty_window
        (out_tsv : string) (seed : Z) (w : world) :
  (0 < List.length (sample_gamma_lifespans
                      (k_alpha p) (th_alpha p) (n_fail_alpha p) (seed + 11))
       + List.length (sample_gamma_lifespans
                        (k_beta p) (th_beta p) (n_fail_beta p) (seed + 22))
       + n_other_alpha p + n_other_beta p)%nat ->
  fst (make_dataset env out_tsv p seed w) = Raise ValueError /\
  same_disk w (snd (make_dataset env out_tsv p seed w)).
Proof.
  intros Htotal. rewrite make_dataset_run.
  pose proof (frames_dataset_rows p seed (Random seed) w) as Hf.
  destruct (dataset_rows_empty_window seed (Random seed, w) Htotal)
    as [[r' w'] Hrun].
  rewrite Hrun in *. cbn [fst snd] in *. split; [reflexivity | exact Hf].
Qed.

End EmptyWindow.

End GeneratorRows.

(* ================================================================== *)
(** * The likelihood grid in float64: overflow and nan *)
(* ================================================================== *)

Section IeeeArithmetic.
Import Py Ieee SpecIeee.

Lemma overflow_threshold_pos : 0 < overflow_threshold.
Proof. unfold overflow_threshold. lra. Qed.

Lemma fl_in_range (r : R) :
  - overflow_threshold < r < overflow_threshold -> fl r = Fin r.
Proof.
  intros [H1 H2]. unfold fl.
  destruct (Rle_dec overflow_threshold r); [lra |].
  destruct (Rle_dec r (- overflow_threshold)); [lra | reflexivity].
Qed.

Lemma fl_zero : fl 0 = Fin 0.
Proof. apply fl_in_range. pose proof overflow_threshold_pos. lra. Qed.

Lemma fl_below (r m : R) : r <= m -> m < overflow_threshold -> below m (fl r).
Proof.
  intros H Hm. unfold fl.
  destruct (Rle_dec overflow_threshold r); [lra |].
  destruct (Rle_dec r (- overflow_threshold)); cbn; auto.
Qed.

Lemma below_ltb (m : R) (c : float64) :
  below m c <-> ltb (Fin m) c = false.
Proof.
  destruct c as [u | | |]; cbn; unfold Rltb.
  - destruct (Rlt_dec m u); split; intros H; try reflexivity;
      try discriminate; lra.
  - split; [intros [] | discriminate].
  - split; auto.
  - split; auto.
Qed.

Lemma fmax_below (m : R) (a b : float64) :
  below m (fmax a b) <-> below m a /\ below m b.
Proof.
  destruct a as [u | | |], b as [v | | |]; cbn; unfold Rltb;
    try destruct (Rlt_dec u v); cbn; try tauto;
    split; try tauto; intros; try split; try tauto; try lra.
Qed.

Lemma fmax_is_argument (a b : float64) : fmax a b = a \/ fmax a b = b.
Proof.
  destruct a, b; cbn; auto; destruct (Rltb _ _); auto.
Qed.

Lemma fmax_keeps_max (r : R) (b : float64) :
  below r b -> fmax (Fin r) b = Fin r.
Proof.
  destruct b as [v | | |]; cbn; unfold Rltb; try tauto.
  intros H. destruct (Rlt_dec r v); [lra | reflexivity].
Qed.

Lemma fmax_takes_max (r : R) (a : float64) :
  below r a -> fmax a (Fin r) = Fin r.
Proof.
  destruct a as [u | | |]; cbn; unfold Rltb; try tauto.
  intros H. destruct (Rlt_dec u r); [reflexivity | f_equal; lra].
Qed.

(** The largest cell, when it is finite: no cell is above it and it is one
    of the cells. *)
Lemma fold_fmax_finite (vs : list float64) (acc : float64) (r : R) :
  fold_left fmax vs acc = Fin r ->
  below r acc /\ Forall (below r) vs /\ (acc = Fin r \/ In (Fin r) vs).
Proof.
  revert acc. induction vs as [|v vs IH]; intros acc H; cbn in H.
  - subst acc. split; [cbn; lra |]. split; [constructor | left; reflexivity].
  - destruct (IH _ H) as (Hb & Hall & Hin).
    apply fmax_below in Hb. destruct Hb as [Ha Hv].
    split; [exact Ha |]. split; [constructor; assumption |].
    destruct Hin as [E | Hin]; [| right; right; exact Hin].
    destruct (fmax_is_argument acc v) as [E' | E'];
      rewrite E' in E; [left; exact E | right; left; exact E].
Qed.

Lemma fold_fmax_attained (vs : list float64) (acc : float64) (r : R) :
  below r acc -> Forall (below r) vs -> (acc = Fin r \/ In (Fin r) vs) ->
  fold_left fmax vs acc = Fin r.
Proof.
  revert acc. induction vs as [|v vs IH]; intros acc Ha Hall Hin; cbn.
  - destruct Hin as [E | []]. exact E.
  - inversion Hall as [|? ? Hv Hvs]; subst.
    apply IH; [apply fmax_below; split; assumption | exact Hvs |].
    destruct Hin as [E | [E | Hin]].
    + left. subst acc. apply fmax_keeps_max. exact Hv.
    + left. subst v. apply fmax_takes_max. exact Ha.
    + right. exact Hin.
Qed.

Lemma fold_fmax_nan (vs : list float64) :
  Forall (fun v => v = NaN) vs -> fold_left fmax vs NaN = NaN.
Proof.
  induction 1 as [|v vs Hv _ IH]; [reflexivity |]. subst v. exact IH.
Qed.

Lemma sub_max_below (c : float64) (r : R) :
  below r c -> below 0 (sub c (Fin r)).
Proof.
  destruct c as [u | | |]; cbn; try tauto.
  intros H. apply fl_below; [lra | apply overflow_threshold_pos].
Qed.

Lemma sub_self (r : R) : sub (Fin r) (Fin r) = Fin 0.
Proof.
  cbn. replace (r + - r) with 0 by lra. apply fl_zero.
Qed.

(** A difference of two cells that are each [-inf] or [nan] is [nan]. *)
Lemma sub_lost (a b : float64) :
  a = NInf \/ a = NaN -> b = NInf \/ b = NaN -> sub a b = NaN.
Proof. intros [-> | ->] [-> | ->]; reflexivity. Qed.

Lemma sub_inf_lost (a : float64) :
  sub a PInf = NInf \/ sub a PInf = NaN.
Proof. destruct a; cbn; auto. Qed.

Lemma sub_stays_lost (a b : float64) :
  a = NInf \/ a = NaN -> sub a b = NInf \/ sub a b = NaN.
Proof. intros [-> | ->]; destruct b; cbn; auto. Qed.

Lemma fold_fmax_lost (vs : list float64) (acc : float64) :
  acc = NInf \/ acc = NaN ->
  Forall (fun v => v = NInf \/ v = NaN) vs ->
  fold_left fmax vs acc = NInf \/ fold_left fmax vs acc = NaN.
Proof.
  intros Ha Hall. revert acc Ha.
  induction Hall as [|v vs Hv _ IH]; intros acc Ha; [exact Ha |].
  cbn. apply IH.
  destruct Ha as [-> | ->], Hv as [-> | ->]; cbn; auto.
Qed.

Lemma mat_zip_with_meshgrid_f64 (f : float64 -> float64 -> float64)
      (K T : list float64) :
  mat_zip_with f (fst (meshgrid K T)) (snd (meshgrid K T)) =
  map (fun t => map (fun k => f k t) K) T.
Proof.
  unfold mat_zip_with, meshgrid; simpl.
  induction T as [|t T IH]; [reflexivity |].
  simpl. rewrite IH. f_equal.
  clear. induction K as [|k K IH]; [reflexivity |].
  simpl. now rewrite IH.
Qed.

Lemma length_linspace_f64 (a b : float64) (n : nat) :
  List.length (linspace a b n) = n.
Proof.
  destruct n as [|[|n]]; [reflexivity | reflexivity |].
  unfold linspace. rewrite length_app, length_map, length_seq. simpl. lia.
Qed.

Lemma concat_mat_map_f64 (f : float64 -> float64) (m : list (list float64)) :
  List.concat (mat_map f m) = map f (List.concat m).
Proof.
  unfold mat_map. induction m as [|r m IH]; [reflexivity |].
  simpl. now rewrite map_app, IH.
Qed.

Lemma in_concat_cells (m : list (list float64)) (v : float64) :
  In v (List.concat m) <-> exists row, In row m /\ In v row.
Proof.
  rewrite in_concat. split; intros (row & H1 & H2); exists row; auto.
Qed.

End IeeeArithmetic.

Section ContourIeee.
Import Py Ieee SpecIeee PlotGammaIeee.
Context {SS : SciPySpecial}.

Lemma plot_ll_contour_locals_f64_inv (x : list float64)
      (k_mle th_mle : float64) (l : contour_locals) :
  plot_ll_contour_locals x k_mle th_mle = Return l ->
  K l = linspace (py_max (Fin 1e-3) (mul k_mle (Fin 0.25)))
                 (mul k_mle (Fin 4.0)) 180 /\
  T l = linspace (py_max (Fin 1e-6) (mul th_mle (Fin 0.25)))
                 (mul th_mle (Fin 4.0)) 180 /\
  ll l = map (fun t => map (fun k => ll_cell x k t) (K l)) (T l) /\
  np_nanmax (ll l) = Some (ll_max l) /\
  z l = mat_map (fun v => sub v (ll_max l)) (ll l) /\
  levels l = [-9.21; -5.99; -3.00; -2.00; -1.00; -0.50; -0.10].
Proof.
  unfold plot_ll_contour_locals.
  remember (linspace (py_max (Fin 1e-3) (mul k_mle (Fin 0.25)))
                     (mul k_mle (Fin 4.0)) 180) as Kg eqn:HKg.
  remember (linspace (py_max (Fin 1e-6) (mul th_mle (Fin 0.25)))
                     (mul th_mle (Fin 4.0)) 180) as Tg eqn:HTg.
  pose proof (mat_zip_with_meshgrid_f64 (ll_cell x) Kg Tg) as Hll.
  unfold ll_cell in Hll at 1.
  destruct (meshgrid Kg Tg) as [KK TT] eqn:Hmesh.
  cbn [fst snd] in Hll.
  replace (Fin 1.0) with (Fin 1) by (f_equal; lra).
  rewrite Hll.
  destruct (np_nanmax _) as [m|] eqn:Hmax; [| discriminate].
  intros H; injection H as <-. cbn [K T ll ll_max z levels].
  split; [reflexivity |]. split; [reflexivity |].
  split; [reflexivity |]. split; [exact Hmax |].
  split; reflexivity.
Qed.

Lemma plot_ll_contour_locals_f64_returns (x : list float64)
      (k_mle th_mle : float64) :
  exists l, plot_ll_contour_locals x k_mle th_mle = Return l.
Proof.
  unfold plot_ll_contour_locals.
  remember (linspace (py_max (Fin 1e-3) (mul k_mle (Fin 0.25)))
                     (mul k_mle (Fin 4.0)) 180) as Kg eqn:HKg.
  remember (linspace (py_max (Fin 1e-6) (mul th_mle (Fin 0.25)))
                     (mul th_mle (Fin 4.0)) 180) as Tg eqn:HTg.
  pose proof (mat_zip_with_meshgrid_f64 (ll_cell x) Kg Tg) as Hll.
  unfold ll_cell in Hll at 1.
  destruct (meshgrid Kg Tg) as [KK TT] eqn:Hmesh.
  cbn [fst snd] in Hll.
  replace (Fin 1.0) with (Fin 1) by (f_equal; lra).
  rewrite Hll.
  assert (HK : List.length Kg = 180%nat)
    by (rewrite HKg; apply length_linspace_f64).
  assert (HT : List.length Tg = 180%nat)
    by (rewrite HTg; apply length_linspace_f64).
  clear HKg HTg Hll Hmesh.
  destruct Tg as [|t Tg]; [discriminate HT |].
  destruct Kg as [|k Kg]; [discriminate HK |].
  unfold np_nanmax. cbn [map List.concat app]. eexists. reflexivity.
Qed.


End ContourIeee.

Section ContourIeeeRuns.
Import Py Ieee SpecIeee PlotGammaIeee.

Lemma fl_abs (r b : R) :
  Rabs r <= b -> b < overflow_threshold -> fin_abs b (fl r).
Proof.
  intros H Hb. exists r. split; [| exact H].
  apply fl_in_range. unfold Rabs in H. destruct (Rcase_abs r); lra.
Qed.

Lemma add_fin (a b : R) (u v : float64) :
  fin_abs a u -> fin_abs b v -> a + b < overflow_threshold ->
  fin_abs (a + b) (add u v).
Proof.
  intros (p & -> & Hp) (q & -> & Hq) H. cbn. apply fl_abs; [| exact H].
  pose proof (Rabs_triang p q). lra.
Qed.

Lemma sub_fin (a b : R) (u v : float64) :
  fin_abs a u -> fin_abs b v -> a + b < overflow_threshold ->
  fin_abs (a + b) (sub u v).
Proof.
  intros (p & -> & Hp) (q & -> & Hq) H. cbn. apply fl_abs; [| exact H].
  pose proof (Rabs_triang p (- q)). rewrite Rabs_Ropp in *. lra.
Qed.

Lemma mul_fin (a b : R) (u v : float64) :
  fin_abs a u -> fin_abs b v -> a * b < overflow_threshold ->
  fin_abs (a * b) (mul u v).
Proof.
  intros (p & -> & Hp) (q & -> & Hq) H. cbn. apply fl_abs; [| exact H].
  rewrite Rabs_mult.
  apply Rmult_le_compat; auto using Rabs_pos.
Qed.

Lemma div_fin (a c : R) (u v : float64) :
  fin_abs a u -> fin_between c (a + c) v -> 0 < c ->
  a / c < overflow_threshold ->
  fin_abs (a / c) (div u v).
Proof.
  intros (p & -> & Hp) (q & -> & Hq) Hc H. cbn.
  destruct (Req_dec_T q 0) as [E | _]; [lra |].
  apply fl_abs; [| exact H].
  unfold Rdiv. rewrite Rabs_mult, Rabs_inv.
  assert (Hq' : c <= Rabs q) by (rewrite Rabs_right; lra).
  apply Rmult_le_compat; auto using Rabs_pos.
  - left. apply Rinv_0_lt_compat. lra.
  - apply Rinv_le_contravar; assumption.
Qed.

Lemma log_fin (v : float64) :
  fin_between (1 / 4) 4 v -> fin_abs 3 (log v).
Proof.
  intros (q & -> & Hq). cbn.
  destruct (Rlt_dec 0 q) as [Hpos | H]; [| lra].
  apply fl_abs; [| unfold overflow_threshold; lra].
  assert (Hinv : 0 < / q) by now apply Rinv_0_lt_compat.
  pose proof (ln_le_minus_1 q Hpos) as Hup.
  pose proof (ln_le_minus_1 (/ q) Hinv) as Hlow.
  rewrite ln_Rinv in Hlow by exact Hpos.
  assert (/ q <= 4).
  { replace 4 with (/ (1 / 4)) by lra. apply Rinv_le_contravar; lra. }
  apply Rabs_le. lra.
Qed.

Lemma INR_179 : INR 179 = 179.
Proof. rewrite INR_IZR_INZ. reflexivity. Qed.

(** A grid between two reals of moderate size: every sample is a real
    between the two ends. *)
Lemma linspace_f64_between (a b : R) :
  -1e6 <= a -> a <= b -> b <= 1e6 ->
  Forall (fin_between a b) (linspace (Fin a) (Fin b) 180).
Proof.
  intros Ha Hab Hb.
  assert (Hthr : 1e13 < overflow_threshold)
    by (unfold overflow_threshold; lra).
  unfold linspace. apply Forall_app. split.
  - apply Forall_forall. intros c Hc. apply in_map_iff in Hc.
    destruct Hc as (i & <- & Hi). apply in_seq in Hi.
    assert (Hi0 : 0 <= INR i) by apply pos_INR.
    assert (Hi1 : INR i <= 179).
    { rewrite <- INR_179. apply le_INR. lia. }
    rewrite INR_179. cbn [sub neg add].
    rewrite (fl_in_range (b + - a)) by lra.
    cbn [div]. destruct (Req_dec_T 179 0) as [E | _]; [lra |].
    set (s := (b + - a) / 179).
    assert (Hs : 0 <= s <= 2e6 / 179) by (unfold s; lra).
    assert (Hs1 : 0 <= s <= 12000) by lra.
    rewrite (fl_in_range s) by lra.
    cbn [mul].
    assert (Hp : 0 <= INR i * s <= b - a).
    { split; [apply Rmult_le_pos; lra |].
      replace (b - a) with (179 * s) by (unfold s; field).
      apply Rmult_le_compat_r; lra. }
    rewrite (fl_in_range (INR i * s)) by lra.
    cbn [add]. rewrite (fl_in_range (INR i * s + a)) by lra.
    exists (INR i * s + a). split; [reflexivity | lra].
  - constructor; [| constructor]. exists b. split; [reflexivity | lra].
Qed.

(** The axis around an estimate of 1 runs from 1/4 to 4. *)
Lemma unit_axis (lo : R) :
  0 < lo < 1 / 4 ->
  Forall (fin_between (1 / 4) 4)
         (linspace (py_max (Fin lo) (mul (Fin 1) (Fin 0.25)))
                   (mul (Fin 1) (Fin 4.0)) 180).
Proof.
  intros Hlo. cbn [mul].
  assert (Hthr : 1e13 < overflow_threshold)
    by (unfold overflow_threshold; lra).
  rewrite (fl_in_range (1 * 0.25)) by lra.
  rewrite (fl_in_range (1 * 4.0)) by lra.
  unfold py_max. cbn [ltb]. unfold Rltb.
  destruct (Rlt_dec lo (1 * 0.25)) as [_ | H]; [| lra].
  replace (1 * 0.25) with (1 / 4) by lra.
  replace (1 * 4.0) with 4 by lra.
  apply linspace_f64_between; lra.
Qed.

Lemma fold_fmax_all_finite (vs : list float64) (acc : float64) :
  isfinite acc = true -> Forall (fun v => isfinite v = true) vs ->
  isfinite (fold_left fmax vs acc) = true.
Proof.
  intros Ha Hall. revert acc Ha.
  induction Hall as [|v vs Hv _ IH]; intros acc Ha; [exact Ha |].
  cbn. apply IH.
  destruct (fmax_is_argument acc v) as [-> | ->]; assumption.
Qed.

Lemma in_grid (f : float64 -> float64 -> float64) (Kg Tg : list float64)
      (v : float64) :
  In v (List.concat (map (fun t => map (fun k => f k t) Kg) Tg)) ->
  exists k t, In k Kg /\ In t Tg /\ v = f k t.
Proof.
  intros H. apply in_concat in H. destruct H as (row & Hrow & Hv).
  apply in_map_iff in Hrow. destruct Hrow as (t & <- & Ht).
  apply in_map_iff in Hv. destruct Hv as (k & <- & Hk).
  exists k, t. auto.
Qed.

End ContourIeeeRuns.

Section ContourIeeeSamples.
Import Py Ieee SpecIeee PlotGammaIeee.

(** The sum of the sample [1e308, 1e308] overflows. *)
Lemma huge_sum_overflows : np_sum [Fin 1e308; Fin 1e308] = PInf.
Proof.
  unfold np_sum. cbn [fold_left add].
  rewrite (fl_in_range (0 + 1e308)) by (unfold overflow_threshold; lra).
  cbn [add]. unfold fl.
  destruct (Rle_dec overflow_threshold (0 + 1e308 + 1e308)) as [_ | H];
    [reflexivity | exfalso; apply H; unfold overflow_threshold; lra].
Qed.

(** With an infinite sum of the sample every cell at a positive scale is
    [-inf] or [nan]. *)
Lemma ll_cell_lost {SS : SciPySpecial} (x : list float64)
      (kk tt : float64) :
  np_sum x = PInf -> fin_between (1 / 4) 4 tt ->
  ll_cell x kk tt = NInf \/ ll_cell x kk tt = NaN.
Proof.
  intros Hs (t & -> & Ht). unfold ll_cell. rewrite Hs.
  assert (E : div PInf (Fin t) = PInf).
  { cbn. destruct (Rlt_dec t 0); [lra | reflexivity]. }
  rewrite E. apply sub_stays_lost, sub_stays_lost, sub_inf_lost.
Qed.

Lemma sum_one : np_sum [Fin 1] = Fin (0 + 1).
Proof.
  unfold np_sum. cbn [fold_left add].
  apply fl_in_range. unfold overflow_threshold. lra.
Qed.

Lemma sum_log_one : np_sum (map log [Fin 1]) = Fin (0 + 0).
Proof.
  unfold np_sum. cbn [map fold_left log].
  destruct (Rlt_dec 0 1) as [_ | H]; [| lra].
  rewrite ln_1, fl_zero. cbn [add].
  apply fl_in_range. unfold overflow_threshold. lra.
Qed.

(** On the sample [1.0] every cell of the grid around (1, 1) is finite. *)
Lemma ll_cell_unit_finite (kk tt : float64) :
  fin_between (1 / 4) 4 kk -> fin_between (1 / 4) 4 tt ->
  isfinite (ll_cell (SS := SampleIeee.special) [Fin 1] kk tt) = true.
Proof.
  intros Hk Ht.
  assert (Hkk : fin_abs 4 kk).
  { destruct Hk as (k & -> & Hk). exists k. split; [reflexivity |].
    apply Rabs_le. lra. }
  assert (Htt : fin_between (1 / 4) (4 + 1 / 4) tt).
  { destruct Ht as (t & -> & Ht'). exists t. split; [reflexivity | lra]. }
  assert (H1 : fin_abs 1 (Fin 1)).
  { exists 1. split; [reflexivity | rewrite Rabs_R1; lra]. }
  assert (H0 : fin_abs 0 (Fin (0 + 0))).
  { exists (0 + 0). split; [reflexivity |].
    replace (0 + 0) with 0 by lra. rewrite Rabs_R0. lra. }
  assert (Hs2 : fin_abs 4 (Fin (0 + 1))).
  { exists (0 + 1). split; [reflexivity |]. apply Rabs_le. lra. }
  assert (Hg : fin_abs 0 (Fin 0)).
  { exists 0. split; [reflexivity | rewrite Rabs_R0; lra]. }
  assert (Hn : fin_abs 1 (Fin (INR (List.length [Fin 1])))).
  { exists 1. split; [cbn; reflexivity | rewrite Rabs_R1; lra]. }
  unfold ll_cell. rewrite sum_one, sum_log_one.
  cbn [gammaln_f64 SampleIeee.special].
  assert (Hcell :
    fin_abs ((4 + 1) * 0 + 4 / (1 / 4) + 1 * 4 * 3 + 1 * 0)
      (sub (sub (sub (mul (sub kk (Fin 1)) (Fin (0 + 0)))
                     (div (Fin (0 + 1)) tt))
                (mul (mul (Fin (INR (List.length [Fin 1]))) kk) (log tt)))
           (mul (Fin (INR (List.length [Fin 1]))) (Fin 0)))).
  { repeat first
      [ apply sub_fin | apply mul_fin | apply div_fin | apply log_fin
      | assumption | unfold overflow_threshold; lra ]. }
  destruct Hcell as (r & -> & _). reflexivity.
Qed.

Lemma unit_sample_peak_finite (l : contour_locals) :
  plot_ll_contour_locals (SS := SampleIeee.special)
                         [Fin 1] (Fin 1) (Fin 1) = Return l ->
  isfinite (ll_max l) = true.
Proof.
  intros Hl.
  destruct (plot_ll_contour_locals_f64_inv _ _ _ _ Hl)
    as (HK & HT & Hll & Hmax & _ & _).
  clear Hl.
  assert (HKg : Forall (fin_between (1 / 4) 4) (K l))
    by (rewrite HK; apply unit_axis; lra).
  assert (HTg : Forall (fin_between (1 / 4) 4) (T l))
    by (rewrite HT; apply unit_axis; lra).
  clear HK HT.
  assert (Hcells : Forall (fun v => isfinite v = true)
                          (List.concat (ll l))).
  { rewrite Hll. apply Forall_forall. intros v Hv.
    apply in_grid in Hv. destruct Hv as (k & t & Hk & Ht & ->).
    rewrite Forall_forall in HKg, HTg.
    apply ll_cell_unit_finite; auto. }
  unfold np_nanmax in Hmax.
  destruct (List.concat (ll l)) as [|c cs]; [discriminate Hmax |].
  injection Hmax as <-.
  inversion Hcells as [|? ? Hc Hcs]; subst.
  apply fold_fmax_all_finite; assumption.
Qed.



End ContourIeeeSamples.

(* ================================================================== *)
(** * Concrete runs for the further properties *)
(* ================================================================== *)

Section MoreRuns.
Import Py Spec Props GenerateData.

(** Witness of X2. *)
Lemma loglike_permutation_witness :
  PlotGamma._loglike_gamma_loc0 (SP := Sample.scipy) [1; 2] 2 3 =
  PlotGamma._loglike_gamma_loc0 (SP := Sample.scipy) [2; 1] 2 3.
Proof.
  exact (loglike_permutation (SP := Sample.scipy) [1; 2] [2; 1] 2 3
           (perm_swap 2 1 [])).
Defined.

Lemma one_two_positive : Forall (fun v => 0 < v) [1; 2].
Proof. repeat constructor; lra. Qed.

(** Witness of X3: months to half-months. *)
Lemma loglike_rescale_witness :
  PlotGamma._loglike_gamma_loc0 (SP := Sample.scipy)
                                (map (Rmult 2) [1; 2]) 2 3 =
  PlotGamma._loglike_gamma_loc0 (SP := Sample.scipy) [1; 2] 2 (3 / 2)
  - INR 2 * ln 2.
Proof.
  apply (loglike_rescale (SP := Sample.scipy) [1; 2] 2 2 3);
    [lra | lra | exact one_two_positive].
Defined.

(** Witness of X4. *)
Lemma loglike_profile_max_witness :
  PlotGamma._loglike_gamma_loc0 (SP := Sample.scipy) [1; 2] 2 3 <=
  PlotGamma._loglike_gamma_loc0 (SP := Sample.scipy) [1; 2] 2
                                (np_mean [1; 2] / 2).
Proof.
  apply (loglike_profile_max (SP := Sample.scipy) [1; 2] 2 3);
    [discriminate | exact one_two_positive | lra | lra].
Defined.

Lemma nan_and_zero_dropped : no_positive_finite [NaN; Fin 0].
Proof.
  unfold no_positive_finite. constructor; [reflexivity |].
  constructor; [| constructor]. cbn. unfold Rltb.
  destruct (Rlt_dec 0 0); [lra | reflexivity].
Qed.

(** Witness of X5. *)
Lemma fit_gamma_loc0_ignores_dropped_witness :
  GammaMle.fit_gamma_loc0 (SP := Sample.scipy) ([Fin 1] ++ [NaN; Fin 0]) =
  GammaMle.fit_gamma_loc0 (SP := Sample.scipy) [Fin 1].
Proof.
  exact (proj1 (fit_gamma_loc0_ignores_dropped (SP := Sample.scipy)
                  [Fin 1] [NaN; Fin 0] nan_and_zero_dropped)).
Defined.

(** Witness of X6. *)
Lemma selected_column_exists_witness :
  in_columns "lifespan_months" Sample.two_numeric_columns = true /\
  exists x, to_numeric Sample.two_numeric_columns "lifespan_months"
            = Return x.
Proof.
  apply (selected_column_exists Sample.two_numeric_columns "months"
                                "lifespan_months").
  left. reflexivity.
Defined.

(** Witness of X7: the table is not on the disk. *)
Lemma estimator_main_raises_clean_witness :
  snd (GammaMle.main (SP := Sample.scipy) (PF := Sample.format)
                     GammaMle.default_args Sample.empty_world) =
  Sample.empty_world.
Proof.
  apply (estimator_main_raises_clean
           (SP := Sample.scipy) (PF := Sample.format)
           GammaMle.default_args Sample.empty_world FileNotFoundError).
  reflexivity.
Defined.

(** Witness of X8: a column of two distinct lifespans. *)
Lemma estimator_main_writes_report_witness :
  let a := GammaMle.default_args in
  let w := MoreSamples.lifespans_world in
  let x := [Fin 3.5; Fin 7.25] in
  match gamma_fit_floc0 (SciPy := Sample.scipy)
          (positive_finite_values x) with
  | Raise e =>
      GammaMle.main (SP := Sample.scipy) (PF := Sample.format) a w =
      (Raise e, w)
  | Return (k, loc, theta) =>
    let n := count_positive_finite x in
    let mean_ := np_sum (positive_finite_values x) / INR n in
    GammaMle.main (SP := Sample.scipy) (PF := Sample.format) a w =
      (Return tt,
       {| tsv_inputs := tsv_inputs w;
          files := (GammaMle.arg_out a,
                    TextFile (GammaMle.report_text
                                (PF := Sample.format)
                                (GammaMle.arg_tsv a) "lifespan_months"
                                k theta n mean_))
                   :: files w;
          dirs := dirname_or_dot (GammaMle.arg_out a) :: dirs w;
          stdout := stdout w ++
                    [format_repr (PyFormat := Sample.format) k ++
                     GammaMle.tab ++
                     format_repr (PyFormat := Sample.format) theta ++
                     GammaMle.tab ++ str_of_nat n ++ GammaMle.tab ++
                     format_repr (PyFormat := Sample.format) mean_];
          http := http w |})
  end.
Proof.
  intros a w x.
  apply (estimator_main_writes_report
           (SP := Sample.scipy) (PF := Sample.format)
           GammaMle.default_args MoreSamples.lifespans_world
           Sample.two_numeric_columns "lifespan_months"
           [Fin 3.5; Fin 7.25] eq_refl eq_refl eq_refl).
  exists 3.5. split; [left; reflexivity | lra].
Defined.


(** Witness of X12. *)
Lemma parse_title_body_round_trip_witness :
  parse_title_body
    ("TITLE: " ++ " Died early " ++ GenerateData.nl ++
     "BODY: " ++ "It quit: no charge.") =
  Return (strip " Died early ", strip "It quit: no charge.").
Proof.
  exact (parse_title_body_round_trip " Died early " "It quit: no charge."
           eq_refl eq_refl).
Defined.


(** Witness of X16: a window of one day. *)
Lemma rand_date_ymd_in_window_witness :
  exists off r',
    (0 <= off <= 0)%Z /\
    rand_date_ymd (PR := Sample.counter_rng) (DT := Sample.dates)
                  "2023-01-01" "2023-01-01" (0%nat, Sample.empty_world) =
      (add_days (PyDatetime := Sample.dates) 10%Z (IZR off),
       (r', Sample.empty_world)).
Proof.
  apply (proj1 (rand_date_ymd_in_window
                  (PR := Sample.counter_rng) (DT := Sample.dates)
                  (PRL := counter_rng_laws)
                  "2023-01-01" "2023-01-01" 10%Z 10%Z
                  0%nat Sample.empty_world eq_refl eq_refl)).
  cbn. lia.
Defined.

(** Witness of X17. *)
Lemma make_order_id_format_witness :
  exists cs r',
    make_order_id (PR := Sample.counter_rng) (0%nat, Sample.empty_world) =
      (Return ("O" ++ string_of_list_ascii cs), (r', Sample.empty_world)) /\
    List.length cs = 9%nat /\
    Forall (fun c => In c order_id_alphabet) cs /\
    String.length ("O" ++ string_of_list_ascii cs) = 10%nat.
Proof.
  exact (make_order_id_format (PR := Sample.counter_rng)
           (PRL := counter_rng_laws) 0%nat Sample.empty_world).
Defined.

(** Witness of X18. *)
Lemma pickers_in_range_witness :
  exists n r',
    pick_stars_failure (PR := Sample.counter_rng)
                       (0%nat, Sample.empty_world) =
      (Return n, (r', Sample.empty_world)) /\ (1 <= n <= 3)%nat.
Proof.
  exact (proj1 (pickers_in_range (PR := Sample.counter_rng)
                  (PRL := counter_rng_laws) 0%nat Sample.empty_world)).
Defined.

(** Witness of X19. *)
Lemma dataset_rows_are_well_formed_witness :
  exists rows,
    lookup "raw/reviews.tsv"
           (files (snd (make_dataset
                          (PR := Sample.counter_rng)
                          (NR := Sample.numpy_random)
                          (DT := Sample.dates) (PF := Sample.format)
                          (CSV := Sample.csv)
                          Sample.offline_env "raw/reviews.tsv"
                          Sample.small_params 1234 Sample.empty_world))) =
      Some (TextFile (tsv_text (CSV := Sample.csv) rows)) /\
    Forall well_formed_row rows.
Proof.
  exact (dataset_rows_are_well_formed
           (PR := Sample.counter_rng) (NR := Sample.numpy_random)
           (DT := Sample.dates) (PF := Sample.format) (CSV := Sample.csv)
           (PRL := counter_rng_laws) Sample.offline_env
           "raw/reviews.tsv" Sample.small_params 1234 Sample.empty_world
           eq_refl).
Defined.

(** Witness of X20. *)
Lemma make_dataset_row_count_witness :
  exists rows : list row,
    List.length rows =
      (List.length (sample_gamma_lifespans (NR := Sample.numpy_random)
                                           2.0 4.0 1 (1234 + 11))
       + List.length (sample_gamma_lifespans (NR := Sample.numpy_random)
                                             3.0 3.0 1 (1234 + 22))
       + 1 + 1)%nat.
Proof.
  destruct (make_dataset_row_count
              (PR := Sample.counter_rng) (NR := Sample.numpy_random)
              (DT := Sample.dates) (PF := Sample.format) (CSV := Sample.csv)
              (PRL := counter_rng_laws) Sample.offline_env
              "raw/reviews.tsv" Sample.small_params 1234 Sample.empty_world
              eq_refl) as (rows & Hlen & _).
  exists rows. exact Hlen.
Defined.

(** Witness of X21: the window of [reversed_params]. *)
Lemma make_dataset_row_failure_writes_nothing_witness :
  fst (make_dataset
         (PR := Sample.counter_rng) (NR := Sample.numpy_random)
         (DT := Sample.dates) (PF := Sample.format) (CSV := Sample.csv)
         Sample.offline_env "raw/reviews.tsv"
         MoreSamples.reversed_params 1234 Sample.empty_world)
  = Raise ValueError /\
  same_disk Sample.empty_world
            (snd (make_dataset
                    (PR := Sample.counter_rng) (NR := Sample.numpy_random)
                    (DT := Sample.dates) (PF := Sample.format)
                    (CSV := Sample.csv)
                    Sample.offline_env "raw/reviews.tsv"
                    MoreSamples.reversed_params 1234 Sample.empty_world)).
Proof.
  apply (make_dataset_row_failure_writes_nothing
           (PR := Sample.counter_rng) (NR := Sample.numpy_random)
           (DT := Sample.dates) (PF := Sample.format) (CSV := Sample.csv)
           Sample.offline_env "raw/reviews.tsv"
           MoreSamples.reversed_params 1234 Sample.empty_world ValueError).
  reflexivity.
Defined.

(** Witness of X22: the same window. *)
Lemma make_dataset_empty_window_witness :
  fst (make_dataset
         (PR := Sample.counter_rng) (NR := Sample.numpy_random)
         (DT := Sample.dates) (PF := Sample.format) (CSV := Sample.csv)
         Sample.offline_env "raw/reviews.tsv"
         MoreSamples.reversed_params 1234 Sample.empty_world) =
  Raise ValueError.
Proof.
  apply (make_dataset_empty_window
           (PR := Sample.counter_rng) (NR := Sample.numpy_random)
           (DT := Sample.dates) (PF := Sample.format) (CSV := Sample.csv)
           (PRL := counter_rng_laws) Sample.offline_env
           MoreSamples.reversed_params 10%Z 4%Z eq_refl eq_refl eq_refl
           "raw/reviews.tsv" 1234 Sample.empty_world).
  cbn. lia.
Defined.

End MoreRuns.
